(** * AUSEC club tool: membership, authentication and task identifiers

    A shallow embedding of the service functions of [apptest.py]
    ([get_subordinates], [authenticate_user], [register_user],
    [approve_user], [suspend_user], [reactivate_user], [delete_user],
    [update_user_role], [generate_unique_taskid]) together with the parts
    of pandas, hashlib and random they rely on.

    Modelling conventions.
    - Text is a [string] of 8-bit characters: the UTF-8 encoding of the
      Python text.  Every character the program inspects is ASCII.
    - A cell of a frame is text, an integer, or a float that holds an
      integer; a missing value (NaN) is the absence of the column's key in
      the row.
    - A frame is its column labels and its rows in order.  Every frame the
      program builds has unique index labels, so a label is the position of
      the row.
    - The program builds its frames with [pd.DataFrame] from a list of
      records (lines 102 and 111), so a column has the type pandas infers
      from its cells: [dtype_of].
    - A Python exception is a value of the error monad [py]; a
      [try]/[except] block is [try_except].
    - The Google worksheet is a piece of state threaded through the
      functions that write to it. *)

From Stdlib Require Import ZArith String Ascii List Lia.
From stdpp Require Import base decidable option list gmap strings pretty.
Import ListNotations.

Local Open Scope string_scope.
Local Open Scope Z_scope.

(** ** hashlib.sha256

    SHA-256 over bytes held as [Z], every 32-bit addition wrapped
    explicitly. *)
Module Sha256.

Definition word := Z.
Definition state : Type := (word * word * word * word * word * word * word * word)%type.

Definition wrap32 (x : Z) : word := x mod 2 ^ 32.

Definition add32 (x y : word) : word := wrap32 (x + y).

Definition rotr (n : Z) (x : word) : word :=
  Z.lor (Z.shiftr x n) (wrap32 (Z.shiftl x (32 - n))).

Definition ch (x y z : word) : word :=
  Z.lxor (Z.land x y) (Z.land (Z.lxor x 0xffffffff) z).

Definition maj (x y z : word) : word :=
  Z.lxor (Z.lxor (Z.land x y) (Z.land x z)) (Z.land y z).

Definition big_sigma0 (x : word) : word :=
  Z.lxor (Z.lxor (rotr 2 x) (rotr 13 x)) (rotr 22 x).

Definition big_sigma1 (x : word) : word :=
  Z.lxor (Z.lxor (rotr 6 x) (rotr 11 x)) (rotr 25 x).

Definition small_sigma0 (x : word) : word :=
  Z.lxor (Z.lxor (rotr 7 x) (rotr 18 x)) (Z.shiftr x 3).

Definition small_sigma1 (x : word) : word :=
  Z.lxor (Z.lxor (rotr 17 x) (rotr 19 x)) (Z.shiftr x 10).

(** The first 64 primes.  The round constants are the first 32 bits of
    the fractional parts of their cube roots, the initial state those of
    the square roots of the first eight. *)
Definition primes : list Z :=
  [2; 3; 5; 7; 11; 13; 17; 19; 23; 29; 31; 37; 41; 43; 47; 53; 59; 61; 67; 71; 73; 79;
   83; 89; 97; 101; 103; 107; 109; 113; 127; 131; 137; 139; 149; 151; 157; 163; 167;
   173; 179; 181; 191; 193; 197; 199; 211; 223; 227; 229; 233; 239; 241; 251; 257; 263;
   269; 271; 277; 281; 283; 293; 307; 311].

(** The integer cube root below [2 ^ bits], found bit by bit from [r]. *)
Fixpoint cube_root (bits : nat) (r n : Z) : Z :=
  match bits with
  | O => r
  | S b =>
      let r' := r + 2 ^ Z.of_nat b in
      cube_root b (if r' * r' * r' <=? n then r' else r) n
  end.

Definition round_constants : list word :=
  Eval vm_compute in (fun p => wrap32 (cube_root 40 0 (p * 2 ^ 96))) <$> primes.

Definition initial_words : list word :=
  Eval vm_compute in (fun p => wrap32 (Z.sqrt (p * 2 ^ 64))) <$> firstn 8 primes.

Definition initial_state : state :=
  match initial_words with
  | [a; b; c; d; e; f; g; h] => (a, b, c, d, e, f, g, h)
  | _ => (0, 0, 0, 0, 0, 0, 0, 0)
  end.

(** The message, a single 1 bit, zero bytes up to 56 modulo 64, and the
    bit length as a 64-bit big-endian integer. *)
Definition length_bytes (bits : Z) : list Z :=
  (fun i => Z.land (Z.shiftr bits (8 * i)) 0xff) <$> [7; 6; 5; 4; 3; 2; 1; 0].

Definition pad (msg : list Z) : list Z :=
  let l := Z.of_nat (length msg) in
  msg ++ [0x80] ++ repeat 0 (Z.to_nat ((55 - l) mod 64)) ++ length_bytes (8 * l).

Fixpoint words (bytes : list Z) : list word :=
  match bytes with
  | a :: b :: c :: d :: rest =>
      Z.lor (Z.lor (Z.lor (Z.shiftl a 24) (Z.shiftl b 16)) (Z.shiftl c 8)) d :: words rest
  | _ => []
  end.

(** [schedule n w] appends [n] further words to the schedule [w]. *)
Fixpoint schedule (n : nat) (w : list word) : list word :=
  match n with
  | O => w
  | S n' =>
      let t := length w in
      let at_ k := nth (t - k) w 0 in
      schedule n'
        (w ++ [add32 (add32 (add32 (small_sigma1 (at_ 2%nat)) (at_ 7%nat))
                            (small_sigma0 (at_ 15%nat))) (at_ 16%nat)])
  end.

Definition round (st : state) (kw : word * word) : state :=
  let '(a, b, c, d, e, f, g, h) := st in
  let t1 := add32 (add32 (add32 (add32 h (big_sigma1 e)) (ch e f g)) (fst kw)) (snd kw) in
  let t2 := add32 (big_sigma0 a) (maj a b c) in
  (add32 t1 t2, a, b, c, add32 d t1, e, f, g).

Definition compress (st : state) (block : list Z) : state :=
  let w := schedule 48 (words block) in
  let '(a, b, c, d, e, f, g, h) := st in
  let '(a', b', c', d', e', f', g', h') := fold_left round (combine round_constants w) st in
  (add32 a a', add32 b b', add32 c c', add32 d d',
   add32 e e', add32 f f', add32 g g', add32 h h').

Fixpoint absorb (blocks : nat) (bytes : list Z) (st : state) : state :=
  match blocks with
  | O => st
  | S n => absorb n (skipn 64 bytes) (compress st (firstn 64 bytes))
  end.

Definition digest (msg : list Z) : state :=
  let padded := pad msg in
  absorb (length padded / 64) padded initial_state.

Definition hex_digit (x : Z) : ascii :=
  nth (Z.to_nat (Z.land x 15)) (list_ascii_of_string "0123456789abcdef") "0"%char.

Definition hex_word (w : word) (tail : string) : string :=
  String (hex_digit (Z.shiftr w 28)) (String (hex_digit (Z.shiftr w 24))
  (String (hex_digit (Z.shiftr w 20)) (String (hex_digit (Z.shiftr w 16))
  (String (hex_digit (Z.shiftr w 12)) (String (hex_digit (Z.shiftr w 8))
  (String (hex_digit (Z.shiftr w 4)) (String (hex_digit w) tail))))))).

Definition hexdigest (st : state) : string :=
  let '(a, b, c, d, e, f, g, h) := st in
  hex_word a (hex_word b (hex_word c (hex_word d
    (hex_word e (hex_word f (hex_word g (hex_word h ""))))))).

End Sha256.

(** [password.encode()]: the bytes of the text. *)
Definition encode (s : string) : list Z :=
  (fun c => Z.of_N (N_of_ascii c)) <$> list_ascii_of_string s.

(** [hash_password]: the SHA-256 digest of the password in lowercase
    hexadecimal. *)
Definition hash_password (password : string) : string :=
  Sha256.hexdigest (Sha256.digest (encode password)).

(** ** Python values and exceptions *)

Inductive exn : Type :=
  | KeyError (key : string)
  | IndexError
  | IntCastingNaNError.

(** A computation that returns or raises. *)
Inductive py (A : Type) : Type :=
  | Ret (a : A)
  | Raise (e : exn).
Arguments Ret {A} a.
Arguments Raise {A} e.

#[global] Instance py_ret : MRet py := fun A a => Ret a.
#[global] Instance py_bind : MBind py := fun A B f m =>
  match m with
  | Ret a => f a
  | Raise e => Raise e
  end.

(** [try: m except Exception as e: handler e]. *)
Definition try_except {A : Type} (m : py A) (handler : exn -> A) : A :=
  match m with
  | Ret a => a
  | Raise e => handler e
  end.

(** [str(e)] for the exceptions pandas raises here. *)
Definition str_exn (e : exn) : string :=
  match e with
  | KeyError key => "'" +:+ key +:+ "'"
  | IndexError => "index 0 is out of bounds for axis 0 with size 0"
  | IntCastingNaNError => "Cannot convert non-finite values (NA or inf) to integer"
  end.

(** ** Floats

    The floats of this development hold integers: they are what pandas
    makes of an integer when it recasts a column to float64. *)

(** The float nearest to an integer: the significand has 53 bits, and a
    halfway case goes to the even one. *)
Definition nearest_float (z : Z) : Z :=
  let a := Z.abs z in
  let drop := Z.log2 a - 52 in
  if drop <=? 0 then z
  else
    let unit := 2 ^ drop in
    let q := a / unit in
    let r := a mod unit in
    let q' := if (unit <? 2 * r) || ((unit =? 2 * r) && Z.odd q) then q + 1 else q in
    Z.sgn z * (q' * unit).

(** The decimal with the fewest significant digits that reads back as the
    float [a]: the search goes through the multiples of [10 ^ k] next to
    [a], from the largest [k] down, and takes the nearer one when both
    read back as [a]. *)
Fixpoint shortest_decimal (k : nat) (a : Z) : Z :=
  let unit := 10 ^ Z.of_nat k in
  let below := a / unit * unit in
  let above := below + unit in
  let reads_back (c : Z) : bool := nearest_float c =? a in
  if reads_back below then
    if reads_back above && (above - a <? a - below) then above else below
  else if reads_back above then above
  else
    match k with
    | O => a
    | S k' => shortest_decimal k' a
    end.

Fixpoint drop_zeros (digits : list ascii) : list ascii :=
  match digits with
  | "0"%char :: rest => drop_zeros rest
  | _ => digits
  end.

(** [repr] of a float that holds the integer [z]: positional with ".0"
    below 1e16, otherwise the shortest digits in exponent notation. *)
Definition float_repr (z : Z) : string :=
  let a := Z.abs z in
  let sign := if z <? 0 then "-" else "" in
  if a <? 10 ^ 16 then sign +:+ pretty a +:+ ".0"
  else
    let digits := pretty (shortest_decimal (String.length (pretty a) - 1)%nat a) in
    let exponent := (String.length digits - 1)%nat in
    match rev (drop_zeros (rev (list_ascii_of_string digits))) with
    | d :: more =>
        sign +:+ String d (match more with
                           | [] => ""
                           | _ => "." +:+ string_of_list_ascii more
                           end)
             +:+ "e+" +:+ pretty exponent
    | [] => sign +:+ digits
    end.

(** ** pandas frames *)

Inductive cell : Type :=
  | Str (s : string)
  | Int (z : Z)
  | Float (z : Z).

#[global] Instance cell_eq_dec : EqDecision cell.
Proof. solve_decision. Defined.

(** A value read from a frame: [None] is NaN. *)
Definition value : Type := option cell.

Record DataFrame : Type := {
  columns : list string;
  rows : list (gmap string cell)
}.

(** [df.empty]: no rows or no columns. *)
Definition is_empty (df : DataFrame) : bool :=
  bool_decide (rows df = []) || bool_decide (columns df = []).

(** [c in df.columns]. *)
Definition has_column (df : DataFrame) (c : string) : bool :=
  bool_decide (c ∈ columns df).

(** [df[c]]: the column as a list of values; KeyError when absent. *)
Definition getitem (df : DataFrame) (c : string) : py (list value) :=
  if has_column df c then Ret ((fun r : gmap string cell => r !! c) <$> rows df)
  else Raise (KeyError c).

(** [v == s] for a Python text [s]: NaN and numbers differ from any text. *)
Definition is_text (v : value) (s : string) : bool :=
  match v with
  | Some (Str t) => String.eqb t s
  | _ => false
  end.

(** The number a cell holds. *)
Definition number (c : cell) : option Z :=
  match c with
  | Str _ => None
  | Int z | Float z => Some z
  end.

(** [v == w] between two values read from a frame: texts are compared as
    texts and numbers by what they hold, so an integer equals the float
    of the same value; a text equals no number, and NaN equals nothing. *)
Definition value_eqb (v w : value) : bool :=
  match v, w with
  | Some (Str s), Some (Str t) => String.eqb s t
  | Some a, Some b =>
      match number a, number b with
      | Some x, Some y => x =? y
      | _, _ => false
      end
  | _, _ => false
  end.

(** A boolean Series over the rows of a frame is the row predicate that
    computes it.  [df[c] == s], [df[c] != s], [df[c].isin(l)] and
    [df[c] == v] raise KeyError when the column is absent. *)
Definition mask : Type := gmap string cell -> bool.

Definition col_is (df : DataFrame) (c s : string) : py mask :=
  if has_column df c then Ret (fun r => is_text (r !! c) s)
  else Raise (KeyError c).

Definition col_is_not (df : DataFrame) (c s : string) : py mask :=
  if has_column df c then Ret (fun r => negb (is_text (r !! c) s))
  else Raise (KeyError c).

Definition col_isin (df : DataFrame) (c : string) (l : list string) : py mask :=
  if has_column df c then Ret (fun r => existsb (is_text (r !! c)) l)
  else Raise (KeyError c).

Definition col_eq (df : DataFrame) (c : string) (v : value) : py mask :=
  if has_column df c then Ret (fun r => value_eqb (r !! c) v)
  else Raise (KeyError c).

(** [df[mask]]. *)
Definition select (df : DataFrame) (m : mask) : DataFrame :=
  {| columns := columns df; rows := List.filter m (rows df) |}.

(** [series.iloc[0]]. *)
Definition iloc0 (series : list value) : py value :=
  match series with
  | v :: _ => Ret v
  | [] => Raise IndexError
  end.

(** [df[mask].index[0]]: the label of the first selected row. *)
Fixpoint first_index (m : mask) (rs : list (gmap string cell)) : py nat :=
  match rs with
  | [] => Raise IndexError
  | r :: rest => if m r then Ret O else i ← first_index m rest; Ret (S i)
  end.

(** [df.at[idx, c]]; a label or a column that does not exist is a
    KeyError. *)
Definition at_get (df : DataFrame) (idx : nat) (c : string) : py value :=
  if has_column df c then
    match rows df !! idx with
    | Some r => Ret (r !! c)
    | None => Raise (KeyError c)
    end
  else Raise (KeyError c).

(** [df.at[idx, c] = Str s]: sets one cell; a column that does not exist
    yet is added, NaN in every other row. *)
Definition at_set (df : DataFrame) (idx : nat) (c : string) (s : string) : DataFrame :=
  {| columns := if has_column df c then columns df else columns df ++ [c];
     rows := alter (fun r : gmap string cell => <[c := Str s]> r) idx (rows df) |}.

(** [pd.DataFrame([record])]. *)
Definition of_record (keys : list string) (record : gmap string cell) : DataFrame :=
  {| columns := keys; rows := [record] |}.

(** The type of a column.  [pd.DataFrame] on a list of records gives a
    column of floats and missing values float64, a column of integers
    int64 when they all fit, uint64 when they do not but are all between
    0 and 2^64, and any other column object. *)
Inductive dtype : Type := int64 | uint64 | float64 | object.

#[global] Instance dtype_eq_dec : EqDecision dtype.
Proof. solve_decision. Defined.

Definition is_float (v : value) : bool :=
  match v with
  | Some (Float _) | None => true
  | _ => false
  end.

Definition is_int (lo hi : Z) (v : value) : bool :=
  match v with
  | Some (Int z) => (lo <=? z) && (z <? hi)
  | _ => false
  end.

Definition dtype_of (series : list value) : dtype :=
  if forallb is_float series then float64
  else if forallb (is_int (- 2 ^ 63) (2 ^ 63)) series then int64
  else if forallb (is_int 0 (2 ^ 64)) series then uint64
  else object.

(** The type of a column put together from two parts: object when a
    part is, else float64 unless both parts are integers of one type. *)
Definition common_type (a b : dtype) : dtype :=
  match a, b with
  | object, _ | _, object => object
  | int64, int64 => int64
  | uint64, uint64 => uint64
  | _, _ => float64
  end.

(** What a cell becomes in a column that is recast to float64. *)
Definition as_float (c : cell) : cell :=
  match c with
  | Int z => Float (nearest_float z)
  | _ => c
  end.

(** Whether column [c] of the concatenation is float64.  A column that
    one of the two frames does not have is all missing values there. *)
Definition recast (df : DataFrame) (record : gmap string cell) (c : string) : bool :=
  bool_decide
    (common_type (dtype_of ((fun r : gmap string cell => r !! c) <$> rows df))
                 (dtype_of [record !! c]) = float64).

Definition fit (df : DataFrame) (record r : gmap string cell) : gmap string cell :=
  map_imap (fun c v => Some (if recast df record c then as_float v else v)) r.

(** [pd.concat([df, pd.DataFrame([record])], ignore_index=True)], where
    [record] has a value or NaN for each of [keys] and for nothing else:
    the columns of [df], then the new ones; the rows of [df], then the
    record; every column in its common type. *)
Definition concat (df : DataFrame) (keys : list string) (record : gmap string cell) : DataFrame :=
  {| columns := columns df ++ List.filter (fun k => negb (has_column df k)) keys;
     rows := fit df record <$> (rows df ++ [record])%list |}.

(** [str(v)]. *)
Definition str (v : value) : string :=
  match v with
  | Some (Str s) => s
  | Some (Int z) => pretty z
  | Some (Float z) => float_repr z
  | None => "nan"
  end.

(** [df.astype(str)]: every cell of every column becomes text. *)
Definition row_as_str (cols : list string) (r : gmap string cell) : gmap string cell :=
  list_to_map ((fun c => (c, Str (str (r !! c)))) <$> cols).

Definition astype_str (df : DataFrame) : DataFrame :=
  {| columns := columns df; rows := row_as_str (columns df) <$> rows df |}.

(** ** Role hierarchy *)

(** The body of the [try] block of [get_subordinates]. *)
Definition get_subordinates_body (member_name : string) (members_df : DataFrame)
  : py (list value) :=
  is_member ← col_is members_df "Name" member_name;
  let member_row := select members_df is_member in
  if is_empty member_row then Ret []
  else
    member_role ← getitem member_row "Role" ≫= iloc0;
    if is_text member_role "Dev" then
      active ← col_is members_df "Status" "Active";
      getitem (select members_df active) "Name"
    else if is_text member_role "Core Head" then
      allowed ← col_isin members_df "Role" ["Domain Head"; "Core Head"];
      active ← col_is members_df "Status" "Active";
      getitem (select members_df (fun r => allowed r && active r)) "Name"
    else if is_text member_role "Domain Head" then
      if has_column members_df "Domain" then
        domain ← getitem member_row "Domain" ≫= iloc0;
        associate ← col_is members_df "Role" "Associate Head";
        same_domain ← col_eq members_df "Domain" domain;
        active ← col_is members_df "Status" "Active";
        getitem (select members_df (fun r => associate r && same_domain r && active r)) "Name"
      else
        associate ← col_is members_df "Role" "Associate Head";
        active ← col_is members_df "Status" "Active";
        getitem (select members_df (fun r => associate r && active r)) "Name"
    else if is_text member_role "Associate Head" then
      if has_column members_df "ReportsTo" then
        junior ← col_is members_df "Role" "Junior Head";
        reports ← col_is members_df "ReportsTo" member_name;
        active ← col_is members_df "Status" "Active";
        getitem (select members_df (fun r => junior r && reports r && active r)) "Name"
      else
        junior ← col_is members_df "Role" "Junior Head";
        active ← col_is members_df "Status" "Active";
        getitem (select members_df (fun r => junior r && active r)) "Name"
    else Ret [].

Definition get_subordinates (member_name : string) (members_df : DataFrame) : list value :=
  if is_empty members_df then []
  else try_except (get_subordinates_body member_name members_df) (fun _ => []).

(** ** Authentication *)

(** [c.lower()] on one character and on a text. *)
Definition lower_ascii (c : ascii) : ascii :=
  let n := N_of_ascii c in
  if ((65 <=? n) && (n <=? 90))%N then ascii_of_N (n + 32) else c.

Fixpoint lower (s : string) : string :=
  match s with
  | EmptyString => EmptyString
  | String c rest => String (lower_ascii c) (lower rest)
  end.

(** [len(s) == 64 and all(c in "0123456789abcdef" for c in s.lower())].
    A text that passes has only ASCII characters, so counting bytes and
    lower-casing bytes agree with Python's count and [lower()] on it. *)
Definition looks_like_hash (s : string) : bool :=
  (String.length s =? 64)%nat
  && forallb (fun c => bool_decide (c ∈ list_ascii_of_string "0123456789abcdef"))
       (list_ascii_of_string (lower s)).

(** The result tuple [(success, user, role, message)]; [None] is Python's
    [None]. *)
Definition auth_result : Type := (bool * option string * option value * string)%type.

Definition authenticate_user (username password : string) (members_df : DataFrame)
  : py auth_result :=
  if is_empty members_df then Ret (false, None, None, "No users found")
  else
    is_user ← col_is members_df "Name" username;
    let user_row := select members_df is_user in
    if is_empty user_row then Ret (false, None, None, "User not found")
    else
      user_status ← (if has_column members_df "Status"
                     then getitem user_row "Status" ≫= iloc0
                     else Ret (Some (Str "Active")));
      user_role ← (if has_column members_df "Role"
                   then getitem user_row "Role" ≫= iloc0
                   else Ret (Some (Str "")));
      if negb (is_text user_role "Dev") && negb (is_text user_status "Active") then
        if is_text user_status "Pending" then
          Ret (false, None, None, "Account pending approval")
        else if is_text user_status "Suspended" then
          Ret (false, None, None, "Account suspended")
        else Ret (false, None, None, "Account inactive")
      else if has_column members_df "Password" then
        stored ← getitem user_row "Password" ≫= iloc0;
        let stored_password := str stored in
        if looks_like_hash stored_password then
          if String.eqb (hash_password password) stored_password then
            Ret (true, Some username, Some user_role, "Success")
          else Ret (false, None, None, "Invalid credentials")
        else
          if String.eqb password stored_password then
            Ret (true, Some username, Some user_role, "Success")
          else Ret (false, None, None, "Invalid credentials")
      else
        if String.eqb password "password123" then
          Ret (true, Some username, Some user_role, "Success")
        else Ret (false, None, None, "Invalid credentials").

(** ** The Members worksheet *)

(** The spreadsheet backend: whether it can be reached, and the content of
    the Members worksheet, header and records of text cells.  A write to
    a backend that cannot be reached fails before it changes anything. *)
Record Gsheet : Type := {
  online : bool;
  members_ws : DataFrame
}.

Definition cleared : DataFrame := {| columns := []; rows := [] |}.

(** Clears the worksheet, then writes the header and every row as text
    unless the frame is empty; any exception gives [False]. *)
Definition update_members_sheet_optimized (df : DataFrame) (gs : Gsheet) : bool * Gsheet :=
  if online gs then
    (true, {| online := true;
              members_ws := if negb (is_empty df) then astype_str df else cleared |})
  else (false, gs).

(** ** Membership lifecycle *)

Definition new_user_keys : list string :=
  ["Name"; "Role"; "Password"; "Status"; "ApprovedBy"; "CreatedAt"].

(** [now] is [datetime.now().strftime("%Y-%m-%d %H:%M:%S")]. *)
Definition register_user (name password role : string) (members_df : DataFrame)
    (now : string) (gs : Gsheet) : py ((bool * string) * Gsheet) :=
  let hashed_pw := hash_password password in
  let '(initial_status, approved_by) :=
    if String.eqb role "Dev" then
      if is_empty members_df then ("Active", "System") else ("Pending", "")
    else ("Pending", "") in
  let new_user : gmap string cell :=
    list_to_map [("Name", Str name); ("Role", Str role); ("Password", Str hashed_pw);
                 ("Status", Str initial_status); ("ApprovedBy", Str approved_by);
                 ("CreatedAt", Str now)] in
  let save (members_df : DataFrame) : (bool * string) * Gsheet :=
    let '(saved, gs') := update_members_sheet_optimized members_df gs in
    if saved then
      if String.eqb role "Dev" then
        if is_empty members_df then
          ((true, "Dev registration successful! You can now log in."), gs')
        else
          ((true, "Dev registration submitted! Awaiting approval by the parent Dev."), gs')
      else
        ((true, "Registration successful! Your account is pending approval by a Dev."), gs')
    else ((false, "Error saving user."), gs') in
  if is_empty members_df then Ret (save (of_record new_user_keys new_user))
  else
    names ← getitem members_df "Name";
    if existsb (fun v => is_text v name) names then
      Ret ((false, "User already exists."), gs)
    else Ret (save (concat members_df new_user_keys new_user)).

(** The functions below change [members_df] in place: the frame they
    return is the caller's frame after the call. *)
Definition lifecycle_result : Type := ((bool * string) * DataFrame * Gsheet)%type.

Definition approve_user (user_name : string) (members_df : DataFrame)
    (approver_name : string) (gs : Gsheet) : lifecycle_result :=
  try_except
    (is_user ← col_is members_df "Name" user_name;
     user_idx ← first_index is_user (rows members_df);
     user_role ← at_get members_df user_idx "Role";
     let approved :=
       at_set (at_set members_df user_idx "Status" "Active")
              user_idx "ApprovedBy" approver_name in
     let save (members_df : DataFrame) : lifecycle_result :=
       let '(saved, gs') := update_members_sheet_optimized members_df gs in
       if saved then
         ((true, "User " +:+ user_name +:+ " approved successfully!"), members_df, gs')
       else ((false, "Error updating user status."), members_df, gs') in
     let refuse : lifecycle_result :=
       ((false, "Only the parent Dev can approve new Devs."), members_df, gs) in
     if is_text user_role "Dev" then
       is_dev ← col_is members_df "Role" "Dev";
       by_system ← col_is members_df "ApprovedBy" "System";
       let parent_dev_row := select members_df (fun r => is_dev r && by_system r) in
       if negb (is_empty parent_dev_row) then
         parent ← getitem parent_dev_row "Name" ≫= iloc0;
         if is_text parent approver_name then Ret (save approved) else Ret refuse
       else Ret refuse
     else Ret (save approved))
    (fun e => ((false, "Error approving user: " +:+ str_exn e), members_df, gs)).

Definition suspend_user (user_name : string) (members_df : DataFrame) (gs : Gsheet)
  : lifecycle_result :=
  try_except
    (is_user ← col_is members_df "Name" user_name;
     user_idx ← first_index is_user (rows members_df);
     let members_df := at_set members_df user_idx "Status" "Suspended" in
     let '(saved, gs') := update_members_sheet_optimized members_df gs in
     if saved then
       Ret ((true, "User " +:+ user_name +:+ " suspended successfully!"), members_df, gs')
     else Ret ((false, "Error suspending user."), members_df, gs'))
    (fun e => ((false, "Error suspending user: " +:+ str_exn e), members_df, gs)).

Definition reactivate_user (user_name : string) (members_df : DataFrame) (gs : Gsheet)
  : lifecycle_result :=
  try_except
    (is_user ← col_is members_df "Name" user_name;
     user_idx ← first_index is_user (rows members_df);
     let members_df := at_set members_df user_idx "Status" "Active" in
     let '(saved, gs') := update_members_sheet_optimized members_df gs in
     if saved then
       Ret ((true, "User " +:+ user_name +:+ " reactivated successfully!"), members_df, gs')
     else Ret ((false, "Error reactivating user."), members_df, gs'))
    (fun e => ((false, "Error reactivating user: " +:+ str_exn e), members_df, gs)).

(** [delete_user] rebinds [members_df] to a new frame and returns it as
    the third component of its result. *)
Definition delete_user (user_name : string) (members_df : DataFrame) (gs : Gsheet)
  : lifecycle_result :=
  try_except
    (others ← col_is_not members_df "Name" user_name;
     let members_df := select members_df others in
     let '(saved, gs') := update_members_sheet_optimized members_df gs in
     if saved then
       Ret ((true, "User " +:+ user_name +:+ " deleted successfully!"), members_df, gs')
     else Ret ((false, "Error deleting user."), members_df, gs'))
    (fun e => ((false, "Error deleting user: " +:+ str_exn e), members_df, gs)).

Definition update_user_role (user_name new_role : string) (members_df : DataFrame)
    (gs : Gsheet) : lifecycle_result :=
  try_except
    (is_user ← col_is members_df "Name" user_name;
     user_idx ← first_index is_user (rows members_df);
     let members_df := at_set members_df user_idx "Role" new_role in
     let '(saved, gs') := update_members_sheet_optimized members_df gs in
     if saved then
       Ret ((true, "User " +:+ user_name +:+ "'s role updated to " +:+ new_role +:+ "!"),
            members_df, gs')
     else Ret ((false, "Error updating user role."), members_df, gs'))
    (fun e => ((false, "Error updating user role: " +:+ str_exn e), members_df, gs)).

(** ** Task identifiers *)

(** [random.randint(lo, hi)]: an integer between [lo] and [hi], both
    included, fixed by the next output of the generator. *)
Definition randint (lo hi : Z) (output : Z) : Z := lo + output mod (hi - lo + 1).

(** What [pd.to_numeric(..., errors="coerce")] finds in a cell: a number,
    held here as the integer [astype(int)] keeps of it; an infinity; or
    nothing, which is NaN. *)
Inductive reading : Type :=
  | Number (z : Z)
  | Infinity
  | NotANumber.

Section TaskIds.

(** How [pd.to_numeric] reads a text. *)
Variable to_numeric_text : string -> reading.

Definition to_numeric (v : value) : reading :=
  match v with
  | Some (Str s) => to_numeric_text s
  | Some (Int z) | Some (Float z) => Number z
  | None => NotANumber
  end.

(** [series.dropna()]. *)
Definition dropna (series : list reading) : list reading :=
  List.filter (fun x => match x with NotANumber => false | _ => true end) series.

(** [series.astype(int)]: IntCastingNaNError when a value is not
    finite. *)
Fixpoint astype_int (series : list reading) : py (list Z) :=
  match series with
  | [] => Ret []
  | Number z :: rest => ids ← astype_int rest; Ret (z :: ids)
  | _ :: _ => Raise IntCastingNaNError
  end.

(** [set(pd.to_numeric(tasks_df["TaskID"], errors="coerce").dropna().astype(int))]. *)
Definition existing_ids (tasks_df : DataFrame) : py (gset Z) :=
  series ← getitem tasks_df "TaskID";
  ids ← astype_int (dropna (to_numeric <$> series));
  Ret (list_to_set ids).

(** The [while True] loop.  [outputs] is what the random generator will
    produce from now on; the loop runs until an identifier is free, and
    [None] says it is still running when the listed outputs are used up. *)
Fixpoint resample (existing : gset Z) (outputs : list Z) : option (Z * list Z) :=
  match outputs with
  | [] => None
  | output :: rest =>
      let new_id := randint 100000 999999 output in
      if bool_decide (new_id ∈ existing) then resample existing rest
      else Some (new_id, rest)
  end.

Definition generate_unique_taskid (tasks_df : DataFrame) (outputs : list Z)
  : py (option (Z * list Z)) :=
  if is_empty tasks_df || negb (has_column tasks_df "TaskID") then
    Ret (match outputs with
         | [] => None
         | output :: rest => Some (randint 100000 999999 output, rest)
         end)
  else
    existing ← existing_ids tasks_df;
    Ret (resample existing outputs).

(** The task form of the dashboard: the fields the user fills in. *)
Record task_form : Type := {
  task_name : string;
  assigned_to : value;
  user_role : value;
  deadline : string;
  priority : string;
  description : string
}.

Definition task_keys : list string :=
  ["TaskID"; "TaskName"; "AssignedTo"; "Role"; "Status"; "Deadline"; "Priority";
   "Description"].

Definition set_value (k : string) (v : value) (r : gmap string cell) : gmap string cell :=
  match v with
  | Some c => <[k := c]> r
  | None => r
  end.

Definition new_task (task_id : Z) (form : task_form) : gmap string cell :=
  <["TaskID" := Int task_id]>
    (<["TaskName" := Str (task_name form)]>
      (set_value "AssignedTo" (assigned_to form)
        (set_value "Role" (user_role form)
          (<["Status" := Str "Pending"]>
            (<["Deadline" := Str (deadline form)]>
              (<["Priority" := Str (priority form)]>
                (<["Description" := Str (description form)]> ∅))))))).

(** One submission of the form: draw an identifier, append the task. *)
Definition assign_task (form : task_form) (tasks_df : DataFrame) (outputs : list Z)
  : py (option (Z * DataFrame * list Z)) :=
  drawn ← generate_unique_taskid tasks_df outputs;
  Ret (match drawn with
       | None => None
       | Some (task_id, outputs') =>
           let tasks_df' :=
             if is_empty tasks_df then of_record task_keys (new_task task_id form)
             else concat tasks_df task_keys (new_task task_id form) in
           Some (task_id, tasks_df', outputs')
       end).


(** The number a cell of the TaskID column stands for. *)
Definition read_id (r : gmap string cell) : option Z :=
  match to_numeric (r !! "TaskID") with
  | Number z => Some z
  | _ => None
  end.

(** The TaskID set of a frame: the numbers its TaskID cells stand for;
    empty when it has no such column. *)
Definition task_ids (tasks_df : DataFrame) : gset Z :=
  if has_column tasks_df "TaskID" then list_to_set (omap read_id (rows tasks_df)) else ∅.

(** A frame with tasks in which a cell of the TaskID column reads as an
    infinity. *)
Definition infinite_id (tasks_df : DataFrame) : bool :=
  negb (is_empty tasks_df) && has_column tasks_df "TaskID"
  && existsb (fun r : gmap string cell =>
                match to_numeric (r !! "TaskID") with
                | Infinity => true
                | _ => false
                end) (rows tasks_df).

End TaskIds.

(** ** Sample directories *)

Definition member_columns : list string :=
  ["Name"; "Role"; "Password"; "Status"; "ApprovedBy"; "CreatedAt"].

Definition member (name role password status approved_by : string) : gmap string cell :=
  list_to_map [("Name", Str name); ("Role", Str role); ("Password", Str password);
               ("Status", Str status); ("ApprovedBy", Str approved_by);
               ("CreatedAt", Str "2024-01-01 09:00:00")].

Definition alice : gmap string cell := member "Alice" "Dev" "letmein" "Active" "System".
Definition bob : gmap string cell := member "Bob" "Core Head" "hunter2" "Active" "Alice".
Definition carol : gmap string cell := member "Carol" "Domain Head" "swordfish" "Active" "Alice".
Definition dave : gmap string cell := member "Dave" "Associate Head" "opensesame" "Pending" "".
Definition erin : gmap string cell := member "Erin" "Junior Head" "qwerty" "Active" "Alice".

(** A directory whose only member is the bootstrap Dev. *)
Definition solo_dev : DataFrame := {| columns := member_columns; rows := [alice] |}.

(** One member of each role, their credentials stored as typed. *)
Definition club : DataFrame :=
  {| columns := member_columns; rows := [alice; bob; carol; dave; erin] |}.

(** A frame without one of its columns. *)
Definition drop_column (c : string) (df : DataFrame) : DataFrame :=
  {| columns := List.filter (fun k => negb (String.eqb k c)) (columns df);
     rows := (fun r : gmap string cell => delete c r) <$> rows df |}.

Definition club_without_status : DataFrame := drop_column "Status" club.

Definition club_without_password : DataFrame := drop_column "Password" club.

(** Members whose credentials are stored hashed: Frank's password is
    "secret", Grace's is "pw". *)
Definition frank : gmap string cell :=
  member "Frank" "Dev" "2bb80d537b1da3e38bd30361aa855686bde0eacd7162fef6a25fe97bf527a25b"
    "Suspended" "".

Definition grace : gmap string cell :=
  member "Grace" "Junior Head"
    "30c952fab122c3f9759f02a6d95c3758b246b4fee239957b2d4fee46e26170c4" "Active" "Frank".

Definition hashed_staff : DataFrame :=
  {| columns := member_columns; rows := [frank; grace] |}.

(** A directory in which a Core Head registered before any Dev. *)
Definition no_dev_yet : DataFrame :=
  {| columns := member_columns;
     rows := [member "Bob" "Core Head" "hunter2" "Pending" ""] |}.

(** A reachable backend with an empty worksheet, and one that cannot be
    reached. *)
Definition backend : Gsheet := {| online := true; members_ws := cleared |}.

Definition backend_down : Gsheet := {| online := false; members_ws := cleared |}.

(** The club with Frank, a Dev who is suspended. *)
Definition club_and_frank : DataFrame :=
  {| columns := member_columns; rows := [alice; bob; carol; dave; erin; frank] |}.

(** A reading of text cells that takes an unsigned decimal numeral as its
    number, "inf" as an infinity, and finds nothing in any other text. *)
Fixpoint decimal (acc : Z) (s : string) : option Z :=
  match s with
  | EmptyString => Some acc
  | String c rest =>
      let n := N_of_ascii c in
      if ((48 <=? n) && (n <=? 57))%N then decimal (10 * acc + Z.of_N (n - 48)) rest
      else None
  end.

Definition numeral (s : string) : reading :=
  if String.eqb s "inf" then Infinity
  else
    match s, decimal 0 s with
    | String _ _, Some z => Number z
    | _, _ => NotANumber
    end.

Definition form_for (name assignee : string) : task_form :=
  {| task_name := name; assigned_to := Some (Str assignee);
     user_role := Some (Str "Core Head"); deadline := "2024-03-01";
     priority := "Medium"; description := "as discussed" |}.

(** Two tasks, the identifier of the second held as text. *)
Definition two_tasks : DataFrame :=
  {| columns := task_keys;
     rows := [new_task 100000 (form_for "Poster" "Carol");
              <["TaskID" := Str "100001"]> (new_task 0 (form_for "Venue" "Carol"))] |}.

(** ** Vocabulary of the properties *)

(** The member a name designates: the first row that bears it. *)
Definition find_member (name : string) (members_df : DataFrame) : option (gmap string cell) :=
  head (List.filter (fun r => is_text (r !! "Name") name) (rows members_df)).

(** The role of the requester: the Role cell of the first row that bears
    the requester's name. *)
Definition requester_role (member_name : string) (members_df : DataFrame) : option value :=
  (fun r : gmap string cell => r !! "Role") <$> find_member member_name members_df.

(** The hierarchy rule: which target roles a requester's role reaches. *)
Definition may_assign (requester target : value) : bool :=
  if is_text requester "Dev" then true
  else if is_text requester "Core Head" then
    existsb (is_text target) ["Domain Head"; "Core Head"]
  else if is_text requester "Domain Head" then is_text target "Associate Head"
  else if is_text requester "Associate Head" then is_text target "Junior Head"
  else false.

(** Names are unique across the directory. *)
Definition unique_names (members_df : DataFrame) : Prop :=
  NoDup ((fun r : gmap string cell => r !! "Name") <$> rows members_df).

(** A hexadecimal digit, lower or upper case. *)
Definition hex_char (c : ascii) : bool :=
  let n := N_of_ascii c in
  (((48 <=? n) && (n <=? 57)) || ((97 <=? n) && (n <=? 102))
   || ((65 <=? n) && (n <=? 70)))%N.

(** A text of 64 hexadecimal digits. *)
Definition hex64 (s : string) : bool :=
  (String.length s =? 64)%nat && forallb hex_char (list_ascii_of_string s).

(** The Status and the Role [authenticate_user] reads for a member: the
    cell when the column exists, otherwise its default. *)
Definition status_of (members_df : DataFrame) (r : gmap string cell) : value :=
  if has_column members_df "Status" then r !! "Status" else Some (Str "Active").

Definition role_of (members_df : DataFrame) (r : gmap string cell) : value :=
  if has_column members_df "Role" then r !! "Role" else Some (Str "").

(** The status gate: a Dev, or an Active member. *)
Definition passes_status_gate (members_df : DataFrame) (r : gmap string cell) : bool :=
  is_text (role_of members_df r) "Dev" || is_text (status_of members_df r) "Active".

(** The reason keyed to the Status of a member the gate stops. *)
Definition status_reason (status : value) : string :=
  if is_text status "Pending" then "Account pending approval"
  else if is_text status "Suspended" then "Account suspended"
  else "Account inactive".

Definition success (username : string) (role : value) : auth_result :=
  (true, Some username, Some role, "Success").

Definition failure (reason : string) : auth_result := (false, None, None, reason).

(** The stored credential of a member, as text. *)
Definition stored_credential (r : gmap string cell) : string := str (r !! "Password").

(** Whether the password is the right one for the member: the hash
    comparison for a stored credential of 64 hexadecimal characters, the
    text comparison for any other, the default password when there is no
    Password column. *)
Definition correct_password (password : string) (members_df : DataFrame)
    (r : gmap string cell) : bool :=
  if has_column members_df "Password" then
    if looks_like_hash (stored_credential r)
    then String.eqb (hash_password password) (stored_credential r)
    else String.eqb password (stored_credential r)
  else String.eqb password "password123".

(** The record [register_user] builds. *)
Definition new_user (name role hashed_pw status approved_by now : string)
  : gmap string cell :=
  list_to_map [("Name", Str name); ("Role", Str role); ("Password", Str hashed_pw);
               ("Status", Str status); ("ApprovedBy", Str approved_by);
               ("CreatedAt", Str now)].

(** The last row of the worksheet carries these account fields. *)
Definition stored_last (gs : Gsheet) (name role password status approved_by : string)
  : Prop :=
  ∃ r, last (rows (members_ws gs)) = Some r
    ∧ r !! "Name" = Some (Str name) ∧ r !! "Role" = Some (Str role)
    ∧ r !! "Password" = Some (Str password)
    ∧ r !! "Status" = Some (Str status) ∧ r !! "ApprovedBy" = Some (Str approved_by).

(** The message of a registration that was saved. *)
Definition registered_message (role : string) : string :=
  if String.eqb role "Dev"
  then "Dev registration submitted! Awaiting approval by the parent Dev."
  else "Registration successful! Your account is pending approval by a Dev.".

(** [df[df["Name"] == name]] as a mask. *)
Definition named (name : string) : mask := fun r => is_text (r !! "Name") name.

(** The frame with one cell of row [i], which was [r], set to the text [s]. *)
Definition with_field (df : DataFrame) (i : nat) (r : gmap string cell) (c s : string)
  : DataFrame :=
  {| columns := if has_column df c then columns df else (columns df ++ [c])%list;
     rows := <[i := <[c := Str s]> r]> (rows df) |}.

(** The bootstrap Dev: the Name of the first row whose Role is "Dev" and
    whose ApprovedBy is "System". *)
Definition bootstrap_dev (members_df : DataFrame) : option value :=
  (fun r : gmap string cell => r !! "Name")
  <$> head (List.filter
              (fun r => is_text (r !! "Role") "Dev" && is_text (r !! "ApprovedBy") "System")
              (rows members_df)).

(** ** Further functions of the program *)

(** [verify_password]. *)
Definition verify_password (password hashed : string) : bool :=
  String.eqb (hash_password password) hashed.

(** The login page: [active_users], [dev_users] and their concatenation,
    the names the select box offers (there without repetition, sorted, and
    after an empty first choice).  With an empty directory the page shows
    no form. *)
Definition active_users (members_df : DataFrame) : py (list value) :=
  if has_column members_df "Status" then
    active ← col_is members_df "Status" "Active";
    getitem (select members_df active) "Name"
  else getitem members_df "Name".

Definition dev_users (members_df : DataFrame) : py (list value) :=
  if has_column members_df "Role" then
    is_dev ← col_is members_df "Role" "Dev";
    getitem (select members_df is_dev) "Name"
  else Ret [].

Definition available_users (members_df : DataFrame) : py (list value) :=
  if is_empty members_df then Ret []
  else
    active ← active_users members_df;
    devs ← dev_users members_df;
    Ret (active ++ devs)%list.

(** The Dev dashboard: [total_members], [pending_count], [active_count]
    and [suspended_count]. *)
Definition count_status (members_df : DataFrame) (status : string) : nat :=
  length (List.filter (fun r : gmap string cell => is_text (r !! "Status") status)
            (rows members_df)).

Definition member_counts (members_df : DataFrame) : nat * nat * nat * nat :=
  let total_members := length (rows members_df) in
  let pending_count :=
    if has_column members_df "Status" then count_status members_df "Pending" else O in
  let active_count :=
    if has_column members_df "Status" then count_status members_df "Active"
    else total_members in
  let suspended_count :=
    if has_column members_df "Status" then count_status members_df "Suspended" else O in
  (total_members, pending_count, active_count, suspended_count).

(** [df[c] = s]: the whole column becomes the text [s]. *)
Definition set_column (df : DataFrame) (c s : string) : DataFrame :=
  {| columns := if has_column df c then columns df else columns df ++ [c];
     rows := (fun r : gmap string cell => <[c := Str s]> r) <$> rows df |}.

(** The "Reset Member Status" button: a copy of the directory with every
    Status "Active" is written; the directory in memory is not changed. *)
Definition reset_member_status (members_df : DataFrame) (gs : Gsheet) : bool * Gsheet :=
  let members_copy := set_column members_df "Status" "Active" in
  update_members_sheet_optimized members_copy gs.

(** The Tasks worksheet of the same spreadsheet, and
    [update_tasks_sheet_optimized]. *)
Record Tasksheet : Type := {
  tasks_online : bool;
  tasks_ws : DataFrame
}.

Definition update_tasks_sheet_optimized (df : DataFrame) (ts : Tasksheet)
  : bool * Tasksheet :=
  if tasks_online ts then
    (true, {| tasks_online := true;
              tasks_ws := if negb (is_empty df) then astype_str df else cleared |})
  else (false, ts).

(** The "Update" button of a task: the first row whose TaskID equals the
    task's gets the new Status, and the frame is written.  The flag says
    whether the write succeeded. *)
Definition update_task_status (task_id : value) (new_status : string)
    (tasks_df : DataFrame) (ts : Tasksheet) : py (bool * DataFrame * Tasksheet) :=
  same_id ← col_eq tasks_df "TaskID" task_id;
  task_idx ← first_index same_id (rows tasks_df);
  let tasks_df := at_set tasks_df task_idx "Status" new_status in
  let '(saved, ts') := update_tasks_sheet_optimized tasks_df ts in
  Ret (saved, tasks_df, ts').

(** ** Vocabulary of the further properties *)

(** Every row holds cells only for the columns of the frame. *)
Definition well_formed (df : DataFrame) : Prop :=
  ∀ r c, r ∈ rows df → is_Some (r !! c) → c ∈ columns df.

(** A lower-case hexadecimal digit. *)
Definition lower_hex_char (c : ascii) : bool :=
  let n := N_of_ascii c in
  (((48 <=? n) && (n <=? 57)) || ((97 <=? n) && (n <=? 102)))%N.

(** Two cells hold the same value: they are the same cell, or an integer
    and a float of one value. *)
Definition same_value (a b : cell) : Prop :=
  a = b ∨ ∃ z, number a = Some z ∧ number b = Some z.

(** The row [r] is the record as a frame stores it: under every column
    the cell of the record, or the float nearest to its integer. *)
Definition stores (r record : gmap string cell) : Prop :=
  ∀ c, r !! c = record !! c ∨ r !! c = as_float <$> record !! c.

(** Column [c] holds an integer in every row, each exactly a float. *)
Definition whole_numbers (df : DataFrame) (c : string) : Prop :=
  ∀ r, r ∈ rows df → ∃ z, r !! c = Some (Int z) ∧ - 2 ^ 53 < z < 2 ^ 53.

(** Column [c] holds a text in some row. *)
Definition holds_text (df : DataFrame) (c : string) : Prop :=
  ∃ r s, r ∈ rows df ∧ r !! c = Some (Str s).

(** A directory that tracks Domain and ReportsTo: Heidi has no Domain. *)
Definition officer (name role status : string) (domain reports_to : option string)
  : gmap string cell :=
  set_value "Domain" (Str <$> domain)
    (set_value "ReportsTo" (Str <$> reports_to)
      (list_to_map [("Name", Str name); ("Role", Str role); ("Status", Str status)])).

Definition gina : gmap string cell := officer "Gina" "Domain Head" "Active" (Some "Web") None.
Definition heidi : gmap string cell := officer "Heidi" "Domain Head" "Active" None None.
Definition ivan : gmap string cell :=
  officer "Ivan" "Associate Head" "Active" (Some "Web") (Some "Gina").
Definition judy : gmap string cell :=
  officer "Judy" "Associate Head" "Active" (Some "Design") (Some "Heidi").
Definition kim : gmap string cell :=
  officer "Kim" "Junior Head" "Active" (Some "Web") (Some "Ivan").
Definition leo : gmap string cell :=
  officer "Leo" "Junior Head" "Active" (Some "Web") (Some "Judy").

Definition chapters : DataFrame :=
  {| columns := ["Name"; "Role"; "Status"; "Domain"; "ReportsTo"];
     rows := [gina; heidi; ivan; judy; kim; leo] |}.

(** Frank again, his digest stored in upper case. *)
Definition loud_frank : gmap string cell :=
  member "Frank" "Dev" "2BB80D537B1DA3E38BD30361AA855686BDE0EACD7162FEF6A25FE97BF527A25B"
    "Active" "System".

Definition loud_staff : DataFrame := {| columns := member_columns; rows := [loud_frank] |}.

(** Bob's Password cell is missing. *)
Definition club_lost_password : DataFrame :=
  {| columns := member_columns; rows := [alice; delete "Password" bob] |}.

(** A task frame that uses every identifier from 100000 to 999999. *)
Definition task_with_id (z : Z) : gmap string cell := {["TaskID" := Int z]}.

Definition all_ids_used : DataFrame :=
  {| columns := ["TaskID"]; rows := task_with_id <$> seqZ 100000 900000 |}.

(** A reachable Tasks worksheet. *)
Definition tasks_backend : Tasksheet := {| tasks_online := true; tasks_ws := cleared |}.


(** The club with the year each member joined, a column of integers, and
    with a badge column that holds an integer and texts. *)
Definition joined (year : Z) (badge : cell) (r : gmap string cell) : gmap string cell :=
  <["Year" := Int year]> (<["Badge" := badge]> r).

Definition club_by_year : DataFrame :=
  {| columns := (member_columns ++ ["Year"; "Badge"])%list;
     rows := [joined 2021 (Int 7) alice; joined 2022 (Str "B-12") bob;
              joined 2022 (Str "B-13") carol; joined 2024 (Str "B-20") dave;
              joined 2023 (Str "B-15") erin] |}.

(** * Properties *)

(** ** SHA-256 test vectors *)

Example hash_password_empty :
  hash_password "" = "e3b0c44298fc1c149afbf4c8996fb92427ae41e4649b934ca495991b7852b855".
Proof. vm_compute. reflexivity. Qed.

Example hash_password_abc :
  hash_password "abc" = "ba7816bf8f01cfea414140de5dae2223b00361a396177a9cb410ff61f20015ad".
Proof. vm_compute. reflexivity. Qed.

Example hash_password_two_blocks :
  hash_password "aaaaaaaaaaaaaaaaaaaaaaaaaaaaaaaaaaaaaaaaaaaaaaaaaaaaaaaa"
  = "b35439a4ac6f0948b6d6f9e3c6af0f5f590ce20f1bde7090ef7970686ec6738a".
Proof. vm_compute. reflexivity. Qed.

(** ** The functions on the sample directories *)

Example get_subordinates_of_dev :
  get_subordinates "Alice" club
  = [Some (Str "Alice"); Some (Str "Bob"); Some (Str "Carol"); Some (Str "Erin")].
Proof. reflexivity. Qed.

Example get_subordinates_of_core_head :
  get_subordinates "Bob" club = [Some (Str "Bob"); Some (Str "Carol")].
Proof. reflexivity. Qed.

Example get_subordinates_of_domain_head : get_subordinates "Carol" club = [].
Proof. reflexivity. Qed.

Example authenticate_user_wrong_password :
  authenticate_user "Bob" "hunter3" club = Ret (false, None, None, "Invalid credentials").
Proof. reflexivity. Qed.

Example authenticate_user_without_name_column :
  authenticate_user "Bob" "hunter2" (drop_column "Name" club) = Raise (KeyError "Name").
Proof. reflexivity. Qed.

Example register_user_backend_down :
  register_user "Heidi" "pw" "Junior Head" club "2024-02-01 10:00:00" backend_down
  = Ret ((false, "Error saving user."), backend_down).
Proof. reflexivity. Qed.

Example suspend_user_absent_name :
  suspend_user "Zed" club backend
  = ((false, "Error suspending user: index 0 is out of bounds for axis 0 with size 0"),
     club, backend).
Proof. reflexivity. Qed.

(** ** Frames *)

Lemma has_column_select df m c : has_column (select df m) c = has_column df c.
Proof. reflexivity. Qed.

Lemma elem_of_filter_rows {A : Type} (m : A → bool) (rs : list A) r :
  r ∈ List.filter m rs ↔ r ∈ rs ∧ m r = true.
Proof. rewrite !list_elem_of_In. apply filter_In. Qed.

Lemma elem_of_getitem_select df m c l v :
  getitem (select df m) c = Ret l → v ∈ l →
  ∃ r, r ∈ rows df ∧ m r = true ∧ r !! c = v.
Proof.
  unfold getitem. rewrite has_column_select.
  destruct (has_column df c); [|discriminate].
  intros [= <-] Hv. simpl in Hv.
  apply list_elem_of_fmap in Hv as (r & -> & Hr).
  apply elem_of_filter_rows in Hr as [Hr Hm]. eauto.
Qed.

Lemma is_text_true v s : is_text v s = true ↔ v = Some (Str s).
Proof.
  destruct v as [[t|z|z]|]; simpl; try (split; [discriminate|intros [=]]).
  rewrite String.eqb_eq. split; [intros ->; reflexivity|intros [=]; assumption].
Qed.

Lemma elem_of_names_select df (m : mask) c v :
  v ∈ try_except (getitem (select df m) c) (fun _ => []) →
  ∃ r, r ∈ rows df ∧ m r = true ∧ r !! c = v.
Proof.
  destruct (getitem (select df m) c) as [l|e] eqn:Hg; simpl.
  - eauto using elem_of_getitem_select.
  - intros H; inversion H.
Qed.

Lemma is_empty_false df : is_empty df = false → rows df ≠ [] ∧ columns df ≠ [].
Proof.
  unfold is_empty. intros [H1 H2]%orb_false_elim.
  apply bool_decide_eq_false in H1, H2. done.
Qed.

Lemma is_empty_select_false df m :
  columns df ≠ [] → is_empty (select df m) = bool_decide (List.filter m (rows df) = []).
Proof.
  intros Hc. unfold is_empty. simpl.
  rewrite (bool_decide_eq_false_2 (columns df = [])) by done. apply orb_false_r.
Qed.

Lemma first_cell_select df (m : mask) c r0 rest :
  List.filter m (rows df) = r0 :: rest →
  getitem (select df m) c ≫= iloc0
  = if has_column df c then Ret (r0 !! c) else Raise (KeyError c).
Proof.
  intros Hf. unfold getitem. rewrite has_column_select.
  destruct (has_column df c); [|reflexivity]. simpl. rewrite Hf. reflexivity.
Qed.

#[local] Arguments getitem : simpl never.
#[local] Arguments select : simpl never.
#[local] Arguments has_column : simpl never.

Lemma find_member_first name members_df r0 :
  find_member name members_df = Some r0 →
  ∃ rest, List.filter (fun r => is_text (r !! "Name") name) (rows members_df) = r0 :: rest.
Proof.
  unfold find_member.
  destruct (List.filter _ (rows members_df)) as [|r rest]; simpl; [discriminate|].
  intros [= ->]. eauto.
Qed.

Lemma find_member_named name members_df r0 :
  find_member name members_df = Some r0 →
  r0 ∈ rows members_df ∧ r0 !! "Name" = Some (Str name).
Proof.
  intros [rest Hf]%find_member_first.
  assert (Hin : r0 ∈ List.filter (fun r => is_text (r !! "Name") name) (rows members_df))
    by (rewrite Hf; left).
  apply elem_of_filter_rows in Hin as [Hin Hn%is_text_true]. done.
Qed.

Lemma find_member_absent name members_df :
  (∀ r, r ∈ rows members_df → r !! "Name" ≠ Some (Str name)) →
  List.filter (fun r => is_text (r !! "Name") name) (rows members_df) = [].
Proof.
  intros Habs.
  destruct (List.filter _ (rows members_df)) as [|r0 rest] eqn:Hf; [reflexivity|].
  assert (Hin : r0 ∈ List.filter (fun r => is_text (r !! "Name") name) (rows members_df))
    by (rewrite Hf; left).
  apply elem_of_filter_rows in Hin as [Hin Hn%is_text_true].
  destruct (Habs r0 Hin Hn).
Qed.

(** ** Role hierarchy *)

Ltac split_source_tests df :=
  repeat match goal with
    | |- context [has_column df ?c] => destruct (has_column df c) eqn:?; simpl
    | |- context [if is_text ?a ?b then _ else _] => destruct (is_text a b) eqn:?; simpl
    end.

Lemma get_subordinates_sound member_name members_df v :
  v ∈ get_subordinates member_name members_df →
  ∃ r role, r ∈ rows members_df ∧ r !! "Name" = v
    ∧ r !! "Status" = Some (Str "Active")
    ∧ requester_role member_name members_df = Some role
    ∧ may_assign role (r !! "Role") = true.
Proof.
  unfold get_subordinates, get_subordinates_body, requester_role, find_member.
  destruct (is_empty members_df) eqn:He; [intros H; inversion H|].
  apply is_empty_false in He as [_ Hc].
  unfold col_is, col_isin, col_eq.
  destruct (has_column members_df "Name"); simpl; [|intros H; inversion H].
  rewrite is_empty_select_false by done.
  destruct (List.filter _ (rows members_df)) as [|r0 rest] eqn:Hf; simpl.
  { intros H; inversion H. }
  rewrite !(first_cell_select _ _ _ _ _ Hf).
  split_source_tests members_df;
    try (intros H; inversion H; fail);
    intros (r & Hr & Hm & Hn)%elem_of_names_select;
    exists r, (r0 !! "Role"); unfold may_assign;
    repeat match goal with H : is_text (r0 !! "Role") _ = _ |- _ => rewrite H; clear H end;
    simpl in *.
  all: repeat match goal with
         | H : _ && _ = true |- _ => apply andb_prop in H as [? ?]
         end.
  all: repeat match goal with
         | H : is_text (_ !! "Status") _ = true |- _ => apply is_text_true in H
         end.
  all: try done.
Qed.

Lemma requester_role_first member_name members_df role :
  requester_role member_name members_df = Some role →
  ∃ r0 rest,
    List.filter (fun r => is_text (r !! "Name") member_name) (rows members_df) = r0 :: rest
    ∧ role = r0 !! "Role".
Proof.
  unfold requester_role.
  destruct (find_member member_name members_df) as [r0|] eqn:Hm; simpl; [|discriminate].
  intros [= <-]. apply find_member_first in Hm as [rest Hf]. eauto.
Qed.

Lemma get_subordinates_terminal member_name members_df role :
  requester_role member_name members_df = Some role →
  is_text role "Dev" = false → is_text role "Core Head" = false →
  is_text role "Domain Head" = false → is_text role "Associate Head" = false →
  get_subordinates member_name members_df = [].
Proof.
  intros (r0 & rest & Hf & ->)%requester_role_first HD HC HO HA.
  unfold get_subordinates, get_subordinates_body.
  destruct (is_empty members_df) eqn:He; [reflexivity|].
  apply is_empty_false in He as [_ Hc].
  unfold col_is.
  destruct (has_column members_df "Name"); simpl; [|reflexivity].
  rewrite is_empty_select_false by done. rewrite Hf. simpl.
  rewrite (first_cell_select _ _ "Role" _ _ Hf).
  destruct (has_column members_df "Role"); simpl; [|reflexivity].
  rewrite HD, HC, HO, HA. reflexivity.
Qed.

Lemma get_subordinates_absent member_name members_df :
  (∀ r, r ∈ rows members_df → r !! "Name" ≠ Some (Str member_name)) →
  get_subordinates member_name members_df = [].
Proof.
  intros Habs.
  unfold get_subordinates, get_subordinates_body.
  destruct (is_empty members_df) eqn:He; [reflexivity|].
  apply is_empty_false in He as [_ Hc].
  unfold col_is.
  destruct (has_column members_df "Name"); simpl; [|reflexivity].
  rewrite is_empty_select_false by done.
  rewrite (find_member_absent _ _ Habs). reflexivity.
Qed.

Lemma fmap_NoDup_eq {A B : Type} (f : A → B) (l : list A) x y :
  NoDup (f <$> l) → x ∈ l → y ∈ l → f x = f y → x = y.
Proof.
  induction l as [|a l IH]; simpl; intros Hnd Hx Hy Hxy.
  - inversion Hx.
  - apply NoDup_cons in Hnd as [Ha Hnd].
    apply elem_of_cons in Hx as [->|Hx]; apply elem_of_cons in Hy as [->|Hy];
      try done.
    + destruct Ha. rewrite Hxy. apply list_elem_of_fmap. eauto.
    + destruct Ha. rewrite <- Hxy. apply list_elem_of_fmap. eauto.
    + eauto.
Qed.

(** C1, as amended.  Every name [get_subordinates] returns is the Name of
    a member whose Status is Active; and in a directory with unique names
    the requester's own name is returned only when the requester's role is
    Dev or Core Head. *)
Theorem get_subordinates_active_and_self member_name members_df :
  (∀ v, v ∈ get_subordinates member_name members_df →
        ∃ r, r ∈ rows members_df ∧ r !! "Name" = v
             ∧ r !! "Status" = Some (Str "Active"))
  ∧ (unique_names members_df →
     Some (Str member_name) ∈ get_subordinates member_name members_df →
     requester_role member_name members_df = Some (Some (Str "Dev"))
     ∨ requester_role member_name members_df = Some (Some (Str "Core Head"))).
Proof.
  split.
  - intros v (r & role & Hr & Hn & Hs & _)%get_subordinates_sound. eauto.
  - intros Huniq (r & role & Hr & Hn & Hs & Hrole & Hmay)%get_subordinates_sound.
    destruct (requester_role_first _ _ _ Hrole) as (r0 & rest & Hf & ->).
    assert (Hin : r0 ∈ List.filter (fun r => is_text (r !! "Name") member_name)
                    (rows members_df)) by (rewrite Hf; left).
    apply elem_of_filter_rows in Hin as [Hin Hn0%is_text_true].
    assert (r = r0) as ->.
    { apply (fmap_NoDup_eq (fun r : gmap string cell => r !! "Name") (rows members_df));
        [exact Huniq|done|done|congruence]. }
    rewrite Hrole. unfold may_assign in Hmay.
    destruct (is_text (r0 !! "Role") "Dev") eqn:HD.
    { apply is_text_true in HD. rewrite HD. by left. }
    destruct (is_text (r0 !! "Role") "Core Head") eqn:HC.
    { apply is_text_true in HC. rewrite HC. by right. }
    destruct (is_text (r0 !! "Role") "Domain Head") eqn:HO.
    { apply is_text_true in HO. rewrite HO in Hmay. discriminate. }
    destruct (is_text (r0 !! "Role") "Associate Head") eqn:HA; [|discriminate].
    apply is_text_true in HA. rewrite HA in Hmay. discriminate.
Qed.

(** C8.  [get_subordinates] is a total function into lists: an exception
    raised inside its body is turned into the empty list, and so are an
    empty directory, a requester no row bears the name of, and a requester
    whose role is Junior Head. *)
Theorem get_subordinates_total member_name members_df :
  (∀ e, get_subordinates_body member_name members_df = Raise e →
        get_subordinates member_name members_df = [])
  ∧ (is_empty members_df = true → get_subordinates member_name members_df = [])
  ∧ ((∀ r, r ∈ rows members_df → r !! "Name" ≠ Some (Str member_name)) →
     get_subordinates member_name members_df = [])
  ∧ (requester_role member_name members_df = Some (Some (Str "Junior Head")) →
     get_subordinates member_name members_df = []).
Proof.
  repeat split.
  - intros e He. unfold get_subordinates. rewrite He. by destruct (is_empty members_df).
  - intros He. unfold get_subordinates. by rewrite He.
  - apply get_subordinates_absent.
  - intros Hrole. by apply (get_subordinates_terminal _ _ _ Hrole).
Qed.

Ltac by_evaluation :=
  first [ reflexivity | discriminate
        | vm_compute; first [reflexivity | discriminate | exact I] ].

Lemma get_subordinates_active_and_self_witness :
  unique_names club
  ∧ Some (Str "Bob") ∈ get_subordinates "Bob" club
  ∧ (requester_role "Bob" club = Some (Some (Str "Dev"))
     ∨ requester_role "Bob" club = Some (Some (Str "Core Head"))).
Proof.
  assert (Hu : unique_names club) by (unfold unique_names; apply (bool_decide_unpack _); vm_compute; exact I).
  assert (Hin : Some (Str "Bob") ∈ get_subordinates "Bob" club)
    by (apply (bool_decide_unpack _); vm_compute; exact I).
  split; [exact Hu|]. split; [exact Hin|].
  exact (proj2 (get_subordinates_active_and_self "Bob" club) Hu Hin).
Defined.

(** C1 as stated fails for a Dev: the only member of [solo_dev] is an
    Active Dev, names are unique, and the Dev's own name is returned. *)
Lemma get_subordinates_dev_returns_self :
  unique_names solo_dev
  ∧ requester_role "Alice" solo_dev = Some (Some (Str "Dev"))
  ∧ get_subordinates "Alice" solo_dev = [Some (Str "Alice")].
Proof.
  split; [unfold unique_names; apply (bool_decide_unpack _); vm_compute; exact I|].
  split; by_evaluation.
Qed.

Lemma get_subordinates_total_witness :
  get_subordinates "Alice" club_without_status = []
  ∧ get_subordinates "Alice" cleared = []
  ∧ get_subordinates "Zed" club = []
  ∧ get_subordinates "Erin" club = [].
Proof.
  pose proof (get_subordinates_total "Alice" club_without_status) as (H1 & _).
  pose proof (get_subordinates_total "Alice" cleared) as (_ & H2 & _).
  pose proof (get_subordinates_total "Zed" club) as (_ & _ & H3 & _).
  pose proof (get_subordinates_total "Erin" club) as (_ & _ & _ & H4).
  split; [|split; [|split]].
  - apply (H1 (KeyError "Status")). by_evaluation.
  - apply H2. by_evaluation.
  - apply H3. intros r Hr.
    repeat (apply elem_of_cons in Hr as [->|Hr]; [by_evaluation|]).
    inversion Hr.
  - apply H4. by_evaluation.
Defined.

(** ** Hashes as text *)

Lemma lower_ascii_hex c :
  bool_decide (lower_ascii c ∈ list_ascii_of_string "0123456789abcdef") = hex_char c.
Proof. destruct c as [[] [] [] [] [] [] [] []]; vm_compute; reflexivity. Qed.

Lemma forallb_lower (p : ascii → bool) s :
  forallb p (list_ascii_of_string (lower s))
  = forallb (fun c => p (lower_ascii c)) (list_ascii_of_string s).
Proof. induction s as [|c s IH]; simpl; [reflexivity|]. by rewrite IH. Qed.

Lemma forallb_pointwise {A : Type} (p q : A → bool) (l : list A) :
  (∀ x, p x = q x) → forallb p l = forallb q l.
Proof. intros H. induction l as [|x l IH]; simpl; [reflexivity|]. by rewrite H, IH. Qed.

Lemma looks_like_hash_hex64 s : looks_like_hash s = hex64 s.
Proof.
  unfold looks_like_hash, hex64. f_equal.
  rewrite forallb_lower. apply forallb_pointwise, lower_ascii_hex.
Qed.

Lemma hex_digit_hex_char x : hex_char (Sha256.hex_digit x) = true.
Proof.
  unfold Sha256.hex_digit.
  assert (Hb : 0 ≤ Z.land x 15 < 16).
  { change 15 with (Z.ones 4). rewrite Z.land_ones by lia. apply Z.mod_pos_bound. lia. }
  assert (Hn : (Z.to_nat (Z.land x 15) < 16)%nat) by lia.
  revert Hn. generalize (Z.to_nat (Z.land x 15)). clear. intros n Hn.
  do 16 (destruct n as [|n]; [reflexivity|]). lia.
Qed.

Lemma hexdigest_hex64 st : hex64 (Sha256.hexdigest st) = true.
Proof.
  destruct st as [[[[[[[a b] c] d] e] f] g] h].
  unfold hex64, Sha256.hexdigest, Sha256.hex_word.
  cbn [String.length list_ascii_of_string forallb].
  rewrite !hex_digit_hex_char. reflexivity.
Qed.

Lemma hash_password_looks_like_hash password :
  looks_like_hash (hash_password password) = true.
Proof. rewrite looks_like_hash_hex64. apply hexdigest_hex64. Qed.

(** ** Authentication *)

#[local] Arguments hash_password : simpl never.
#[local] Arguments looks_like_hash : simpl never.
#[local] Arguments str : simpl never.

Lemma authenticate_user_found username password members_df r :
  is_empty members_df = false →
  has_column members_df "Name" = true →
  find_member username members_df = Some r →
  authenticate_user username password members_df
  = Ret (if passes_status_gate members_df r then
           if correct_password password members_df r
           then success username (role_of members_df r)
           else failure "Invalid credentials"
         else failure (status_reason (status_of members_df r))).
Proof.
  intros He HN [rest Hf]%find_member_first.
  unfold authenticate_user. rewrite He.
  apply is_empty_false in He as [_ Hc].
  unfold col_is. rewrite HN. simpl.
  rewrite is_empty_select_false by done. rewrite Hf. simpl.
  rewrite !(first_cell_select _ _ _ _ _ Hf).
  unfold passes_status_gate, correct_password, status_reason, status_of, role_of,
    stored_credential, success, failure.
  destruct (has_column members_df "Status"), (has_column members_df "Role"),
    (has_column members_df "Password"); simpl;
    repeat match goal with
      | |- context [is_text ?a ?b] => destruct (is_text a b); simpl
      | |- context [looks_like_hash ?a] => destruct (looks_like_hash a); simpl
      | |- context [String.eqb ?a ?b] => destruct (String.eqb a b); simpl
      end; reflexivity.
Qed.

Lemma authenticate_user_not_found username password members_df :
  is_empty members_df = false →
  has_column members_df "Name" = true →
  (∀ r, r ∈ rows members_df → r !! "Name" ≠ Some (Str username)) →
  authenticate_user username password members_df = Ret (failure "User not found").
Proof.
  intros He HN Habs.
  unfold authenticate_user. rewrite He.
  apply is_empty_false in He as [_ Hc].
  unfold col_is. rewrite HN. simpl.
  rewrite is_empty_select_false by done.
  rewrite (find_member_absent _ _ Habs). reflexivity.
Qed.

(** C2.  [authenticate_user] applies its policy in order: an empty
    directory gives "No users found"; a name no row bears gives "User not
    found"; a member who is not a Dev and whose Status is not Active gets
    the reason keyed to that Status; and for a Dev the Status is not
    looked at: the result is that of the password check alone. *)
Theorem authenticate_user_policy username password members_df :
  (is_empty members_df = true →
   authenticate_user username password members_df = Ret (failure "No users found"))
  ∧ (is_empty members_df = false → has_column members_df "Name" = true →
     (∀ r, r ∈ rows members_df → r !! "Name" ≠ Some (Str username)) →
     authenticate_user username password members_df = Ret (failure "User not found"))
  ∧ (∀ r, is_empty members_df = false → has_column members_df "Name" = true →
     find_member username members_df = Some r →
     is_text (role_of members_df r) "Dev" = false →
     is_text (status_of members_df r) "Active" = false →
     authenticate_user username password members_df
     = Ret (failure (if is_text (status_of members_df r) "Pending"
                     then "Account pending approval"
                     else if is_text (status_of members_df r) "Suspended"
                     then "Account suspended"
                     else "Account inactive")))
  ∧ (∀ r, is_empty members_df = false → has_column members_df "Name" = true →
     find_member username members_df = Some r →
     role_of members_df r = Some (Str "Dev") →
     authenticate_user username password members_df
     = Ret (if correct_password password members_df r
            then success username (Some (Str "Dev"))
            else failure "Invalid credentials")).
Proof.
  split; [|split; [|split]].
  - intros He. unfold authenticate_user. by rewrite He.
  - apply authenticate_user_not_found.
  - intros r He HN Hr Hrole Hstatus.
    rewrite (authenticate_user_found _ _ _ _ He HN Hr).
    unfold passes_status_gate. rewrite Hrole, Hstatus. reflexivity.
  - intros r He HN Hr Hrole.
    rewrite (authenticate_user_found _ _ _ _ He HN Hr).
    unfold passes_status_gate. rewrite Hrole. reflexivity.
Qed.

(** C3.  For a member who passes the status gate, [authenticate_user]
    succeeds exactly when: the hash of the password equals the stored
    credential, if that is 64 hexadecimal characters; the password equals
    the stored credential, if it is anything else; the password is
    "password123", if the directory has no Password column.  Otherwise
    the result is "Invalid credentials". *)
Theorem authenticate_user_password username password members_df r :
  is_empty members_df = false →
  has_column members_df "Name" = true →
  find_member username members_df = Some r →
  passes_status_gate members_df r = true →
  let result := authenticate_user username password members_df in
  let succeeds := result = Ret (success username (role_of members_df r)) in
  (succeeds ∨ result = Ret (failure "Invalid credentials"))
  ∧ (has_column members_df "Password" = true →
     hex64 (stored_credential r) = true →
     (succeeds ↔ hash_password password = stored_credential r))
  ∧ (has_column members_df "Password" = true →
     hex64 (stored_credential r) = false →
     (succeeds ↔ password = stored_credential r))
  ∧ (has_column members_df "Password" = false →
     (succeeds ↔ password = "password123")).
Proof.
  intros He HN Hr Hgate. simpl.
  rewrite (authenticate_user_found _ _ _ _ He HN Hr), Hgate.
  unfold correct_password.
  split; [|split; [|split]].
  - destruct (if has_column members_df "Password" then _ else _); auto.
  - intros -> Hh. rewrite <- looks_like_hash_hex64 in Hh. rewrite Hh, <- String.eqb_eq.
    destruct (String.eqb _ _); split; done.
  - intros -> Hh. rewrite <- looks_like_hash_hex64 in Hh. rewrite Hh, <- String.eqb_eq.
    destruct (String.eqb _ _); split; done.
  - intros ->. rewrite <- String.eqb_eq.
    destruct (String.eqb _ _); split; done.
Qed.

(** C9.  A Dev whose Status is "Suspended", or any other value, and who
    gives the right password is authenticated: for a Dev the Status does
    not enter the result. *)
Theorem authenticate_user_suspended_dev username password members_df r status :
  is_empty members_df = false →
  has_column members_df "Name" = true →
  find_member username members_df = Some r →
  role_of members_df r = Some (Str "Dev") →
  status_of members_df r = status →
  correct_password password members_df r = true →
  authenticate_user username password members_df
  = Ret (true, Some username, Some (Some (Str "Dev")), "Success").
Proof.
  intros He HN Hr Hrole _ Hpw.
  rewrite (authenticate_user_found _ _ _ _ He HN Hr).
  unfold passes_status_gate. rewrite Hrole, Hpw. reflexivity.
Qed.

Lemma authenticate_user_policy_witness :
  authenticate_user "Alice" "letmein" cleared = Ret (failure "No users found")
  ∧ authenticate_user "Zed" "letmein" club = Ret (failure "User not found")
  ∧ authenticate_user "Dave" "opensesame" club
    = Ret (failure (if is_text (status_of club dave) "Pending"
                    then "Account pending approval"
                    else if is_text (status_of club dave) "Suspended"
                    then "Account suspended"
                    else "Account inactive"))
  ∧ authenticate_user "Frank" "secret" hashed_staff
    = Ret (if correct_password "secret" hashed_staff frank
           then success "Frank" (Some (Str "Dev"))
           else failure "Invalid credentials").
Proof.
  assert (E0 : is_empty cleared = true) by by_evaluation.
  assert (E1 : is_empty club = false) by by_evaluation.
  assert (N1 : has_column club "Name" = true) by by_evaluation.
  assert (A1 : ∀ r, r ∈ rows club → r !! "Name" ≠ Some (Str "Zed")).
  { intros r Hr.
    repeat (apply elem_of_cons in Hr as [->|Hr]; [by_evaluation|]).
    inversion Hr. }
  assert (F1 : find_member "Dave" club = Some dave) by by_evaluation.
  assert (R1 : is_text (role_of club dave) "Dev" = false) by by_evaluation.
  assert (S1 : is_text (status_of club dave) "Active" = false) by by_evaluation.
  assert (E2 : is_empty hashed_staff = false) by by_evaluation.
  assert (N2 : has_column hashed_staff "Name" = true) by by_evaluation.
  assert (F2 : find_member "Frank" hashed_staff = Some frank) by by_evaluation.
  assert (R2 : role_of hashed_staff frank = Some (Str "Dev")) by by_evaluation.
  split; [|split; [|split]].
  - exact (proj1 (authenticate_user_policy "Alice" "letmein" cleared) E0).
  - exact (proj1 (proj2 (authenticate_user_policy "Zed" "letmein" club)) E1 N1 A1).
  - exact (proj1 (proj2 (proj2 (authenticate_user_policy "Dave" "opensesame" club)))
             dave E1 N1 F1 R1 S1).
  - exact (proj2 (proj2 (proj2 (authenticate_user_policy "Frank" "secret" hashed_staff)))
             frank E2 N2 F2 R2).
Defined.

Lemma authenticate_user_password_witness :
  authenticate_user "Grace" "pw" hashed_staff
  = Ret (success "Grace" (role_of hashed_staff grace))
  ∧ authenticate_user "Bob" "hunter2" club = Ret (success "Bob" (role_of club bob))
  ∧ authenticate_user "Bob" "password123" club_without_password
    = Ret (success "Bob" (role_of club_without_password (delete "Password" bob))).
Proof.
  split; [|split].
  - assert (E : is_empty hashed_staff = false) by by_evaluation.
    assert (N : has_column hashed_staff "Name" = true) by by_evaluation.
    assert (F : find_member "Grace" hashed_staff = Some grace) by by_evaluation.
    assert (G : passes_status_gate hashed_staff grace = true) by by_evaluation.
    assert (P : has_column hashed_staff "Password" = true) by by_evaluation.
    assert (X : hex64 (stored_credential grace) = true) by by_evaluation.
    assert (Q : hash_password "pw" = stored_credential grace) by by_evaluation.
    pose proof (authenticate_user_password "Grace" "pw" hashed_staff grace E N F G) as H.
    cbv zeta in H. exact (proj2 (proj1 (proj2 H) P X) Q).
  - assert (E : is_empty club = false) by by_evaluation.
    assert (N : has_column club "Name" = true) by by_evaluation.
    assert (F : find_member "Bob" club = Some bob) by by_evaluation.
    assert (G : passes_status_gate club bob = true) by by_evaluation.
    assert (P : has_column club "Password" = true) by by_evaluation.
    assert (X : hex64 (stored_credential bob) = false) by by_evaluation.
    assert (Q : "hunter2" = stored_credential bob) by by_evaluation.
    pose proof (authenticate_user_password "Bob" "hunter2" club bob E N F G) as H.
    cbv zeta in H. exact (proj2 (proj1 (proj2 (proj2 H)) P X) Q).
  - assert (E : is_empty club_without_password = false) by by_evaluation.
    assert (N : has_column club_without_password "Name" = true) by by_evaluation.
    assert (F : find_member "Bob" club_without_password = Some (delete "Password" bob))
      by by_evaluation.
    assert (G : passes_status_gate club_without_password (delete "Password" bob) = true)
      by by_evaluation.
    assert (P : has_column club_without_password "Password" = false) by by_evaluation.
    pose proof (authenticate_user_password "Bob" "password123" club_without_password
                  (delete "Password" bob) E N F G) as H.
    cbv zeta in H. exact (proj2 (proj2 (proj2 (proj2 H)) P) eq_refl).
Defined.

Lemma authenticate_user_suspended_dev_witness :
  status_of hashed_staff frank = Some (Str "Suspended")
  ∧ authenticate_user "Frank" "secret" hashed_staff
    = Ret (true, Some "Frank", Some (Some (Str "Dev")), "Success").
Proof.
  assert (E : is_empty hashed_staff = false) by by_evaluation.
  assert (N : has_column hashed_staff "Name" = true) by by_evaluation.
  assert (F : find_member "Frank" hashed_staff = Some frank) by by_evaluation.
  assert (R : role_of hashed_staff frank = Some (Str "Dev")) by by_evaluation.
  assert (S : status_of hashed_staff frank = Some (Str "Suspended")) by by_evaluation.
  assert (P : correct_password "secret" hashed_staff frank = true) by by_evaluation.
  split; [exact S|].
  exact (authenticate_user_suspended_dev "Frank" "secret" hashed_staff frank
           (Some (Str "Suspended")) E N F R S P).
Defined.

(** ** The Members worksheet *)

Lemma row_as_str_lookup (cols : list string) (r : gmap string cell) c :
  c ∈ cols → row_as_str cols r !! c = Some (Str (str (r !! c))).
Proof.
  unfold row_as_str.
  induction cols as [|k cols IH]; intros Hc; [inversion Hc|].
  rewrite fmap_cons, list_to_map_cons.
  destruct (decide (k = c)) as [->|Hne].
  - apply lookup_insert_eq.
  - rewrite lookup_insert_ne by done. apply IH.
    apply elem_of_cons in Hc as [->|Hc]; done.
Qed.

Lemma has_column_true df c : has_column df c = true ↔ c ∈ columns df.
Proof. unfold has_column. apply bool_decide_eq_true. Qed.

Lemma concat_has_key df keys r k : k ∈ keys → k ∈ columns (concat df keys r).
Proof.
  intros Hk. simpl. apply elem_of_app.
  destruct (has_column df k) eqn:Hc.
  - left. by apply has_column_true.
  - right. apply elem_of_filter_rows. by rewrite Hc.
Qed.

Lemma is_empty_concat df keys r : is_empty df = false → is_empty (concat df keys r) = false.
Proof.
  intros [Hr Hc]%is_empty_false. unfold is_empty. simpl.
  destruct (rows df); [done|]. destruct (columns df); [done|]. reflexivity.
Qed.

Lemma rows_concat df keys record :
  rows (concat df keys record)
  = ((fit df record <$> rows df) ++ [fit df record record])%list.
Proof. unfold concat. cbn [rows]. by rewrite fmap_app. Qed.

Lemma fit_lookup df record r c :
  fit df record r !! c
  = (fun v => if recast df record c then as_float v else v) <$> r !! c.
Proof.
  unfold fit. rewrite map_lookup_imap. by destruct (r !! c).
Qed.

Lemma fit_lookup_text df record r c s :
  r !! c = Some (Str s) → fit df record r !! c = Some (Str s).
Proof. intros H. rewrite fit_lookup, H. simpl. by destruct (recast df record c). Qed.

Lemma is_text_fit df record r c s :
  is_text (fit df record r !! c) s = is_text (r !! c) s.
Proof.
  rewrite fit_lookup.
  destruct (r !! c) as [[t|z|z]|]; simpl; by destruct (recast df record c).
Qed.

Lemma fit_stores df record r : stores (fit df record r) r.
Proof.
  intros c. rewrite fit_lookup. destruct (recast df record c); [right|left].
  - reflexivity.
  - by destruct (r !! c).
Qed.

Lemma update_online df gs :
  online gs = true →
  update_members_sheet_optimized df gs
  = (true, {| online := true;
              members_ws := if negb (is_empty df) then astype_str df else cleared |}).
Proof. intros H. unfold update_members_sheet_optimized. by rewrite H. Qed.

(** ** Registration *)

#[local] Arguments update_members_sheet_optimized : simpl never.
#[local] Arguments astype_str : simpl never.
#[local] Arguments concat : simpl never.
#[local] Arguments of_record : simpl never.
#[local] Arguments is_empty : simpl never.

Lemma stored_last_of_record name role hashed_pw status approved_by now :
  stored_last
    {| online := true;
       members_ws := astype_str (of_record new_user_keys
                       (new_user name role hashed_pw status approved_by now)) |}
    name role hashed_pw status approved_by.
Proof.
  eexists. split; [reflexivity|]. repeat split; reflexivity.
Qed.

Lemma stored_last_concat df name role hashed_pw status approved_by now :
  stored_last
    {| online := true;
       members_ws := astype_str (concat df new_user_keys
                       (new_user name role hashed_pw status approved_by now)) |}
    name role hashed_pw status approved_by.
Proof.
  set (record := new_user name role hashed_pw status approved_by now).
  exists (row_as_str (columns (concat df new_user_keys record)) (fit df record record)).
  split.
  { cbn [members_ws]. unfold astype_str. cbn [rows].
    rewrite rows_concat, fmap_app. apply last_snoc. }
  repeat split;
    (rewrite row_as_str_lookup
       by (apply concat_has_key, (bool_decide_unpack _); reflexivity);
     erewrite fit_lookup_text by reflexivity; reflexivity).
Qed.

Lemma name_taken name members_df :
  (∃ r, r ∈ rows members_df ∧ r !! "Name" = Some (Str name)) ↔
  existsb (fun v => is_text v name)
    ((fun r : gmap string cell => r !! "Name") <$> rows members_df) = true.
Proof.
  rewrite existsb_exists. split.
  - intros (r & Hr & Hn). exists (r !! "Name"). split.
    + apply list_elem_of_In, list_elem_of_fmap. eauto.
    + by apply is_text_true.
  - intros (v & Hv & Ht). apply list_elem_of_In, list_elem_of_fmap in Hv as (r & -> & Hr).
    apply is_text_true in Ht. eauto.
Qed.

Lemma register_user_taken name password role members_df now gs :
  has_column members_df "Name" = true →
  (∃ r, r ∈ rows members_df ∧ r !! "Name" = Some (Str name)) →
  register_user name password role members_df now gs
  = Ret ((false, "User already exists."), gs).
Proof.
  intros HN Hex.
  assert (He : is_empty members_df = false).
  { unfold is_empty. destruct Hex as (r & Hr & _).
    apply has_column_true in HN.
    destruct (rows members_df); [inversion Hr|].
    destruct (columns members_df); [inversion HN|]. reflexivity. }
  apply name_taken in Hex.
  unfold register_user. rewrite He.
  unfold getitem. rewrite HN.
  destruct (String.eqb role "Dev"); simpl; rewrite Hex; reflexivity.
Qed.

Lemma register_user_first name password role members_df now gs :
  online gs = true → is_empty members_df = true →
  register_user name password role members_df now gs
  = Ret ((true, registered_message role),
         {| online := true;
            members_ws := astype_str (of_record new_user_keys
              (new_user name role (hash_password password)
                 (if String.eqb role "Dev" then "Active" else "Pending")
                 (if String.eqb role "Dev" then "System" else "") now)) |}).
Proof.
  intros Hon He. unfold register_user, registered_message. rewrite He.
  destruct (String.eqb role "Dev"); simpl; rewrite update_online by done; reflexivity.
Qed.

Lemma register_user_next name password role members_df now gs :
  online gs = true → is_empty members_df = false →
  has_column members_df "Name" = true →
  (∀ r, r ∈ rows members_df → r !! "Name" ≠ Some (Str name)) →
  register_user name password role members_df now gs
  = Ret ((true, registered_message role),
         {| online := true;
            members_ws := astype_str (concat members_df new_user_keys
              (new_user name role (hash_password password) "Pending" "" now)) |}).
Proof.
  intros Hon He HN Habs.
  assert (Hfree : existsb (fun v => is_text v name)
            ((fun r : gmap string cell => r !! "Name") <$> rows members_df) = false).
  { apply not_true_is_false. intros (r & Hr & Hn)%name_taken. by apply (Habs r). }
  unfold register_user, registered_message. rewrite He.
  unfold getitem. rewrite HN.
  destruct (String.eqb role "Dev"); simpl; rewrite Hfree, update_online by done;
    rewrite is_empty_concat by done; reflexivity.
Qed.

(** C4, as amended.  [register_user] fails when a row already bears the
    name.  A Dev registered into an empty directory is stored with Status
    "Active" and ApprovedBy "System".  Every registration into a directory
    that is not empty, Dev or not, and every registration of another role
    is stored with Status "Pending" and ApprovedBy "". *)
Theorem register_user_initial_status name password role members_df now gs :
  (has_column members_df "Name" = true →
   (∃ r, r ∈ rows members_df ∧ r !! "Name" = Some (Str name)) →
   register_user name password role members_df now gs
   = Ret ((false, "User already exists."), gs))
  ∧ (online gs = true → is_empty members_df = true → role = "Dev" →
     ∃ msg gs', register_user name password role members_df now gs = Ret ((true, msg), gs')
       ∧ stored_last gs' name "Dev" (hash_password password) "Active" "System")
  ∧ (online gs = true → is_empty members_df = true → role ≠ "Dev" →
     ∃ msg gs', register_user name password role members_df now gs = Ret ((true, msg), gs')
       ∧ stored_last gs' name role (hash_password password) "Pending" "")
  ∧ (online gs = true → is_empty members_df = false →
     has_column members_df "Name" = true →
     (∀ r, r ∈ rows members_df → r !! "Name" ≠ Some (Str name)) →
     ∃ msg gs', register_user name password role members_df now gs = Ret ((true, msg), gs')
       ∧ stored_last gs' name role (hash_password password) "Pending" "").
Proof.
  split; [|split; [|split]].
  - apply register_user_taken.
  - intros Hon He ->. rewrite register_user_first by done.
    eexists _, _. split; [reflexivity|]. apply stored_last_of_record.
  - intros Hon He Hrole%String.eqb_neq. rewrite register_user_first by done.
    rewrite Hrole. eexists _, _. split; [reflexivity|]. apply stored_last_of_record.
  - intros Hon He HN Habs. rewrite register_user_next by done.
    eexists _, _. split; [reflexivity|]. apply stored_last_concat.
Qed.

Lemma register_user_initial_status_witness :
  register_user "Bob" "hunter2" "Core Head" club "2024-02-01 10:00:00" backend
  = Ret ((false, "User already exists."), backend)
  ∧ (∃ msg gs', register_user "Alice" "letmein" "Dev" cleared "2024-02-01 10:00:00" backend
                = Ret ((true, msg), gs')
       ∧ stored_last gs' "Alice" "Dev" (hash_password "letmein") "Active" "System")
  ∧ (∃ msg gs', register_user "Bob" "hunter2" "Core Head" cleared "2024-02-01 10:00:00"
                  backend = Ret ((true, msg), gs')
       ∧ stored_last gs' "Bob" "Core Head" (hash_password "hunter2") "Pending" "")
  ∧ (∃ msg gs', register_user "Frank" "secret" "Dev" club "2024-02-01 10:00:00" backend
                = Ret ((true, msg), gs')
       ∧ stored_last gs' "Frank" "Dev" (hash_password "secret") "Pending" "").
Proof.
  assert (N : has_column club "Name" = true) by by_evaluation.
  assert (T : ∃ r, r ∈ rows club ∧ r !! "Name" = Some (Str "Bob")).
  { exists bob. split; [|by_evaluation]. apply (bool_decide_unpack _). by_evaluation. }
  assert (O : online backend = true) by by_evaluation.
  assert (E0 : is_empty cleared = true) by by_evaluation.
  assert (E1 : is_empty club = false) by by_evaluation.
  assert (R : "Core Head" ≠ "Dev") by by_evaluation.
  assert (A : ∀ r, r ∈ rows club → r !! "Name" ≠ Some (Str "Frank")).
  { intros r Hr.
    repeat (apply elem_of_cons in Hr as [->|Hr]; [by_evaluation|]).
    inversion Hr. }
  split; [|split; [|split]].
  - exact (proj1 (register_user_initial_status "Bob" "hunter2" "Core Head" club
                    "2024-02-01 10:00:00" backend) N T).
  - exact (proj1 (proj2 (register_user_initial_status "Alice" "letmein" "Dev" cleared
                           "2024-02-01 10:00:00" backend)) O E0 eq_refl).
  - exact (proj1 (proj2 (proj2 (register_user_initial_status "Bob" "hunter2" "Core Head"
                                  cleared "2024-02-01 10:00:00" backend))) O E0 R).
  - exact (proj2 (proj2 (proj2 (register_user_initial_status "Frank" "secret" "Dev" club
                                  "2024-02-01 10:00:00" backend))) O E1 N A).
Defined.

(** C4 as stated fails when the first Dev is not the first member: in
    [no_dev_yet] no row has Role "Dev", and the Dev who registers is stored
    with Status "Pending" and ApprovedBy "". *)
Lemma register_user_first_dev_after_member :
  (∀ r, r ∈ rows no_dev_yet → r !! "Role" ≠ Some (Str "Dev"))
  ∧ ∃ msg gs',
      register_user "Alice" "letmein" "Dev" no_dev_yet "2024-02-01 10:00:00" backend
      = Ret ((true, msg), gs')
      ∧ stored_last gs' "Alice" "Dev" (hash_password "letmein") "Pending" "".
Proof.
  split.
  - intros r Hr.
    repeat (apply elem_of_cons in Hr as [->|Hr]; [by_evaluation|]).
    inversion Hr.
  - rewrite register_user_next; [|by_evaluation..|].
    + eexists _, _. split; [reflexivity|]. apply stored_last_concat.
    + intros r Hr.
      repeat (apply elem_of_cons in Hr as [->|Hr]; [by_evaluation|]).
      inversion Hr.
Qed.

(** ** Approval, suspension, reactivation, role change, deletion *)

Lemma first_index_lookup (m : mask) rs i :
  first_index m rs = Ret i → ∃ r, rs !! i = Some r ∧ m r = true.
Proof.
  revert i. induction rs as [|r rs IH]; simpl; intros i; [discriminate|].
  destruct (m r) eqn:Hm.
  - intros [= <-]. eauto.
  - destruct (first_index m rs) as [j|e]; simpl; [|discriminate].
    intros [= <-]. apply (IH j). reflexivity.
Qed.

Lemma first_index_absent (m : mask) rs :
  (∀ r, r ∈ rs → m r = false) → first_index m rs = Raise IndexError.
Proof.
  induction rs as [|r rs IH]; simpl; intros H; [reflexivity|].
  rewrite (H r) by left. rewrite IH; [reflexivity|].
  intros r' Hr'. apply H. by right.
Qed.

Lemma named_absent name (rs : list (gmap string cell)) :
  (∀ r, r ∈ rs → r !! "Name" ≠ Some (Str name)) → ∀ r, r ∈ rs → named name r = false.
Proof.
  intros H r Hr. apply not_true_is_false. intros Hn%is_text_true. by apply (H r).
Qed.

Lemma rows_at_set df i c s r :
  rows df !! i = Some r →
  rows (at_set df i c s) = <[i := <[c := Str s]> r]> (rows df).
Proof.
  intros Hr. simpl. rewrite list_insert_alter.
  apply list_eq. intros j. rewrite !list_lookup_alter.
  destruct (decide (i = j)) as [->|]; [by rewrite Hr|reflexivity].
Qed.

Lemma is_empty_at_set df i c s : is_empty df = false → is_empty (at_set df i c s) = false.
Proof.
  intros [Hr Hc]%is_empty_false. unfold is_empty, at_set. cbn [rows columns].
  apply orb_false_intro; apply bool_decide_eq_false.
  - intros H. apply (f_equal length) in H. rewrite length_alter in H.
    destruct (rows df); [done|discriminate].
  - destruct (has_column df c); [done|]. by destruct (columns df).
Qed.

Lemma found_not_empty df (m : mask) i c :
  has_column df c = true → first_index m (rows df) = Ret i → is_empty df = false.
Proof.
  intros Hc%has_column_true (r & Hr & _)%first_index_lookup. unfold is_empty.
  destruct (rows df); [done|]. destruct (columns df); [inversion Hc|]. reflexivity.
Qed.

Lemma save_online df gs :
  online gs = true → is_empty df = false →
  update_members_sheet_optimized df gs
  = (true, {| online := true; members_ws := astype_str df |}).
Proof. intros Hon He. rewrite update_online by done. by rewrite He. Qed.

Lemma at_set_with_field df i r c s :
  rows df !! i = Some r → at_set df i c s = with_field df i r c s.
Proof.
  intros Hr. unfold with_field. rewrite <- (rows_at_set df i c s r Hr). reflexivity.
Qed.

#[local] Arguments at_set : simpl never.
#[local] Arguments first_index : simpl never.
#[local] Arguments String.append : simpl never.

Lemma approve_user_other user_name members_df approver_name gs i r :
  online gs = true → has_column members_df "Name" = true →
  has_column members_df "Role" = true →
  first_index (named user_name) (rows members_df) = Ret i →
  rows members_df !! i = Some r →
  is_text (r !! "Role") "Dev" = false →
  let approved := at_set (at_set members_df i "Status" "Active")
                    i "ApprovedBy" approver_name in
  approve_user user_name members_df approver_name gs
  = ((true, "User " +:+ user_name +:+ " approved successfully!"), approved,
     {| online := true; members_ws := astype_str approved |}).
Proof.
  intros Hon HN HR Hi Hr Hrole. simpl.
  pose proof (found_not_empty _ _ _ _ HN Hi) as He.
  unfold approve_user, col_is. rewrite HN. simpl.
  fold (named user_name). rewrite Hi. simpl.
  unfold at_get. rewrite HR, Hr. simpl. rewrite Hrole. simpl.
  rewrite save_online by (try apply is_empty_at_set; try apply is_empty_at_set; done).
  reflexivity.
Qed.

Lemma approve_user_dev user_name members_df approver_name gs i r :
  online gs = true → has_column members_df "Name" = true →
  has_column members_df "Role" = true →
  first_index (named user_name) (rows members_df) = Ret i →
  rows members_df !! i = Some r →
  is_text (r !! "Role") "Dev" = true →
  let approved := at_set (at_set members_df i "Status" "Active")
                    i "ApprovedBy" approver_name in
  approve_user user_name members_df approver_name gs
  = if has_column members_df "ApprovedBy" then
      if bool_decide (bootstrap_dev members_df = Some (Some (Str approver_name))) then
        ((true, "User " +:+ user_name +:+ " approved successfully!"), approved,
         {| online := true; members_ws := astype_str approved |})
      else ((false, "Only the parent Dev can approve new Devs."), members_df, gs)
    else ((false, "Error approving user: 'ApprovedBy'"), members_df, gs).
Proof.
  intros Hon HN HR Hi Hr Hrole. simpl.
  pose proof (found_not_empty _ _ _ _ HN Hi) as He.
  pose proof (is_empty_false _ He) as [_ Hc].
  unfold approve_user, col_is. rewrite HN. simpl.
  fold (named user_name). rewrite Hi. simpl.
  unfold at_get. rewrite HR, Hr. simpl. rewrite Hrole. simpl.
  destruct (has_column members_df "ApprovedBy"); simpl; [|reflexivity].
  rewrite is_empty_select_false by done.
  unfold bootstrap_dev.
  destruct (List.filter _ (rows members_df)) as [|r0 rest] eqn:Hf; simpl.
  { reflexivity. }
  rewrite (first_cell_select _ _ _ _ _ Hf), HN. simpl.
  destruct (is_text (r0 !! "Name") approver_name) eqn:Hp.
  - apply is_text_true in Hp. rewrite Hp.
    rewrite bool_decide_eq_true_2 by done.
    rewrite save_online by (try apply is_empty_at_set; try apply is_empty_at_set; done).
    reflexivity.
  - rewrite bool_decide_eq_false_2; [reflexivity|].
    intros [= Hn]. apply is_text_true in Hn. congruence.
Qed.

Lemma rows_approved df i r approver_name :
  rows df !! i = Some r →
  rows (at_set (at_set df i "Status" "Active") i "ApprovedBy" approver_name)
  = <[i := <["ApprovedBy" := Str approver_name]> (<["Status" := Str "Active"]> r)]> (rows df).
Proof.
  intros Hr.
  assert (Hi : (i < length (rows df))%nat) by (eapply lookup_lt_Some; exact Hr).
  rewrite (rows_at_set _ i "ApprovedBy" approver_name (<["Status" := Str "Active"]> r)).
  - rewrite (rows_at_set df i "Status" "Active" r Hr). apply list_insert_insert_eq.
  - rewrite (rows_at_set df i "Status" "Active" r Hr). by apply list_lookup_insert_eq.
Qed.

(** C5.  For a target found in the directory, whatever its Status:
    approval writes Status "Active" and ApprovedBy the approver's name
    into the target's row and nothing else; a target that is not a Dev is
    approved for any approver name; a Dev target is approved when the
    approver's name is the bootstrap Dev's, and otherwise the call fails
    and leaves the directory and the worksheet as they were. *)
Theorem approve_user_rule user_name members_df approver_name gs i r :
  online gs = true →
  has_column members_df "Name" = true →
  has_column members_df "Role" = true →
  first_index (named user_name) (rows members_df) = Ret i →
  rows members_df !! i = Some r →
  let approved := at_set (at_set members_df i "Status" "Active")
                    i "ApprovedBy" approver_name in
  let approves :=
    ∃ msg gs', approve_user user_name members_df approver_name gs
               = ((true, msg), approved, gs') in
  let refuses :=
    ∃ msg, approve_user user_name members_df approver_name gs
           = ((false, msg), members_df, gs) in
  rows approved
  = <[i := <["ApprovedBy" := Str approver_name]> (<["Status" := Str "Active"]> r)]>
      (rows members_df)
  ∧ (r !! "Role" ≠ Some (Str "Dev") → approves)
  ∧ (r !! "Role" = Some (Str "Dev") →
     has_column members_df "ApprovedBy" = true →
     bootstrap_dev members_df = Some (Some (Str approver_name)) → approves)
  ∧ (r !! "Role" = Some (Str "Dev") →
     ¬ (has_column members_df "ApprovedBy" = true
        ∧ bootstrap_dev members_df = Some (Some (Str approver_name))) → refuses).
Proof.
  intros Hon HN HR Hi Hr. cbv zeta.
  split; [by apply rows_approved|]. split; [|split].
  - intros Hrole.
    assert (Ht : is_text (r !! "Role") "Dev" = false).
    { apply not_true_is_false. by intros ?%is_text_true. }
    rewrite (approve_user_other _ _ _ _ _ _ Hon HN HR Hi Hr Ht). eauto.
  - intros Hrole%is_text_true HA Hb.
    rewrite (approve_user_dev _ _ _ _ _ _ Hon HN HR Hi Hr Hrole), HA.
    rewrite bool_decide_eq_true_2 by done. eauto.
  - intros Hrole%is_text_true Hno.
    rewrite (approve_user_dev _ _ _ _ _ _ Hon HN HR Hi Hr Hrole).
    destruct (has_column members_df "ApprovedBy"); [|eauto].
    rewrite bool_decide_eq_false_2; [eauto|]. intros Hb. by apply Hno.
Qed.

Lemma approve_user_rule_witness :
  (∃ msg gs', approve_user "Dave" club "Mallory" backend
     = ((true, msg), at_set (at_set club 3 "Status" "Active") 3 "ApprovedBy" "Mallory", gs'))
  ∧ (∃ msg gs', approve_user "Frank" club_and_frank "Alice" backend
       = ((true, msg),
          at_set (at_set club_and_frank 5 "Status" "Active") 5 "ApprovedBy" "Alice", gs'))
  ∧ (∃ msg, approve_user "Frank" club_and_frank "Bob" backend
       = ((false, msg), club_and_frank, backend)).
Proof.
  assert (O : online backend = true) by by_evaluation.
  assert (N1 : has_column club "Name" = true) by by_evaluation.
  assert (R1 : has_column club "Role" = true) by by_evaluation.
  assert (I1 : first_index (named "Dave") (rows club) = Ret 3%nat) by by_evaluation.
  assert (L1 : rows club !! 3%nat = Some dave) by by_evaluation.
  assert (D1 : dave !! "Role" ≠ Some (Str "Dev")) by by_evaluation.
  assert (N2 : has_column club_and_frank "Name" = true) by by_evaluation.
  assert (R2 : has_column club_and_frank "Role" = true) by by_evaluation.
  assert (A2 : has_column club_and_frank "ApprovedBy" = true) by by_evaluation.
  assert (I2 : first_index (named "Frank") (rows club_and_frank) = Ret 5%nat)
    by by_evaluation.
  assert (L2 : rows club_and_frank !! 5%nat = Some frank) by by_evaluation.
  assert (D2 : frank !! "Role" = Some (Str "Dev")) by by_evaluation.
  assert (B2 : bootstrap_dev club_and_frank = Some (Some (Str "Alice"))) by by_evaluation.
  assert (B3 : ¬ (has_column club_and_frank "ApprovedBy" = true
                  ∧ bootstrap_dev club_and_frank = Some (Some (Str "Bob")))).
  { intros [_ H]. revert H. by_evaluation. }
  pose proof (approve_user_rule "Dave" club "Mallory" backend 3 dave O N1 R1 I1 L1) as H1.
  pose proof (approve_user_rule "Frank" club_and_frank "Alice" backend 5 frank
                O N2 R2 I2 L2) as H2.
  pose proof (approve_user_rule "Frank" club_and_frank "Bob" backend 5 frank
                O N2 R2 I2 L2) as H3.
  cbv zeta in H1, H2, H3.
  split; [|split].
  - exact (proj1 (proj2 H1) D1).
  - exact (proj1 (proj2 (proj2 H2)) D2 A2 B2).
  - exact (proj2 (proj2 (proj2 H3)) D2 B3).
Defined.

Lemma set_field_found (prefix suffix failed error : string) user_name members_df gs i c s :
  online gs = true → has_column members_df "Name" = true →
  first_index (named user_name) (rows members_df) = Ret i →
  try_except
    (is_user ← col_is members_df "Name" user_name;
     user_idx ← first_index is_user (rows members_df);
     let members_df := at_set members_df user_idx c s in
     let '(saved, gs') := update_members_sheet_optimized members_df gs in
     if saved then Ret ((true, prefix +:+ user_name +:+ suffix), members_df, gs')
     else Ret ((false, failed), members_df, gs'))
    (fun e => ((false, error +:+ str_exn e), members_df, gs))
  = ((true, prefix +:+ user_name +:+ suffix), at_set members_df i c s,
     {| online := true; members_ws := astype_str (at_set members_df i c s) |}).
Proof.
  intros Hon HN Hi.
  pose proof (found_not_empty _ _ _ _ HN Hi) as He.
  unfold col_is. rewrite HN. simpl. fold (named user_name). rewrite Hi. simpl.
  rewrite save_online by (try apply is_empty_at_set; done). reflexivity.
Qed.

Lemma set_field_absent (prefix suffix failed error : string) user_name members_df gs c s :
  (∀ r, r ∈ rows members_df → r !! "Name" ≠ Some (Str user_name)) →
  ∃ msg,
    try_except
      (is_user ← col_is members_df "Name" user_name;
       user_idx ← first_index is_user (rows members_df);
       let members_df := at_set members_df user_idx c s in
       let '(saved, gs') := update_members_sheet_optimized members_df gs in
       if saved then Ret ((true, prefix +:+ user_name +:+ suffix), members_df, gs')
       else Ret ((false, failed), members_df, gs'))
      (fun e => ((false, error +:+ str_exn e), members_df, gs))
    = ((false, msg), members_df, gs).
Proof.
  intros Habs. unfold col_is.
  destruct (has_column members_df "Name"); simpl; [|eauto].
  fold (named user_name).
  rewrite (first_index_absent _ _ (named_absent _ _ Habs)). simpl. eauto.
Qed.

Lemma delete_user_online user_name members_df gs :
  online gs = true → has_column members_df "Name" = true →
  ∃ gs', delete_user user_name members_df gs
         = ((true, "User " +:+ user_name +:+ " deleted successfully!"),
            select members_df (fun r => negb (named user_name r)), gs').
Proof.
  intros Hon HN. unfold delete_user, col_is_not. rewrite HN. simpl.
  rewrite update_online by done. eauto.
Qed.

Lemma filter_keeps_all {A : Type} (p : A → bool) (l : list A) :
  (∀ x, x ∈ l → p x = true) → List.filter p l = l.
Proof.
  induction l as [|x l IH]; simpl; intros H; [reflexivity|].
  rewrite (H x) by left. f_equal. apply IH. intros y Hy. apply H. by right.
Qed.

(** C6, as amended.  [suspend_user], [reactivate_user] and
    [update_user_role] fail, and change neither the directory nor the
    worksheet, when no row bears the name; when they succeed they set one
    cell, Status or Role, of the first row that bears the name and leave
    every other cell as it was.  [delete_user] returns the directory
    without the rows that bear the name, and it succeeds also when there
    is none: the directory it returns is then the one it was given. *)
Theorem lifecycle_single_change user_name new_role members_df gs :
  ((∀ r, r ∈ rows members_df → r !! "Name" ≠ Some (Str user_name)) →
   (∃ msg, suspend_user user_name members_df gs = ((false, msg), members_df, gs))
   ∧ (∃ msg, reactivate_user user_name members_df gs = ((false, msg), members_df, gs))
   ∧ (∃ msg, update_user_role user_name new_role members_df gs
             = ((false, msg), members_df, gs)))
  ∧ (∀ i r, online gs = true → has_column members_df "Name" = true →
     first_index (named user_name) (rows members_df) = Ret i →
     rows members_df !! i = Some r →
     (∃ msg gs', suspend_user user_name members_df gs
        = ((true, msg), with_field members_df i r "Status" "Suspended", gs'))
     ∧ (∃ msg gs', reactivate_user user_name members_df gs
          = ((true, msg), with_field members_df i r "Status" "Active", gs'))
     ∧ (∃ msg gs', update_user_role user_name new_role members_df gs
          = ((true, msg), with_field members_df i r "Role" new_role, gs')))
  ∧ (online gs = true → has_column members_df "Name" = true →
     ∃ msg gs', delete_user user_name members_df gs
       = ((true, msg), select members_df (fun r => negb (named user_name r)), gs'))
  ∧ ((∀ r, r ∈ rows members_df → r !! "Name" ≠ Some (Str user_name)) →
     select members_df (fun r => negb (named user_name r)) = members_df).
Proof.
  split; [|split; [|split]].
  - intros Habs. split; [|split].
    + apply (set_field_absent "User " " suspended successfully!"
               "Error suspending user." "Error suspending user: "); done.
    + apply (set_field_absent "User " " reactivated successfully!"
               "Error reactivating user." "Error reactivating user: "); done.
    + apply (set_field_absent "User " ("'s role updated to " +:+ new_role +:+ "!")
               "Error updating user role." "Error updating user role: "); done.
  - intros i r Hon HN Hi Hr. split; [|split]; eexists _, _.
    + rewrite <- (at_set_with_field _ _ _ _ _ Hr).
      apply (set_field_found "User " " suspended successfully!"
               "Error suspending user." "Error suspending user: "); done.
    + rewrite <- (at_set_with_field _ _ _ _ _ Hr).
      apply (set_field_found "User " " reactivated successfully!"
               "Error reactivating user." "Error reactivating user: "); done.
    + rewrite <- (at_set_with_field _ _ _ _ _ Hr).
      apply (set_field_found "User " ("'s role updated to " +:+ new_role +:+ "!")
               "Error updating user role." "Error updating user role: "); done.
  - intros Hon HN. destruct (delete_user_online user_name _ _ Hon HN) as [gs' H]. eauto.
  - intros Habs. destruct members_df as [cols rs]. unfold select. simpl. f_equal.
    apply filter_keeps_all. intros r Hr.
    simpl in Habs. by rewrite (named_absent _ _ Habs r Hr).
Qed.

Lemma lifecycle_single_change_witness :
  (∃ msg, suspend_user "Zed" club backend = ((false, msg), club, backend))
  ∧ (∃ msg gs', suspend_user "Bob" club backend
       = ((true, msg), with_field club 1 bob "Status" "Suspended", gs'))
  ∧ (∃ msg gs', reactivate_user "Frank" club_and_frank backend
       = ((true, msg), with_field club_and_frank 5 frank "Status" "Active", gs'))
  ∧ (∃ msg gs', update_user_role "Erin" "Associate Head" club backend
       = ((true, msg), with_field club 4 erin "Role" "Associate Head", gs'))
  ∧ (∃ msg gs', delete_user "Dave" club backend
       = ((true, msg), select club (fun r => negb (named "Dave" r)), gs'))
  ∧ select club (fun r => negb (named "Zed" r)) = club.
Proof.
  assert (O : online backend = true) by by_evaluation.
  assert (N1 : has_column club "Name" = true) by by_evaluation.
  assert (N2 : has_column club_and_frank "Name" = true) by by_evaluation.
  assert (A : ∀ r, r ∈ rows club → r !! "Name" ≠ Some (Str "Zed")).
  { intros r Hr.
    repeat (apply elem_of_cons in Hr as [->|Hr]; [by_evaluation|]).
    inversion Hr. }
  assert (I1 : first_index (named "Bob") (rows club) = Ret 1%nat) by by_evaluation.
  assert (L1 : rows club !! 1%nat = Some bob) by by_evaluation.
  assert (I2 : first_index (named "Frank") (rows club_and_frank) = Ret 5%nat)
    by by_evaluation.
  assert (L2 : rows club_and_frank !! 5%nat = Some frank) by by_evaluation.
  assert (I3 : first_index (named "Erin") (rows club) = Ret 4%nat) by by_evaluation.
  assert (L3 : rows club !! 4%nat = Some erin) by by_evaluation.
  split; [|split; [|split; [|split; [|split]]]].
  - exact (proj1 (proj1 (lifecycle_single_change "Zed" "" club backend) A)).
  - exact (proj1 (proj1 (proj2 (lifecycle_single_change "Bob" "" club backend))
                    1%nat bob O N1 I1 L1)).
  - exact (proj1 (proj2 (proj1 (proj2 (lifecycle_single_change "Frank" "" club_and_frank
                                         backend)) 5%nat frank O N2 I2 L2))).
  - exact (proj2 (proj2 (proj1 (proj2 (lifecycle_single_change "Erin" "Associate Head"
                                         club backend)) 4%nat erin O N1 I3 L3))).
  - exact (proj1 (proj2 (proj2 (lifecycle_single_change "Dave" "" club backend))) O N1).
  - exact (proj2 (proj2 (proj2 (lifecycle_single_change "Zed" "" club backend))) A).
Defined.

(** C6 as stated fails for [delete_user]: no row of [club] bears the
    name "Zed", and deleting "Zed" succeeds. *)
Lemma delete_user_absent_name_succeeds :
  (∀ r, r ∈ rows club → r !! "Name" ≠ Some (Str "Zed"))
  ∧ delete_user "Zed" club backend
    = ((true, "User Zed deleted successfully!"), club,
       {| online := true; members_ws := astype_str club |}).
Proof.
  split.
  - intros r Hr.
    repeat (apply elem_of_cons in Hr as [->|Hr]; [by_evaluation|]).
    inversion Hr.
  - reflexivity.
Qed.

(** ** Registration followed by login *)

Lemma registered_row_lookup name role hashed_pw status approved_by now :
  let r := row_as_str new_user_keys (new_user name role hashed_pw status approved_by now) in
  r !! "Name" = Some (Str name) ∧ r !! "Role" = Some (Str role)
  ∧ r !! "Password" = Some (Str hashed_pw) ∧ r !! "Status" = Some (Str status).
Proof. repeat split; reflexivity. Qed.

(** C10.  Registering a Dev into an empty directory and then logging in
    with the same name and password against the directory that was
    written succeeds with role "Dev": the credential stored is the
    SHA-256 digest, 64 hexadecimal characters, so the login compares
    hashes. *)
Theorem register_then_authenticate name password members_df now gs :
  is_empty members_df = true →
  online gs = true →
  ∃ msg gs',
    register_user name password "Dev" members_df now gs = Ret ((true, msg), gs')
    ∧ hex64 (hash_password password) = true
    ∧ stored_last gs' name "Dev" (hash_password password) "Active" "System"
    ∧ authenticate_user name password (members_ws gs')
      = Ret (true, Some name, Some (Some (Str "Dev")), "Success").
Proof.
  intros He Hon. rewrite register_user_first by done.
  change (("Dev" =? "Dev")%string) with true. cbv iota.
  eexists _, _. split; [reflexivity|].
  split; [apply hexdigest_hex64|].
  split; [apply stored_last_of_record|].
  cbn [members_ws].
  set (r := row_as_str new_user_keys
              (new_user name "Dev" (hash_password password) "Active" "System" now)).
  destruct (registered_row_lookup name "Dev" (hash_password password) "Active" "System" now)
    as (Hn & Hr & Hp & Hs). fold r in Hn, Hr, Hp, Hs.
  rewrite (authenticate_user_found name password _ r).
  - unfold passes_status_gate, role_of, correct_password, stored_credential.
    change (has_column (astype_str (of_record new_user_keys
              (new_user name "Dev" (hash_password password) "Active" "System" now))) "Role")
      with true.
    change (has_column (astype_str (of_record new_user_keys
              (new_user name "Dev" (hash_password password) "Active" "System" now)))
              "Password") with true.
    cbv iota. rewrite Hr, Hp. cbn [is_text String.eqb Ascii.eqb Bool.eqb orb].
    change (str (Some (Str (hash_password password)))) with (hash_password password).
    rewrite hash_password_looks_like_hash, String.eqb_refl. reflexivity.
  - reflexivity.
  - reflexivity.
  - unfold find_member.
    change (rows (astype_str (of_record new_user_keys
              (new_user name "Dev" (hash_password password) "Active" "System" now))))
      with [r].
    cbn [List.filter]. cbv beta. rewrite Hn. cbn [is_text]. rewrite String.eqb_refl. reflexivity.
Qed.

Lemma register_then_authenticate_witness :
  ∃ msg gs',
    register_user "Alice" "letmein" "Dev" cleared "2024-02-01 10:00:00" backend
    = Ret ((true, msg), gs')
    ∧ hex64 (hash_password "letmein") = true
    ∧ stored_last gs' "Alice" "Dev" (hash_password "letmein") "Active" "System"
    ∧ authenticate_user "Alice" "letmein" (members_ws gs')
      = Ret (true, Some "Alice", Some (Some (Str "Dev")), "Success").
Proof.
  assert (E : is_empty cleared = true) by by_evaluation.
  assert (O : online backend = true) by by_evaluation.
  exact (register_then_authenticate "Alice" "letmein" cleared "2024-02-01 10:00:00"
           backend E O).
Defined.

(** ** Floats *)

Lemma nearest_float_exact z : - 2 ^ 53 < z < 2 ^ 53 → nearest_float z = z.
Proof.
  intros H. cbv beta zeta delta [nearest_float].
  destruct (Z.leb_spec (Z.log2 (Z.abs z) - 52) 0) as [_|Hdrop]; [reflexivity|].
  exfalso. destruct (decide (z = 0)) as [->|Hne]; [simpl in Hdrop; lia|].
  assert (Z.log2 (Z.abs z) < 53); [|lia].
  apply Z.log2_lt_pow2; lia.
Qed.

(** A float below 2^53 in magnitude comes from no other integer. *)
Lemma nearest_float_only z v : - 2 ^ 53 < v < 2 ^ 53 → nearest_float z = v → z = v.
Proof.
  intros Hv Hz.
  destruct (decide (- 2 ^ 53 < z < 2 ^ 53)) as [Hs|Hbig];
    [by rewrite nearest_float_exact in Hz|].
  exfalso. revert Hz. cbv beta zeta delta [nearest_float].
  assert (Ha : 2 ^ 53 ≤ Z.abs z) by lia.
  assert (Hlog : 53 ≤ Z.log2 (Z.abs z)) by (apply Z.log2_le_pow2; lia).
  destruct (Z.leb_spec (Z.log2 (Z.abs z) - 52) 0) as [|_]; [lia|].
  set (drop := Z.log2 (Z.abs z) - 52).
  set (q := Z.abs z / 2 ^ drop).
  assert (Hunit : 2 ≤ 2 ^ drop).
  { change 2 with (2 ^ 1) at 1. apply Z.pow_le_mono_r; lia. }
  assert (Hq : 2 ^ 52 ≤ q).
  { unfold q. apply Z.div_le_lower_bound; [lia|].
    rewrite <- Z.pow_add_r by lia. replace (drop + 52) with (Z.log2 (Z.abs z)) by lia.
    apply Z.log2_spec. lia. }
  set (q' := if (2 ^ drop <? 2 * (Z.abs z mod 2 ^ drop))
                || ((2 ^ drop =? 2 * (Z.abs z mod 2 ^ drop)) && Z.odd q)
             then q + 1 else q).
  assert (Hq' : q ≤ q') by (unfold q'; destruct (_ || _); lia).
  intros Hz. assert (2 ^ 53 ≤ q' * 2 ^ drop) by nia.
  destruct z; simpl in Hz; lia.
Qed.

(** ** Task identifiers *)

Lemma randint_range lo hi output : lo ≤ hi → lo ≤ randint lo hi output ≤ hi.
Proof.
  intros H. unfold randint.
  pose proof (Z.mod_pos_bound output (hi - lo + 1)). lia.
Qed.

Section TaskIdProperties.

(** The reading of text cells as numbers is any function: nothing below
    depends on it. *)
Variable num : string -> reading.

Lemma resample_fresh (existing : gset Z) outputs id rest :
  resample existing outputs = Some (id, rest) →
  100000 ≤ id ≤ 999999 ∧ id ∉ existing.
Proof.
  induction outputs as [|o outputs IH]; simpl; [discriminate|].
  case_bool_decide as Hin; [exact IH|].
  intros [= <- <-]. split; [apply randint_range; lia|exact Hin].
Qed.


Lemma task_ids_no_tasks tasks_df :
  is_empty tasks_df || negb (has_column tasks_df "TaskID") = true →
  task_ids num tasks_df = ∅.
Proof.
  unfold task_ids. destruct (has_column tasks_df "TaskID") eqn:Hc; [|reflexivity].
  rewrite orb_false_r. unfold is_empty. intros [Hr|Hk]%orb_prop.
  - apply bool_decide_eq_true in Hr. rewrite Hr. reflexivity.
  - apply bool_decide_eq_true in Hk. apply has_column_true in Hc.
    rewrite Hk in Hc. inversion Hc.
Qed.

(** The column read by [pd.to_numeric], without its missing values and
    as integers: the numbers of the rows in order, unless one of them is
    an infinity. *)
Lemma astype_int_dropna (rs : list (gmap string cell)) :
  astype_int
    (dropna (to_numeric num <$> ((fun r : gmap string cell => r !! "TaskID") <$> rs)))
  = if existsb (fun r : gmap string cell =>
                  match to_numeric num (r !! "TaskID") with
                  | Infinity => true
                  | _ => false
                  end) rs
    then Raise IntCastingNaNError
    else Ret (omap (read_id num) rs).
Proof.
  induction rs as [|r rs IH]; [reflexivity|].
  rewrite !fmap_cons. cbn [existsb omap list_omap]. unfold dropna, read_id in *.
  cbn [List.filter].
  destruct (to_numeric num (r !! "TaskID")) as [z| |]; cbn [orb astype_int].
  - rewrite IH. destruct (existsb _ rs); reflexivity.
  - reflexivity.
  - exact IH.
Qed.

Lemma generate_unique_taskid_cases tasks_df outputs :
  generate_unique_taskid num tasks_df outputs
  = if infinite_id num tasks_df then Raise IntCastingNaNError
    else if is_empty tasks_df || negb (has_column tasks_df "TaskID") then
      Ret (match outputs with
           | [] => None
           | output :: rest => Some (randint 100000 999999 output, rest)
           end)
    else Ret (resample (task_ids num tasks_df) outputs).
Proof.
  unfold generate_unique_taskid, infinite_id, task_ids, existing_ids, getitem.
  destruct (is_empty tasks_df); [reflexivity|].
  destruct (has_column tasks_df "TaskID"); [|reflexivity].
  cbn [negb orb andb mbind py_bind]. rewrite astype_int_dropna.
  by destruct (existsb _ (rows tasks_df)).
Qed.

Lemma generate_unique_taskid_sound tasks_df outputs id rest :
  generate_unique_taskid num tasks_df outputs = Ret (Some (id, rest)) →
  100000 ≤ id ≤ 999999 ∧ id ∉ task_ids num tasks_df.
Proof.
  rewrite generate_unique_taskid_cases.
  destruct (infinite_id num tasks_df); [discriminate|].
  destruct (is_empty tasks_df || negb (has_column tasks_df "TaskID")) eqn:Hb.
  - rewrite (task_ids_no_tasks _ Hb).
    destruct outputs as [|o outputs]; [discriminate|]. intros [= <- <-].
    split; [apply randint_range; lia|apply not_elem_of_empty].
  - intros [= H]. by apply resample_fresh in H.
Qed.




Lemma new_task_id id form : new_task id form !! "TaskID" = Some (Int id).
Proof. unfold new_task. apply lookup_insert_eq. Qed.

(** A row keeps the number of its TaskID when the column is recast,
    as long as the number is exactly a float. *)
Lemma read_id_fit df record r v :
  - 2 ^ 53 < v < 2 ^ 53 → read_id num r = Some v →
  read_id num (fit df record r) = Some v.
Proof.
  intros Hv. unfold read_id. rewrite fit_lookup.
  destruct (r !! "TaskID") as [[s|z|z]|]; simpl; [|intros [= ->]|..];
    destruct (recast df record "TaskID"); simpl; try done.
  by rewrite nearest_float_exact.
Qed.

Lemma task_ids_concat df keys record id v :
  "TaskID" ∈ keys → record !! "TaskID" = Some (Int id) →
  - 2 ^ 53 < id < 2 ^ 53 → - 2 ^ 53 < v < 2 ^ 53 →
  v ∈ task_ids num df ∨ v = id → v ∈ task_ids num (concat df keys record).
Proof.
  intros Hk Hid Hrange Hv Hin. unfold task_ids.
  assert (Hc : has_column (concat df keys record) "TaskID" = true).
  { apply has_column_true, concat_has_key. exact Hk. }
  rewrite Hc, rows_concat.
  apply elem_of_list_to_set, list_elem_of_omap.
  destruct Hin as [Hin| ->].
  - unfold task_ids in Hin. destruct (has_column df "TaskID"); [|inversion Hin].
    apply elem_of_list_to_set, list_elem_of_omap in Hin as (r & Hr & Hread).
    exists (fit df record r). split; [|by apply read_id_fit].
    apply elem_of_app. left. apply list_elem_of_fmap. eauto.
  - exists (fit df record record). split; [apply elem_of_app; right; by left|].
    apply read_id_fit; [done|]. unfold read_id. by rewrite Hid.
Qed.

Lemma assign_task_accumulates form tasks_df outputs id tasks_df' outputs' :
  assign_task num form tasks_df outputs = Ret (Some (id, tasks_df', outputs')) →
  (100000 ≤ id ≤ 999999 ∧ id ∉ task_ids num tasks_df)
  ∧ id ∈ task_ids num tasks_df'
  ∧ (∀ v, 100000 ≤ v ≤ 999999 → v ∈ task_ids num tasks_df → v ∈ task_ids num tasks_df').
Proof.
  unfold assign_task.
  destruct (generate_unique_taskid num tasks_df outputs) as [[[id0 out0]|]|e] eqn:Hg;
    [|discriminate..].
  intros [= <- <- <-].
  pose proof (generate_unique_taskid_sound _ _ _ _ Hg) as [Hrange Hfresh].
  split; [done|].
  pose proof (new_task_id id0 form) as Hid.
  destruct (is_empty tasks_df) eqn:He.
  - rewrite (task_ids_no_tasks tasks_df) by (by rewrite He).
    split; [|intros v _ Hv; inversion Hv].
    unfold task_ids, of_record. cbn [rows].
    change (has_column {| columns := task_keys; rows := [new_task id0 form] |} "TaskID")
      with true.
    apply elem_of_list_to_set, list_elem_of_omap. exists (new_task id0 form).
    split; [by left|]. unfold read_id. by rewrite Hid.
  - assert (Hk : "TaskID" ∈ task_keys) by (apply (bool_decide_unpack _); reflexivity).
    split.
    + apply (task_ids_concat _ _ _ id0); [done|done|lia|lia|by right].
    + intros v Hv Hin. apply (task_ids_concat _ _ _ id0); [done|done|lia|lia|by left].
Qed.



End TaskIdProperties.


(** * Further properties *)

(** ** Role hierarchy *)

Lemma filter_pointwise {A : Type} (p q : A → bool) (l : list A) :
  (∀ x, p x = q x) → List.filter p l = List.filter q l.
Proof.
  intros H. induction l as [|x l IH]; simpl; [reflexivity|]. by rewrite H, IH.
Qed.

Lemma filter_none {A : Type} (l : list A) : List.filter (fun _ => false) l = [].
Proof. induction l; simpl; done. Qed.

Lemma getitem_present df c :
  has_column df c = true →
  getitem df c = Ret ((fun r : gmap string cell => r !! c) <$> rows df).
Proof. intros H. unfold getitem. by rewrite H. Qed.

(** X1.  In a directory that tracks neither Domain nor ReportsTo, the
    list [get_subordinates] returns is, in directory order and with
    repetitions kept, the Name of every Active row whose Role the
    requester's role reaches: all for a Dev, Domain Head and Core Head for
    a Core Head, Associate Head for a Domain Head, Junior Head for an
    Associate Head, none for any other role. *)
Theorem get_subordinates_fallback member_name members_df role :
  has_column members_df "Name" = true →
  has_column members_df "Role" = true →
  has_column members_df "Status" = true →
  has_column members_df "Domain" = false →
  has_column members_df "ReportsTo" = false →
  requester_role member_name members_df = Some role →
  get_subordinates member_name members_df
  = (fun r : gmap string cell => r !! "Name")
    <$> List.filter
          (fun r => may_assign role (r !! "Role") && is_text (r !! "Status") "Active")
          (rows members_df).
Proof.
  intros HN HR HS HD HP Hrole.
  destruct (requester_role_first _ _ _ Hrole) as (r0 & rest & Hf & ->).
  assert (He : is_empty members_df = false).
  { unfold is_empty. apply has_column_true in HN.
    destruct (rows members_df); [discriminate|].
    destruct (columns members_df); [inversion HN|]. reflexivity. }
  pose proof (is_empty_false _ He) as [_ Hc].
  unfold get_subordinates, get_subordinates_body. rewrite He.
  unfold col_is, col_isin. rewrite HN, HR, HS, HD, HP. simpl.
  rewrite is_empty_select_false by done. rewrite Hf. simpl.
  rewrite (first_cell_select _ _ "Role" _ _ Hf), HR. simpl.
  unfold may_assign.
  destruct (is_text (r0 !! "Role") "Dev"); simpl.
  { rewrite getitem_present by done. reflexivity. }
  destruct (is_text (r0 !! "Role") "Core Head"); simpl.
  { rewrite getitem_present by done. simpl. f_equal. }
  destruct (is_text (r0 !! "Role") "Domain Head"); simpl.
  { rewrite getitem_present by done. reflexivity. }
  destruct (is_text (r0 !! "Role") "Associate Head"); simpl.
  { rewrite getitem_present by done. reflexivity. }
  rewrite filter_none. reflexivity.
Qed.

Lemma get_subordinates_fallback_witness :
  get_subordinates "Bob" club
  = (fun r : gmap string cell => r !! "Name")
    <$> List.filter
          (fun r => may_assign (Some (Str "Core Head")) (r !! "Role")
                    && is_text (r !! "Status") "Active")
          (rows club).
Proof.
  assert (HN : has_column club "Name" = true) by by_evaluation.
  assert (HR : has_column club "Role" = true) by by_evaluation.
  assert (HS : has_column club "Status" = true) by by_evaluation.
  assert (HD : has_column club "Domain" = false) by by_evaluation.
  assert (HP : has_column club "ReportsTo" = false) by by_evaluation.
  assert (Hrole : requester_role "Bob" club = Some (Some (Str "Core Head")))
    by by_evaluation.
  exact (get_subordinates_fallback "Bob" club (Some (Str "Core Head")) HN HR HS HD HP Hrole).
Defined.

Lemma value_eqb_true v w :
  value_eqb v w = true → ∃ a b, v = Some a ∧ w = Some b ∧ same_value a b.
Proof.
  destruct v as [a|], w as [b|]; [|by destruct a|done..].
  intros H. exists a, b. split; [done|]. split; [done|].
  destruct a as [s|x|x], b as [t|y|y]; simpl in H; try discriminate.
  - left. f_equal. by apply String.eqb_eq.
  - apply Z.eqb_eq in H as ->. by left.
  - apply Z.eqb_eq in H as ->. right. by exists y.
  - apply Z.eqb_eq in H as ->. right. by exists y.
  - apply Z.eqb_eq in H as ->. by left.
Qed.

(** X2.  In a directory that tracks Domain, a Domain Head gets only
    Active Associate Heads whose Domain equals the requester's (the same
    text, or numbers of one value), and gets nobody when the requester's
    own Domain is missing.  In a directory that tracks ReportsTo, an
    Associate Head gets only Active Junior Heads whose ReportsTo is the
    requester's name. *)
Theorem get_subordinates_strict member_name members_df r0 :
  find_member member_name members_df = Some r0 →
  (r0 !! "Role" = Some (Str "Domain Head") → has_column members_df "Domain" = true →
   (∀ v, v ∈ get_subordinates member_name members_df →
      ∃ r d d0, r ∈ rows members_df ∧ r !! "Name" = v
        ∧ r !! "Role" = Some (Str "Associate Head")
        ∧ r !! "Status" = Some (Str "Active")
        ∧ r !! "Domain" = Some d ∧ r0 !! "Domain" = Some d0 ∧ same_value d d0)
   ∧ (r0 !! "Domain" = None → get_subordinates member_name members_df = []))
  ∧ (r0 !! "Role" = Some (Str "Associate Head") →
     has_column members_df "ReportsTo" = true →
     ∀ v, v ∈ get_subordinates member_name members_df →
       ∃ r, r ∈ rows members_df ∧ r !! "Name" = v
         ∧ r !! "Role" = Some (Str "Junior Head")
         ∧ r !! "Status" = Some (Str "Active")
         ∧ r !! "ReportsTo" = Some (Str member_name)).
Proof.
  intros [rest Hf]%find_member_first.
  split.
  - intros Hrole HD.
    unfold get_subordinates, get_subordinates_body.
    destruct (is_empty members_df) eqn:He; [split; [intros v H; inversion H|done]|].
    apply is_empty_false in He as [_ Hc].
    unfold col_is, col_isin, col_eq.
    destruct (has_column members_df "Name") eqn:HN; simpl;
      [|split; [intros v H; inversion H|done]].
    rewrite is_empty_select_false by done. rewrite Hf. simpl.
    rewrite !(first_cell_select _ _ _ _ _ Hf), Hrole, HD.
    destruct (has_column members_df "Role"); simpl;
      [|split; [intros v H; inversion H|done]].
    destruct (has_column members_df "Status"); simpl;
      [|split; [intros v H; inversion H|done]].
    split.
    + intros v (r & Hr & Hm & Hn)%elem_of_names_select.
      apply andb_prop in Hm as [Hm Ha]. apply andb_prop in Hm as [Hm Hd].
      apply is_text_true in Hm, Ha.
      apply value_eqb_true in Hd as (d & d0 & Hd1 & Hd2 & Hsame).
      exists r, d, d0. done.
    + intros Hnone. rewrite Hnone.
      rewrite getitem_present by exact HN.
      unfold select. simpl.
      rewrite (filter_pointwise _ (fun _ => false)); [by rewrite filter_none|].
      intros r. destruct (is_text (r !! "Role") "Associate Head"); simpl; [|done].
      by destruct (r !! "Domain") as [[]|].
  - intros Hrole HP.
    unfold get_subordinates, get_subordinates_body.
    destruct (is_empty members_df) eqn:He; [intros v H; inversion H|].
    apply is_empty_false in He as [_ Hc].
    unfold col_is, col_isin, col_eq.
    destruct (has_column members_df "Name"); simpl; [|intros v H; inversion H].
    rewrite is_empty_select_false by done. rewrite Hf. simpl.
    rewrite !(first_cell_select _ _ _ _ _ Hf), Hrole, HP.
    destruct (has_column members_df "Role"); simpl; [|intros v H; inversion H].
    destruct (has_column members_df "Status"); simpl; [|intros v H; inversion H].
    intros v (r & Hr & Hm & Hn)%elem_of_names_select.
    apply andb_prop in Hm as [Hm Ha]. apply andb_prop in Hm as [Hm Hd].
    apply is_text_true in Hm, Ha, Hd. exists r. done.
Qed.

Lemma get_subordinates_strict_witness :
  (∀ v, v ∈ get_subordinates "Gina" chapters →
     ∃ r d d0, r ∈ rows chapters ∧ r !! "Name" = v
       ∧ r !! "Role" = Some (Str "Associate Head")
       ∧ r !! "Status" = Some (Str "Active")
       ∧ r !! "Domain" = Some d ∧ gina !! "Domain" = Some d0 ∧ same_value d d0)
  ∧ get_subordinates "Heidi" chapters = []
  ∧ (∀ v, v ∈ get_subordinates "Ivan" chapters →
       ∃ r, r ∈ rows chapters ∧ r !! "Name" = v
         ∧ r !! "Role" = Some (Str "Junior Head")
         ∧ r !! "Status" = Some (Str "Active")
         ∧ r !! "ReportsTo" = Some (Str "Ivan")).
Proof.
  assert (F1 : find_member "Gina" chapters = Some gina) by by_evaluation.
  assert (F2 : find_member "Heidi" chapters = Some heidi) by by_evaluation.
  assert (F3 : find_member "Ivan" chapters = Some ivan) by by_evaluation.
  assert (R1 : gina !! "Role" = Some (Str "Domain Head")) by by_evaluation.
  assert (R2 : heidi !! "Role" = Some (Str "Domain Head")) by by_evaluation.
  assert (R3 : ivan !! "Role" = Some (Str "Associate Head")) by by_evaluation.
  assert (D : has_column chapters "Domain" = true) by by_evaluation.
  assert (P : has_column chapters "ReportsTo" = true) by by_evaluation.
  assert (N : heidi !! "Domain" = None) by by_evaluation.
  split; [|split].
  - exact (proj1 (proj1 (get_subordinates_strict "Gina" chapters gina F1) R1 D)).
  - exact (proj2 (proj1 (get_subordinates_strict "Heidi" chapters heidi F2) R2 D) N).
  - exact (proj2 (get_subordinates_strict "Ivan" chapters ivan F3) R3 P).
Defined.

Example get_subordinates_same_domain :
  get_subordinates "Gina" chapters = [Some (Str "Ivan")]
  ∧ get_subordinates "Ivan" chapters = [Some (Str "Kim")].
Proof. split; reflexivity. Qed.

(** ** Exceptions of the functions outside a [try] *)

Lemma find_member_none name members_df :
  find_member name members_df = None →
  ∀ r, r ∈ rows members_df → r !! "Name" ≠ Some (Str name).
Proof.
  unfold find_member. intros Hnone r Hr Hn.
  assert (Hin : r ∈ List.filter (fun r => is_text (r !! "Name") name) (rows members_df)).
  { apply elem_of_filter_rows. split; [done|]. by apply is_text_true. }
  destruct (List.filter _ (rows members_df)); [inversion Hin|discriminate].
Qed.

(** X3.  [authenticate_user] and [register_user] raise in one case only:
    the directory is not empty and has no Name column, and the exception
    is then the KeyError of that column.  On every other input they
    return. *)
Theorem raises_only_without_name username password role members_df now gs e :
  (authenticate_user username password members_df = Raise e
   ↔ is_empty members_df = false ∧ has_column members_df "Name" = false
     ∧ e = KeyError "Name")
  ∧ (register_user username password role members_df now gs = Raise e
     ↔ is_empty members_df = false ∧ has_column members_df "Name" = false
       ∧ e = KeyError "Name").
Proof.
  split; split.
  - destruct (is_empty members_df) eqn:He.
    { unfold authenticate_user. rewrite He. discriminate. }
    destruct (has_column members_df "Name") eqn:HN.
    + destruct (find_member username members_df) as [r|] eqn:Hf.
      * rewrite (authenticate_user_found _ _ _ _ He HN Hf). discriminate.
      * rewrite (authenticate_user_not_found _ _ _ He HN (find_member_none _ _ Hf)).
        discriminate.
    + unfold authenticate_user, col_is. rewrite He, HN. simpl. intros [= <-]. done.
  - intros (He & HN & ->). unfold authenticate_user, col_is. by rewrite He, HN.
  - destruct (is_empty members_df) eqn:He.
    { unfold register_user. rewrite He.
      destruct (String.eqb role "Dev"); discriminate. }
    destruct (has_column members_df "Name") eqn:HN.
    + unfold register_user, getitem. rewrite He, HN.
      destruct (String.eqb role "Dev"); simpl; destruct (existsb _ _); discriminate.
    + unfold register_user, getitem. rewrite He, HN.
      destruct (String.eqb role "Dev"); simpl; intros [= <-]; done.
  - intros (He & HN & ->). unfold register_user, getitem. rewrite He, HN.
    by destruct (String.eqb role "Dev").
Qed.

Lemma raises_only_without_name_witness :
  authenticate_user "Bob" "hunter2" (drop_column "Name" club) = Raise (KeyError "Name")
  ∧ register_user "Bob" "hunter2" "Core Head" (drop_column "Name" club)
      "2024-02-01 10:00:00" backend = Raise (KeyError "Name").
Proof.
  assert (E : is_empty (drop_column "Name" club) = false) by by_evaluation.
  assert (N : has_column (drop_column "Name" club) "Name" = false) by by_evaluation.
  pose proof (raises_only_without_name "Bob" "hunter2" "Core Head"
                (drop_column "Name" club) "2024-02-01 10:00:00" backend (KeyError "Name"))
    as [H1 H2].
  split.
  - exact (proj2 H1 (conj E (conj N eq_refl))).
  - exact (proj2 H2 (conj E (conj N eq_refl))).
Defined.

(** ** Hashes *)

Lemma hex_digit_lower_hex x : lower_hex_char (Sha256.hex_digit x) = true.
Proof.
  unfold Sha256.hex_digit.
  assert (Hb : 0 ≤ Z.land x 15 < 16).
  { change 15 with (Z.ones 4). rewrite Z.land_ones by lia. apply Z.mod_pos_bound. lia. }
  assert (Hn : (Z.to_nat (Z.land x 15) < 16)%nat) by lia.
  revert Hn. generalize (Z.to_nat (Z.land x 15)). clear. intros n Hn.
  do 16 (destruct n as [|n]; [reflexivity|]). lia.
Qed.

Lemma hexdigest_shape st :
  String.length (Sha256.hexdigest st) = 64%nat
  ∧ forallb lower_hex_char (list_ascii_of_string (Sha256.hexdigest st)) = true.
Proof.
  destruct st as [[[[[[[a b] c] d] e] f] g] h].
  unfold Sha256.hexdigest, Sha256.hex_word.
  cbn [String.length list_ascii_of_string forallb].
  rewrite !hex_digit_lower_hex. split; reflexivity.
Qed.

(** X4.  [hash_password] returns, for every password, a text of exactly
    64 characters, each a digit or a letter a to f in lower case. *)
Theorem hash_password_shape password :
  String.length (hash_password password) = 64%nat
  ∧ forallb lower_hex_char (list_ascii_of_string (hash_password password)) = true.
Proof. apply hexdigest_shape. Qed.

Lemma lower_hex_char_fixed c : lower_hex_char c = true → lower_ascii c = c.
Proof. destruct c as [[] [] [] [] [] [] [] []]; vm_compute; congruence. Qed.

Lemma lower_hex_fixed s :
  forallb lower_hex_char (list_ascii_of_string s) = true → lower s = s.
Proof.
  induction s as [|c s IH]; simpl; [reflexivity|].
  intros [Hc Hs]%andb_prop. by rewrite (lower_hex_char_fixed c Hc), IH.
Qed.

Lemma hash_password_lower password : lower (hash_password password) = hash_password password.
Proof. apply lower_hex_fixed, hexdigest_shape. Qed.

(** X5.  [verify_password] accepts the digest [hash_password] gives for
    the same password, and whatever it accepts is a text of 64 lower-case
    hexadecimal characters: a digest written in upper case, a plain
    password or an empty cell is never accepted. *)
Theorem verify_password_accepts password hashed :
  verify_password password (hash_password password) = true
  ∧ (verify_password password hashed = true →
     String.length hashed = 64%nat
     ∧ forallb lower_hex_char (list_ascii_of_string hashed) = true
     ∧ lower hashed = hashed).
Proof.
  unfold verify_password. split; [apply String.eqb_refl|].
  intros <-%String.eqb_eq.
  destruct (hexdigest_shape (Sha256.digest (encode password))) as [Hl Hx].
  split; [exact Hl|]. split; [exact Hx|]. apply hash_password_lower.
Qed.

Lemma verify_password_accepts_witness :
  verify_password "pw" (hash_password "pw") = true
  ∧ String.length (stored_credential grace) = 64%nat
  ∧ forallb lower_hex_char (list_ascii_of_string (stored_credential grace)) = true
  ∧ lower (stored_credential grace) = stored_credential grace.
Proof.
  assert (V : verify_password "pw" (stored_credential grace) = true)
    by (vm_compute; reflexivity).
  split.
  - exact (proj1 (verify_password_accepts "pw" (stored_credential grace))).
  - exact (proj2 (verify_password_accepts "pw" (stored_credential grace)) V).
Defined.

(** X6.  A stored credential that has the form of a hash but is not in
    lower case (it has a letter A to F) locks the account: for a member
    who passes the status gate, no password authenticates. *)
Theorem authenticate_user_upper_case_hash username password members_df r :
  is_empty members_df = false →
  has_column members_df "Name" = true →
  has_column members_df "Password" = true →
  find_member username members_df = Some r →
  passes_status_gate members_df r = true →
  looks_like_hash (stored_credential r) = true →
  lower (stored_credential r) ≠ stored_credential r →
  authenticate_user username password members_df
  = Ret (false, None, None, "Invalid credentials").
Proof.
  intros He HN HP Hf Hgate Hhash Hup.
  rewrite (authenticate_user_found _ _ _ _ He HN Hf), Hgate.
  unfold correct_password. rewrite HP, Hhash.
  destruct (String.eqb (hash_password password) (stored_credential r)) eqn:Heq;
    [|reflexivity].
  apply String.eqb_eq in Heq. destruct Hup. rewrite <- Heq. apply hash_password_lower.
Qed.

Lemma authenticate_user_upper_case_hash_witness :
  authenticate_user "Frank" "secret" loud_staff
  = Ret (false, None, None, "Invalid credentials").
Proof.
  assert (E : is_empty loud_staff = false) by by_evaluation.
  assert (N : has_column loud_staff "Name" = true) by by_evaluation.
  assert (P : has_column loud_staff "Password" = true) by by_evaluation.
  assert (F : find_member "Frank" loud_staff = Some loud_frank) by by_evaluation.
  assert (G : passes_status_gate loud_staff loud_frank = true) by by_evaluation.
  assert (H : looks_like_hash (stored_credential loud_frank) = true) by by_evaluation.
  assert (U : lower (stored_credential loud_frank) ≠ stored_credential loud_frank)
    by by_evaluation.
  exact (authenticate_user_upper_case_hash "Frank" "secret" loud_staff loud_frank
           E N P F G H U).
Defined.

(** ** Frames changed in place *)

Lemma first_index_head (m : mask) rs i r :
  first_index m rs = Ret i → rs !! i = Some r → head (List.filter m rs) = Some r.
Proof.
  revert i. induction rs as [|x rs IH]; intros i; [discriminate|].
  change (first_index m (x :: rs))
    with (if m x then Ret O else j ← first_index m rs; Ret (S j)).
  simpl. destruct (m x) eqn:Hm.
  - intros [= <-]. simpl. by intros [= ->].
  - destruct (first_index m rs) as [j|e] eqn:Hj; simpl; [|discriminate].
    intros [= <-]. simpl. by apply IH.
Qed.

Lemma head_first_index (m : mask) rs r :
  head (List.filter m rs) = Some r → ∃ i, first_index m rs = Ret i ∧ rs !! i = Some r.
Proof.
  induction rs as [|x rs IH]; [discriminate|].
  change (first_index m (x :: rs))
    with (if m x then Ret O else j ← first_index m rs; Ret (S j)).
  simpl. destruct (m x) eqn:Hm.
  - simpl. intros [= ->]. by exists O.
  - intros (j & Hj & Hr)%IH. exists (S j). by rewrite Hj.
Qed.

Lemma find_member_index name members_df r :
  find_member name members_df = Some r ↔
  ∃ i, first_index (named name) (rows members_df) = Ret i ∧ rows members_df !! i = Some r.
Proof.
  split.
  - apply head_first_index.
  - intros (i & Hi & Hr). by apply (first_index_head _ _ i).
Qed.

Lemma first_index_alter (m : mask) (f : gmap string cell → gmap string cell) rs i :
  (∀ r, m (f r) = m r) → first_index m (alter f i rs) = first_index m rs.
Proof.
  intros Hinv. revert i. induction rs as [|x rs IH]; intros i; [reflexivity|].
  destruct i as [|i].
  - change (alter f 0%nat (x :: rs)) with (f x :: rs).
    change (first_index m (f x :: rs))
      with (if m (f x) then Ret O else j ← first_index m rs; Ret (S j)).
    by rewrite Hinv.
  - change (alter f (S i) (x :: rs)) with (x :: alter f i rs).
    change (first_index m (x :: alter f i rs))
      with (if m x then Ret O else j ← first_index m (alter f i rs); Ret (S j)).
    by rewrite IH.
Qed.

Lemma named_insert name c s (r : gmap string cell) :
  c ≠ "Name" → named name (<[c := Str s]> r) = named name r.
Proof. intros Hc. unfold named. by rewrite lookup_insert_ne. Qed.

Lemma first_index_at_set name df i c s :
  c ≠ "Name" →
  first_index (named name) (rows (at_set df i c s)) = first_index (named name) (rows df).
Proof. intros Hc. apply first_index_alter. intros r. by apply named_insert. Qed.

Lemma lookup_at_set df i c s r :
  rows df !! i = Some r → rows (at_set df i c s) !! i = Some (<[c := Str s]> r).
Proof.
  intros Hr. rewrite (rows_at_set _ _ _ _ _ Hr).
  apply list_lookup_insert_eq. by eapply lookup_lt_Some.
Qed.

Lemma find_member_at_set name df i r c s :
  c ≠ "Name" →
  first_index (named name) (rows df) = Ret i → rows df !! i = Some r →
  find_member name (at_set df i c s) = Some (<[c := Str s]> r).
Proof.
  intros Hc Hi Hr. apply find_member_index. exists i.
  split; [by rewrite first_index_at_set|by apply lookup_at_set].
Qed.

Lemma has_column_at_set df i c s k :
  has_column (at_set df i c s) k = has_column df k || bool_decide (k = c).
Proof.
  unfold has_column at 1. unfold at_set. cbn [columns].
  destruct (has_column df c) eqn:Hc.
  - destruct (bool_decide (k = c)) eqn:Hk.
    + apply bool_decide_eq_true in Hk as ->. rewrite orb_true_r. exact Hc.
    + by rewrite orb_false_r.
  - apply eq_true_iff_eq. rewrite orb_true_iff, !bool_decide_eq_true.
    unfold has_column. rewrite bool_decide_eq_true, elem_of_app, list_elem_of_singleton.
    done.
Qed.

Lemma has_column_at_set_other df i c s k :
  k ≠ c → has_column (at_set df i c s) k = has_column df k.
Proof.
  intros Hk. rewrite has_column_at_set.
  rewrite (bool_decide_eq_false_2 (k = c)) by done. apply orb_false_r.
Qed.

Lemma has_column_at_set_same df i c s : has_column (at_set df i c s) c = true.
Proof. rewrite has_column_at_set. rewrite (bool_decide_eq_true_2 (c = c)) by done. apply orb_true_r. Qed.

Lemma names_at_set df i c s :
  c ≠ "Name" →
  (fun r : gmap string cell => r !! "Name") <$> rows (at_set df i c s)
  = (fun r : gmap string cell => r !! "Name") <$> rows df.
Proof.
  intros Hc. unfold at_set. cbn [rows]. apply list_eq. intros j.
  rewrite !list_lookup_fmap, list_lookup_alter.
  destruct (decide (i = j)) as [->|]; [|reflexivity].
  destruct (rows df !! j) as [r|]; simpl; [|reflexivity].
  by rewrite lookup_insert_ne.
Qed.

Lemma at_set_at_set df i c s1 s2 :
  at_set (at_set df i c s1) i c s2 = at_set df i c s2.
Proof.
  unfold at_set at 1. rewrite has_column_at_set_same.
  unfold at_set. cbn [rows columns]. f_equal.
  rewrite list_alter_alter_eq. apply list_eq. intros j.
  rewrite !list_lookup_alter. destruct (decide (i = j)) as [<-|]; [|reflexivity].
  destruct (rows df !! i); simpl; [|reflexivity]. by rewrite insert_insert_eq.
Qed.

Lemma at_set_same df i r c s :
  has_column df c = true → rows df !! i = Some r → r !! c = Some (Str s) →
  at_set df i c s = df.
Proof.
  intros Hc Hr Hv. destruct df as [cols rs]. unfold at_set. cbn [rows columns] in *.
  rewrite Hc. f_equal. apply list_eq. intros j. rewrite list_lookup_alter.
  destruct (decide (i = j)) as [<-|]; [|reflexivity].
  rewrite Hr. simpl. by rewrite insert_id.
Qed.

(** ** Lifecycle followed by login *)

Lemma set_field_result (prefix suffix failed error : string) user_name members_df gs i c s :
  has_column members_df "Name" = true →
  first_index (named user_name) (rows members_df) = Ret i →
  try_except
    (is_user ← col_is members_df "Name" user_name;
     user_idx ← first_index is_user (rows members_df);
     let members_df := at_set members_df user_idx c s in
     let '(saved, gs') := update_members_sheet_optimized members_df gs in
     if saved then Ret ((true, prefix +:+ user_name +:+ suffix), members_df, gs')
     else Ret ((false, failed), members_df, gs'))
    (fun e => ((false, error +:+ str_exn e), members_df, gs))
  = if online gs then
      ((true, prefix +:+ user_name +:+ suffix), at_set members_df i c s,
       {| online := true; members_ws := astype_str (at_set members_df i c s) |})
    else ((false, failed), at_set members_df i c s, gs).
Proof.
  intros HN Hi.
  pose proof (found_not_empty _ _ _ _ HN Hi) as He.
  unfold col_is. rewrite HN. simpl. fold (named user_name). rewrite Hi. simpl.
  destruct (online gs) eqn:Hon.
  - rewrite save_online by (try apply is_empty_at_set; done). reflexivity.
  - unfold update_members_sheet_optimized. rewrite Hon. reflexivity.
Qed.

Lemma suspend_user_result user_name members_df gs i :
  has_column members_df "Name" = true →
  first_index (named user_name) (rows members_df) = Ret i →
  suspend_user user_name members_df gs
  = if online gs then
      ((true, "User " +:+ user_name +:+ " suspended successfully!"),
       at_set members_df i "Status" "Suspended",
       {| online := true;
          members_ws := astype_str (at_set members_df i "Status" "Suspended") |})
    else ((false, "Error suspending user."), at_set members_df i "Status" "Suspended", gs).
Proof.
  apply (set_field_result "User " " suspended successfully!"
           "Error suspending user." "Error suspending user: ").
Qed.

Lemma reactivate_user_result user_name members_df gs i :
  has_column members_df "Name" = true →
  first_index (named user_name) (rows members_df) = Ret i →
  reactivate_user user_name members_df gs
  = if online gs then
      ((true, "User " +:+ user_name +:+ " reactivated successfully!"),
       at_set members_df i "Status" "Active",
       {| online := true;
          members_ws := astype_str (at_set members_df i "Status" "Active") |})
    else ((false, "Error reactivating user."), at_set members_df i "Status" "Active", gs).
Proof.
  apply (set_field_result "User " " reactivated successfully!"
           "Error reactivating user." "Error reactivating user: ").
Qed.

Lemma update_user_role_result user_name new_role members_df gs i :
  has_column members_df "Name" = true →
  first_index (named user_name) (rows members_df) = Ret i →
  update_user_role user_name new_role members_df gs
  = if online gs then
      ((true, "User " +:+ user_name +:+ "'s role updated to " +:+ new_role +:+ "!"),
       at_set members_df i "Role" new_role,
       {| online := true; members_ws := astype_str (at_set members_df i "Role" new_role) |})
    else ((false, "Error updating user role."), at_set members_df i "Role" new_role, gs).
Proof.
  apply (set_field_result "User " ("'s role updated to " +:+ new_role +:+ "!")
           "Error updating user role." "Error updating user role: ").
Qed.

(** What [authenticate_user] answers for a member whose Status cell was
    just set. *)
Lemma authenticate_user_status_set user_name password members_df i r s :
  has_column members_df "Name" = true →
  first_index (named user_name) (rows members_df) = Ret i →
  rows members_df !! i = Some r →
  authenticate_user user_name password (at_set members_df i "Status" s)
  = Ret (if is_text (role_of members_df r) "Dev" || String.eqb s "Active" then
           if correct_password password members_df r
           then success user_name (role_of members_df r)
           else failure "Invalid credentials"
         else failure (status_reason (Some (Str s)))).
Proof.
  intros HN Hi Hr.
  pose proof (found_not_empty _ _ _ _ HN Hi) as He.
  rewrite (authenticate_user_found _ _ _ (<["Status" := Str s]> r)).
  - unfold passes_status_gate, status_of, role_of, correct_password, stored_credential.
    rewrite has_column_at_set_same.
    rewrite !has_column_at_set_other by done.
    rewrite lookup_insert_eq. rewrite !lookup_insert_ne by done. reflexivity.
  - by apply is_empty_at_set.
  - by rewrite has_column_at_set_other.
  - by apply find_member_at_set.
Qed.

(** [authenticate_user] does not read the ApprovedBy column. *)
Lemma authenticate_user_approved_by_set user_name password members_df i r s :
  has_column members_df "Name" = true →
  first_index (named user_name) (rows members_df) = Ret i →
  rows members_df !! i = Some r →
  authenticate_user user_name password (at_set members_df i "ApprovedBy" s)
  = authenticate_user user_name password members_df.
Proof.
  intros HN Hi Hr.
  pose proof (found_not_empty _ _ _ _ HN Hi) as He.
  assert (Hf : find_member user_name members_df = Some r)
    by (apply find_member_index; eauto).
  rewrite (authenticate_user_found _ _ _ (<["ApprovedBy" := Str s]> r)).
  - rewrite (authenticate_user_found _ _ _ r) by done.
    unfold passes_status_gate, status_of, role_of, correct_password, stored_credential.
    rewrite !has_column_at_set_other by done.
    rewrite !lookup_insert_ne by done. reflexivity.
  - by apply is_empty_at_set.
  - by rewrite has_column_at_set_other.
  - by apply find_member_at_set.
Qed.

(** X7.  After [suspend_user] on a member of the directory, whether or
    not the write succeeded, the frame it leaves refuses that member with
    "Account suspended" for every password, unless the member is a Dev:
    a suspended Dev is answered exactly as before the suspension. *)
Theorem suspend_then_authenticate user_name password members_df gs i r :
  has_column members_df "Name" = true →
  first_index (named user_name) (rows members_df) = Ret i →
  rows members_df !! i = Some r →
  let suspended := (suspend_user user_name members_df gs).1.2 in
  (is_text (role_of members_df r) "Dev" = false →
   authenticate_user user_name password suspended
   = Ret (false, None, None, "Account suspended"))
  ∧ (is_text (role_of members_df r) "Dev" = true →
     authenticate_user user_name password suspended
     = authenticate_user user_name password members_df).
Proof.
  intros HN Hi Hr. cbv zeta.
  assert (Hframe : (suspend_user user_name members_df gs).1.2
                   = at_set members_df i "Status" "Suspended").
  { rewrite (suspend_user_result _ _ _ _ HN Hi). by destruct (online gs). }
  rewrite Hframe, (authenticate_user_status_set _ _ _ _ _ _ HN Hi Hr).
  split; intros Hrole; rewrite Hrole; [reflexivity|].
  pose proof (found_not_empty _ _ _ _ HN Hi) as He.
  rewrite (authenticate_user_found _ _ _ r He HN) by (apply find_member_index; eauto).
  unfold passes_status_gate. rewrite Hrole. reflexivity.
Qed.

(** X8.  After [reactivate_user] on a member of the directory, and after
    [approve_user] on a member who is not a Dev, the frame left
    authenticates that member exactly when the password is the right one,
    whatever the Status was before. *)
Theorem activate_then_authenticate user_name password approver_name members_df gs i r :
  has_column members_df "Name" = true →
  first_index (named user_name) (rows members_df) = Ret i →
  rows members_df !! i = Some r →
  let answer :=
    Ret (if correct_password password members_df r
         then success user_name (role_of members_df r)
         else failure "Invalid credentials") in
  authenticate_user user_name password (reactivate_user user_name members_df gs).1.2
  = answer
  ∧ (has_column members_df "Role" = true → is_text (r !! "Role") "Dev" = false →
     online gs = true →
     authenticate_user user_name password
       (approve_user user_name members_df approver_name gs).1.2 = answer).
Proof.
  intros HN Hi Hr. cbv zeta. split.
  - assert (Hframe : (reactivate_user user_name members_df gs).1.2
                     = at_set members_df i "Status" "Active").
    { rewrite (reactivate_user_result _ _ _ _ HN Hi). by destruct (online gs). }
    rewrite Hframe, (authenticate_user_status_set _ _ _ _ _ _ HN Hi Hr).
    by rewrite orb_true_r.
  - intros HR Hrole Hon.
    rewrite (approve_user_other _ _ _ _ _ _ Hon HN HR Hi Hr Hrole). cbn [fst snd].
    rewrite (authenticate_user_approved_by_set _ _ _ i (<["Status" := Str "Active"]> r)).
    + rewrite (authenticate_user_status_set _ _ _ _ _ _ HN Hi Hr). by rewrite orb_true_r.
    + by rewrite has_column_at_set_other.
    + by rewrite first_index_at_set.
    + by apply lookup_at_set.
Qed.

Lemma suspend_then_authenticate_witness :
  authenticate_user "Bob" "hunter2" (suspend_user "Bob" club backend).1.2
  = Ret (false, None, None, "Account suspended")
  ∧ authenticate_user "Alice" "letmein" (suspend_user "Alice" club backend).1.2
    = authenticate_user "Alice" "letmein" club.
Proof.
  assert (N : has_column club "Name" = true) by by_evaluation.
  assert (I1 : first_index (named "Bob") (rows club) = Ret 1%nat) by by_evaluation.
  assert (L1 : rows club !! 1%nat = Some bob) by by_evaluation.
  assert (R1 : is_text (role_of club bob) "Dev" = false) by by_evaluation.
  assert (I2 : first_index (named "Alice") (rows club) = Ret 0%nat) by by_evaluation.
  assert (L2 : rows club !! 0%nat = Some alice) by by_evaluation.
  assert (R2 : is_text (role_of club alice) "Dev" = true) by by_evaluation.
  split.
  - exact (proj1 (suspend_then_authenticate "Bob" "hunter2" club backend 1 bob N I1 L1) R1).
  - exact (proj2 (suspend_then_authenticate "Alice" "letmein" club backend 0 alice
                    N I2 L2) R2).
Defined.

Lemma activate_then_authenticate_witness :
  authenticate_user "Frank" "secret" (reactivate_user "Frank" club_and_frank backend).1.2
  = Ret (if correct_password "secret" club_and_frank frank
         then success "Frank" (role_of club_and_frank frank)
         else failure "Invalid credentials")
  ∧ authenticate_user "Dave" "opensesame" (approve_user "Dave" club "Mallory" backend).1.2
    = Ret (if correct_password "opensesame" club dave
           then success "Dave" (role_of club dave)
           else failure "Invalid credentials").
Proof.
  assert (N1 : has_column club_and_frank "Name" = true) by by_evaluation.
  assert (I1 : first_index (named "Frank") (rows club_and_frank) = Ret 5%nat)
    by by_evaluation.
  assert (L1 : rows club_and_frank !! 5%nat = Some frank) by by_evaluation.
  assert (N2 : has_column club "Name" = true) by by_evaluation.
  assert (R2 : has_column club "Role" = true) by by_evaluation.
  assert (I2 : first_index (named "Dave") (rows club) = Ret 3%nat) by by_evaluation.
  assert (L2 : rows club !! 3%nat = Some dave) by by_evaluation.
  assert (D2 : is_text (dave !! "Role") "Dev" = false) by by_evaluation.
  assert (O : online backend = true) by by_evaluation.
  split.
  - exact (proj1 (activate_then_authenticate "Frank" "secret" "" club_and_frank backend
                    5 frank N1 I1 L1)).
  - exact (proj2 (activate_then_authenticate "Dave" "opensesame" "Mallory" club backend
                    3 dave N2 I2 L2) R2 D2 O).
Defined.

Example approve_then_login :
  authenticate_user "Dave" "opensesame" (approve_user "Dave" club "Mallory" backend).1.2
  = Ret (true, Some "Dave", Some (Some (Str "Associate Head")), "Success").
Proof. reflexivity. Qed.

(** ** Lifecycle operations one after the other *)

(** X9.  Suspending an Active member and reactivating it gives back the
    directory as it was, cell for cell, in a directory that has the Status
    column; this holds for the frames in memory whether or not the writes
    succeeded. *)
Theorem suspend_reactivate_round_trip user_name members_df gs gs' i r :
  has_column members_df "Name" = true →
  has_column members_df "Status" = true →
  first_index (named user_name) (rows members_df) = Ret i →
  rows members_df !! i = Some r →
  r !! "Status" = Some (Str "Active") →
  (reactivate_user user_name (suspend_user user_name members_df gs).1.2 gs').1.2
  = members_df.
Proof.
  intros HN HS Hi Hr Hactive.
  assert (Hframe : (suspend_user user_name members_df gs).1.2
                   = at_set members_df i "Status" "Suspended").
  { rewrite (suspend_user_result _ _ _ _ HN Hi). by destruct (online gs). }
  rewrite Hframe.
  rewrite (reactivate_user_result _ _ _ i).
  - assert (Hback : at_set (at_set members_df i "Status" "Suspended") i "Status" "Active"
                    = members_df).
    { rewrite at_set_at_set. by apply (at_set_same _ _ r). }
    destruct (online gs'); cbn [fst snd]; exact Hback.
  - by rewrite has_column_at_set_other.
  - by rewrite first_index_at_set.
Qed.

Lemma suspend_reactivate_round_trip_witness :
  (reactivate_user "Bob" (suspend_user "Bob" club backend).1.2 backend).1.2 = club.
Proof.
  assert (N : has_column club "Name" = true) by by_evaluation.
  assert (S : has_column club "Status" = true) by by_evaluation.
  assert (I : first_index (named "Bob") (rows club) = Ret 1%nat) by by_evaluation.
  assert (L : rows club !! 1%nat = Some bob) by by_evaluation.
  assert (A : bob !! "Status" = Some (Str "Active")) by by_evaluation.
  exact (suspend_reactivate_round_trip "Bob" club backend backend 1 bob N S I L A).
Defined.

Lemma at_set_approved_again df i a :
  at_set (at_set (at_set (at_set df i "Status" "Active") i "ApprovedBy" a)
            i "Status" "Active") i "ApprovedBy" a
  = at_set (at_set df i "Status" "Active") i "ApprovedBy" a.
Proof.
  set (once := at_set (at_set df i "Status" "Active") i "ApprovedBy" a).
  assert (HS : has_column once "Status" = true).
  { unfold once. rewrite has_column_at_set_other by done. apply has_column_at_set_same. }
  assert (HA : has_column once "ApprovedBy" = true) by apply has_column_at_set_same.
  destruct (rows once !! i) as [r|] eqn:Hr.
  - assert (Hst : r !! "Status" = Some (Str "Active")).
    { unfold once in Hr. unfold at_set in Hr. cbn [rows] in Hr.
      rewrite !list_lookup_alter in Hr. destruct (decide (i = i)); [|done].
      destruct (rows df !! i) as [r0|]; simpl in Hr; [|discriminate].
      injection Hr as <-. rewrite lookup_insert_ne by done. apply lookup_insert_eq. }
    assert (Hab : r !! "ApprovedBy" = Some (Str a)).
    { unfold once in Hr. unfold at_set in Hr. cbn [rows] in Hr.
      rewrite !list_lookup_alter in Hr. destruct (decide (i = i)); [|done].
      destruct (rows df !! i) as [r0|]; simpl in Hr; [|discriminate].
      injection Hr as <-. apply lookup_insert_eq. }
    rewrite (at_set_same once i r "Status" "Active") by done.
    by apply (at_set_same once i r).
  - assert (Hnone : ∀ X c s, rows X !! i = None → has_column X c = true →
                             at_set X i c s = X).
    { intros [cols rs] c s Hn Hc. unfold at_set. cbn [rows columns] in *.
      rewrite Hc. f_equal. apply list_eq. intros j. rewrite list_lookup_alter.
      destruct (decide (i = j)) as [<-|]; [|reflexivity]. by rewrite Hn. }
    rewrite (Hnone once "Status" "Active") by done. by apply Hnone.
Qed.

(** X10.  Approval is idempotent: approving a member who is not a Dev a
    second time, by the same approver, leaves the directory exactly as the
    first approval left it. *)
Theorem approve_user_idempotent user_name approver_name members_df gs gs' i r :
  online gs = true → online gs' = true →
  has_column members_df "Name" = true →
  has_column members_df "Role" = true →
  first_index (named user_name) (rows members_df) = Ret i →
  rows members_df !! i = Some r →
  is_text (r !! "Role") "Dev" = false →
  let approved := (approve_user user_name members_df approver_name gs).1.2 in
  (approve_user user_name approved approver_name gs').1.2 = approved.
Proof.
  intros Hon Hon' HN HR Hi Hr Hrole. cbv zeta.
  rewrite (approve_user_other _ _ _ _ _ _ Hon HN HR Hi Hr Hrole). cbn [fst snd].
  set (once := at_set (at_set members_df i "Status" "Active") i "ApprovedBy" approver_name).
  rewrite (approve_user_other user_name once approver_name gs' i
             (<["ApprovedBy" := Str approver_name]> (<["Status" := Str "Active"]> r))).
  - cbn [fst snd]. apply at_set_approved_again.
  - exact Hon'.
  - unfold once. by rewrite !has_column_at_set_other.
  - unfold once. by rewrite !has_column_at_set_other.
  - unfold once. by rewrite !first_index_at_set.
  - unfold once. by do 2 apply lookup_at_set.
  - by rewrite !lookup_insert_ne.
Qed.

Lemma approve_user_idempotent_witness :
  (approve_user "Dave" (approve_user "Dave" club "Alice" backend).1.2 "Alice" backend).1.2
  = (approve_user "Dave" club "Alice" backend).1.2.
Proof.
  assert (O : online backend = true) by by_evaluation.
  assert (N : has_column club "Name" = true) by by_evaluation.
  assert (R : has_column club "Role" = true) by by_evaluation.
  assert (I : first_index (named "Dave") (rows club) = Ret 3%nat) by by_evaluation.
  assert (L : rows club !! 3%nat = Some dave) by by_evaluation.
  assert (D : is_text (dave !! "Role") "Dev" = false) by by_evaluation.
  exact (approve_user_idempotent "Dave" "Alice" club backend backend 3 dave O O N R I L D).
Defined.

Lemma delete_user_frame user_name members_df gs :
  has_column members_df "Name" = true →
  (delete_user user_name members_df gs).1.2
  = select members_df (fun r => negb (named user_name r)).
Proof.
  intros HN. unfold delete_user, col_is_not. rewrite HN. simpl.
  unfold update_members_sheet_optimized. by destruct (online gs).
Qed.

Lemma filter_filter {A : Type} (p : A → bool) (l : list A) :
  List.filter p (List.filter p l) = List.filter p l.
Proof.
  induction l as [|x l IH]; simpl; [reflexivity|].
  destruct (p x) eqn:Hp; simpl; [|exact IH]. by rewrite Hp, IH.
Qed.

(** X11.  In a directory with a Name column, [delete_user] leaves
    exactly the rows that do not bear the name, in their order; deleting
    the same name again changes nothing; and on the directory it leaves,
    that name cannot log in and has no subordinates. *)
Theorem delete_user_removes user_name password members_df gs :
  has_column members_df "Name" = true →
  let deleted := (delete_user user_name members_df gs).1.2 in
  (∀ r, r ∈ rows deleted ↔ r ∈ rows members_df ∧ r !! "Name" ≠ Some (Str user_name))
  ∧ (∀ gs', (delete_user user_name deleted gs').1.2 = deleted)
  ∧ (authenticate_user user_name password deleted = Ret (failure "No users found")
     ∨ authenticate_user user_name password deleted = Ret (failure "User not found"))
  ∧ get_subordinates user_name deleted = [].
Proof.
  intros HN. cbv zeta. rewrite (delete_user_frame _ _ _ HN).
  set (deleted := select members_df (fun r => negb (named user_name r))).
  assert (Hrows : ∀ r, r ∈ rows deleted ↔
                       r ∈ rows members_df ∧ r !! "Name" ≠ Some (Str user_name)).
  { intros r. unfold deleted, select. cbn [rows]. rewrite elem_of_filter_rows.
    unfold named. rewrite negb_true_iff, <- not_true_iff_false, is_text_true. done. }
  assert (Habs : ∀ r, r ∈ rows deleted → r !! "Name" ≠ Some (Str user_name)).
  { intros r Hr. by apply Hrows. }
  split; [exact Hrows|]. split; [|split].
  - intros gs'. rewrite (delete_user_frame user_name deleted gs' HN).
    unfold deleted, select. cbn [rows columns]. by rewrite filter_filter.
  - destruct (is_empty deleted) eqn:He.
    + left. unfold authenticate_user. by rewrite He.
    + right. by apply authenticate_user_not_found.
  - by apply get_subordinates_absent.
Qed.

Lemma delete_user_removes_witness :
  (∀ r, r ∈ rows (delete_user "Dave" club backend).1.2 ↔
        r ∈ rows club ∧ r !! "Name" ≠ Some (Str "Dave"))
  ∧ (∀ gs', (delete_user "Dave" (delete_user "Dave" club backend).1.2 gs').1.2
            = (delete_user "Dave" club backend).1.2)
  ∧ (authenticate_user "Dave" "opensesame" (delete_user "Dave" club backend).1.2
     = Ret (failure "No users found")
     ∨ authenticate_user "Dave" "opensesame" (delete_user "Dave" club backend).1.2
       = Ret (failure "User not found"))
  ∧ get_subordinates "Dave" (delete_user "Dave" club backend).1.2 = [].
Proof.
  assert (N : has_column club "Name" = true) by by_evaluation.
  exact (delete_user_removes "Dave" "opensesame" club backend N).
Defined.

(** The Name column of a frame. *)
Lemma approve_user_frame user_name members_df approver_name gs :
  (approve_user user_name members_df approver_name gs).1.2 = members_df
  ∨ ∃ i, (approve_user user_name members_df approver_name gs).1.2
         = at_set (at_set members_df i "Status" "Active") i "ApprovedBy" approver_name.
Proof.
  unfold approve_user, col_is.
  destruct (has_column members_df "Name"); simpl; [|by left].
  destruct (first_index _ (rows members_df)) as [i|e]; simpl; [|by left].
  destruct (at_get members_df i "Role") as [role|e]; simpl; [|by left].
  assert (Hsave : ∀ df, (let '(saved, gs') := update_members_sheet_optimized df gs in
                         if saved
                         then ((true, "User " +:+ user_name +:+ " approved successfully!"),
                               df, gs')
                         else ((false, "Error updating user status."), df, gs')).1.2 = df).
  { intros df. unfold update_members_sheet_optimized. by destruct (online gs). }
  destruct (is_text role "Dev"); simpl.
  - destruct (has_column members_df "Role"); simpl; [|by left].
    destruct (has_column members_df "ApprovedBy"); simpl; [|by left].
    destruct (is_empty (select members_df _)); simpl; [by left|].
    destruct (getitem (select members_df _) "Name") as [l|e]; simpl; [|by left].
    destruct (iloc0 l) as [parent|e]; simpl; [|by left].
    destruct (is_text parent approver_name); simpl; [|by left].
    right. exists i. apply Hsave.
  - right. exists i. apply Hsave.
Qed.

(** X12.  [suspend_user], [reactivate_user], [update_user_role] and
    [approve_user] never change the Name column: on every input, found or
    not, saved or not, the frame they leave has the same names in the same
    order, so the same number of rows, and unique names stay unique. *)
Theorem lifecycle_keeps_names user_name new_role approver_name members_df gs :
  let names (df : DataFrame) := (fun r : gmap string cell => r !! "Name") <$> rows df in
  names (suspend_user user_name members_df gs).1.2 = names members_df
  ∧ names (reactivate_user user_name members_df gs).1.2 = names members_df
  ∧ names (update_user_role user_name new_role members_df gs).1.2 = names members_df
  ∧ names (approve_user user_name members_df approver_name gs).1.2 = names members_df.
Proof.
  cbv zeta.
  assert (Hset : ∀ (prefix suffix failed error c s : string), c ≠ "Name" →
    (fun r : gmap string cell => r !! "Name")
    <$> rows (try_except
         (is_user ← col_is members_df "Name" user_name;
          user_idx ← first_index is_user (rows members_df);
          let members_df := at_set members_df user_idx c s in
          let '(saved, gs') := update_members_sheet_optimized members_df gs in
          if saved then Ret ((true, prefix +:+ user_name +:+ suffix), members_df, gs')
          else Ret ((false, failed), members_df, gs'))
         (fun e => ((false, error +:+ str_exn e), members_df, gs))).1.2
    = (fun r : gmap string cell => r !! "Name") <$> rows members_df).
  { intros prefix suffix failed error c s Hc. unfold col_is.
    destruct (has_column members_df "Name"); simpl; [|reflexivity].
    destruct (first_index _ (rows members_df)) as [i|e]; simpl; [|reflexivity].
    unfold update_members_sheet_optimized.
    destruct (online gs); cbn [fst snd try_except]; by apply names_at_set. }
  split; [|split; [|split]].
  - apply (Hset "User " " suspended successfully!" "Error suspending user."
             "Error suspending user: "). done.
  - apply (Hset "User " " reactivated successfully!" "Error reactivating user."
             "Error reactivating user: "). done.
  - apply (Hset "User " ("'s role updated to " +:+ new_role +:+ "!")
             "Error updating user role." "Error updating user role: "). done.
  - destruct (approve_user_frame user_name members_df approver_name gs) as [->|[i ->]];
      [reflexivity|].
    by rewrite !names_at_set.
Qed.

(** X13.  When the write to the worksheet fails, [suspend_user],
    [reactivate_user] and [update_user_role] report failure, but the
    directory in memory has already been changed: the frame they leave
    carries the new Status or Role although nothing was saved. *)
Theorem failed_save_keeps_change user_name new_role members_df gs i r :
  online gs = false →
  has_column members_df "Name" = true →
  first_index (named user_name) (rows members_df) = Ret i →
  rows members_df !! i = Some r →
  suspend_user user_name members_df gs
  = ((false, "Error suspending user."),
     with_field members_df i r "Status" "Suspended", gs)
  ∧ reactivate_user user_name members_df gs
    = ((false, "Error reactivating user."),
       with_field members_df i r "Status" "Active", gs)
  ∧ update_user_role user_name new_role members_df gs
    = ((false, "Error updating user role."),
       with_field members_df i r "Role" new_role, gs).
Proof.
  intros Hoff HN Hi Hr.
  rewrite (suspend_user_result _ _ _ _ HN Hi), (reactivate_user_result _ _ _ _ HN Hi),
    (update_user_role_result _ _ _ _ _ HN Hi), Hoff.
  rewrite !(at_set_with_field _ _ _ _ _ Hr). done.
Qed.

Lemma failed_save_keeps_change_witness :
  suspend_user "Bob" club backend_down
  = ((false, "Error suspending user."), with_field club 1 bob "Status" "Suspended",
     backend_down)
  ∧ reactivate_user "Bob" club backend_down
    = ((false, "Error reactivating user."), with_field club 1 bob "Status" "Active",
       backend_down)
  ∧ update_user_role "Bob" "Dev" club backend_down
    = ((false, "Error updating user role."), with_field club 1 bob "Role" "Dev",
       backend_down).
Proof.
  assert (O : online backend_down = false) by by_evaluation.
  assert (N : has_column club "Name" = true) by by_evaluation.
  assert (I : first_index (named "Bob") (rows club) = Ret 1%nat) by by_evaluation.
  assert (L : rows club !! 1%nat = Some bob) by by_evaluation.
  exact (failed_save_keeps_change "Bob" "Dev" club backend_down 1 bob O N I L).
Defined.

(** X14.  After [update_user_role] on a member of the directory, the
    frame it leaves gives that member the new role everywhere: it is the
    role [get_subordinates] reads for the name, the role a successful
    [authenticate_user] returns, and a member moved to a role outside the
    four that assign tasks has no subordinates. *)
Theorem update_user_role_takes_effect user_name new_role password members_df gs i r :
  has_column members_df "Name" = true →
  first_index (named user_name) (rows members_df) = Ret i →
  rows members_df !! i = Some r →
  let changed := (update_user_role user_name new_role members_df gs).1.2 in
  requester_role user_name changed = Some (Some (Str new_role))
  ∧ (∀ user role message,
       authenticate_user user_name password changed = Ret (true, user, role, message) →
       role = Some (Some (Str new_role)))
  ∧ (new_role ≠ "Dev" → new_role ≠ "Core Head" → new_role ≠ "Domain Head" →
     new_role ≠ "Associate Head" → get_subordinates user_name changed = []).
Proof.
  intros HN Hi Hr. cbv zeta.
  assert (Hframe : (update_user_role user_name new_role members_df gs).1.2
                   = at_set members_df i "Role" new_role).
  { rewrite (update_user_role_result _ _ _ _ _ HN Hi). by destruct (online gs). }
  rewrite Hframe.
  assert (Hf : find_member user_name (at_set members_df i "Role" new_role)
               = Some (<["Role" := Str new_role]> r))
    by (by apply find_member_at_set).
  assert (Hrole : requester_role user_name (at_set members_df i "Role" new_role)
                  = Some (Some (Str new_role))).
  { unfold requester_role. rewrite Hf. simpl. by rewrite lookup_insert_eq. }
  split; [exact Hrole|]. split.
  - intros user role message.
    assert (HN' : has_column (at_set members_df i "Role" new_role) "Name" = true)
      by (by rewrite has_column_at_set_other).
    rewrite (authenticate_user_found _ _ _ _
               (is_empty_at_set _ _ _ _ (found_not_empty _ _ _ _ HN Hi)) HN' Hf).
    unfold role_of. rewrite has_column_at_set_same, lookup_insert_eq.
    destruct (passes_status_gate _ _); [destruct (correct_password _ _ _)|];
      unfold success, failure; intros H; inversion H; reflexivity.
  - intros H1 H2 H3 H4.
    apply (get_subordinates_terminal _ _ _ Hrole); simpl; by apply String.eqb_neq.
Qed.

Lemma update_user_role_takes_effect_witness :
  requester_role "Bob" (update_user_role "Bob" "Junior Head" club backend).1.2
  = Some (Some (Str "Junior Head"))
  ∧ (∀ user role message,
       authenticate_user "Bob" "hunter2"
         (update_user_role "Bob" "Junior Head" club backend).1.2
       = Ret (true, user, role, message) →
       role = Some (Some (Str "Junior Head")))
  ∧ get_subordinates "Bob" (update_user_role "Bob" "Junior Head" club backend).1.2 = [].
Proof.
  assert (N : has_column club "Name" = true) by by_evaluation.
  assert (I : first_index (named "Bob") (rows club) = Ret 1%nat) by by_evaluation.
  assert (L : rows club !! 1%nat = Some bob) by by_evaluation.
  pose proof (update_user_role_takes_effect "Bob" "Junior Head" "hunter2" club backend
                1 bob N I L) as H.
  cbv zeta in H. destruct H as (H1 & H2 & H3).
  split; [exact H1|]. split; [exact H2|].
  apply H3; by_evaluation.
Defined.

(** ** The login page and the dashboards *)

(** X15.  The names the login page offers are exactly the names of the
    rows that pass the status gate of [authenticate_user]: Active members
    and Devs, every member when there is no Status column. *)
Theorem available_users_pass_gate members_df :
  is_empty members_df = false →
  has_column members_df "Name" = true →
  ∃ l, available_users members_df = Ret l
    ∧ ∀ v, v ∈ l ↔ ∃ r, r ∈ rows members_df ∧ r !! "Name" = v
                        ∧ passes_status_gate members_df r = true.
Proof.
  intros He HN. unfold available_users, active_users, dev_users, col_is. rewrite He.
  unfold passes_status_gate, status_of, role_of.
  destruct (has_column members_df "Status"), (has_column members_df "Role"); simpl;
    rewrite ?getitem_present by exact HN; simpl; eexists; (split; [reflexivity|]);
    intros v; rewrite ?elem_of_app, ?list_elem_of_fmap; unfold select; cbn [rows].
  - split.
    + intros [(r & -> & Hr)|(r & -> & Hr)]; apply elem_of_filter_rows in Hr as [Hr Hm];
        exists r; rewrite Hm, ?orb_true_r; auto.
    + intros (r & Hr & <- & [Hd|Ha]%orb_prop).
      * right. exists r. split; [done|]. by apply elem_of_filter_rows.
      * left. exists r. split; [done|]. by apply elem_of_filter_rows.
  - split.
    + intros [(r & -> & Hr)|H]; [|inversion H].
      apply elem_of_filter_rows in Hr as [Hr Hm]. exists r. rewrite Hm. auto.
    + intros (r & Hr & <- & Ha). rewrite orb_false_l in Ha || simpl in Ha.
      left. exists r. split; [done|]. by apply elem_of_filter_rows.
  - split.
    + intros [(r & -> & Hr)|(r & -> & Hr)].
      * exists r. rewrite orb_true_r. auto.
      * apply elem_of_filter_rows in Hr as [Hr Hm]. exists r. rewrite orb_true_r. auto.
    + intros (r & Hr & <- & _). left. eauto.
  - split.
    + intros [(r & -> & Hr)|H]; [|inversion H]. exists r. auto.
    + intros (r & Hr & <- & _). left. eauto.
Qed.

Lemma available_users_pass_gate_witness :
  ∃ l, available_users club = Ret l
    ∧ ∀ v, v ∈ l ↔ ∃ r, r ∈ rows club ∧ r !! "Name" = v
                        ∧ passes_status_gate club r = true.
Proof.
  assert (E : is_empty club = false) by by_evaluation.
  assert (N : has_column club "Name" = true) by by_evaluation.
  exact (available_users_pass_gate club E N).
Defined.

Example available_users_of_club :
  available_users club
  = Ret [Some (Str "Alice"); Some (Str "Bob"); Some (Str "Carol"); Some (Str "Erin");
         Some (Str "Alice")].
Proof. reflexivity. Qed.

Lemma count_three (rs : list (gmap string cell)) :
  (length (List.filter (fun r => is_text (r !! "Status") "Pending") rs)
   + length (List.filter (fun r => is_text (r !! "Status") "Active") rs)
   + length (List.filter (fun r => is_text (r !! "Status") "Suspended") rs)
   ≤ length rs)%nat
  ∧ ((∀ r, r ∈ rs → r !! "Status" = Some (Str "Pending")
                    ∨ r !! "Status" = Some (Str "Active")
                    ∨ r !! "Status" = Some (Str "Suspended")) →
     (length (List.filter (fun r => is_text (r !! "Status") "Pending") rs)
      + length (List.filter (fun r => is_text (r !! "Status") "Active") rs)
      + length (List.filter (fun r => is_text (r !! "Status") "Suspended") rs)
      = length rs)%nat).
Proof.
  induction rs as [|r rs [IH1 IH2]]; [split; reflexivity|].
  assert (Hcases :
    (is_text (r !! "Status") "Pending" = true ∧ is_text (r !! "Status") "Active" = false
     ∧ is_text (r !! "Status") "Suspended" = false)
    ∨ (is_text (r !! "Status") "Pending" = false ∧ is_text (r !! "Status") "Active" = true
       ∧ is_text (r !! "Status") "Suspended" = false)
    ∨ (is_text (r !! "Status") "Pending" = false ∧ is_text (r !! "Status") "Active" = false
       ∧ is_text (r !! "Status") "Suspended" = true)
    ∨ (is_text (r !! "Status") "Pending" = false ∧ is_text (r !! "Status") "Active" = false
       ∧ is_text (r !! "Status") "Suspended" = false
       ∧ r !! "Status" ≠ Some (Str "Pending") ∧ r !! "Status" ≠ Some (Str "Active")
       ∧ r !! "Status" ≠ Some (Str "Suspended"))).
  { destruct (is_text (r !! "Status") "Pending") eqn:HP.
    { left. apply is_text_true in HP. rewrite HP. done. }
    destruct (is_text (r !! "Status") "Active") eqn:HA.
    { right; left. apply is_text_true in HA. rewrite HA. done. }
    destruct (is_text (r !! "Status") "Suspended") eqn:HS.
    { right; right; left. done. }
    right; right; right. repeat split; try done;
      intros H%is_text_true; congruence. }
  cbn [List.filter length].
  destruct Hcases as [(-> & -> & ->)|[(-> & -> & ->)|[(-> & -> & ->)|
    (-> & -> & -> & N1 & N2 & N3)]]]; cbn [length]; split; try lia.
  - intros H. rewrite <- IH2; [lia|]. intros x Hx. apply H. by right.
  - intros H. rewrite <- IH2; [lia|]. intros x Hx. apply H. by right.
  - intros H. rewrite <- IH2; [lia|]. intros x Hx. apply H. by right.
  - intros H. destruct (H r) as [?|[?|?]]; [by left|done..].
Qed.

(** X16.  The counts of the Dev dashboard: pending, active and suspended
    members are counted apart, so together they never exceed the total,
    and they add up to it exactly when every Status is one of the three.
    Without a Status column every member counts as active. *)
Theorem member_counts_add_up members_df total pending active suspended :
  member_counts members_df = (total, pending, active, suspended) →
  total = length (rows members_df)
  ∧ (pending + active + suspended ≤ total)%nat
  ∧ (has_column members_df "Status" = true →
     (∀ r, r ∈ rows members_df → r !! "Status" = Some (Str "Pending")
                                 ∨ r !! "Status" = Some (Str "Active")
                                 ∨ r !! "Status" = Some (Str "Suspended")) →
     (pending + active + suspended = total)%nat)
  ∧ (has_column members_df "Status" = false →
     pending = O ∧ active = total ∧ suspended = O).
Proof.
  unfold member_counts, count_status.
  destruct (count_three (rows members_df)) as [H1 H2].
  destruct (has_column members_df "Status"); intros [= <- <- <- <-].
  - split; [reflexivity|]. split; [exact H1|]. split; [intros _; exact H2|discriminate].
  - split; [reflexivity|]. split; [simpl; lia|]. split; [discriminate|done].
Qed.

Lemma member_counts_add_up_witness :
  (1 + 4 + 0 = 5)%nat ∧ (0%nat = 0%nat ∧ 5%nat = 5%nat ∧ 0%nat = 0%nat).
Proof.
  assert (C1 : member_counts club = (5, 1, 4, 0)%nat) by by_evaluation.
  assert (C2 : member_counts club_without_status = (5, 0, 5, 0)%nat) by by_evaluation.
  assert (S1 : has_column club "Status" = true) by by_evaluation.
  assert (S2 : has_column club_without_status "Status" = false) by by_evaluation.
  assert (A : ∀ r, r ∈ rows club → r !! "Status" = Some (Str "Pending")
                                   ∨ r !! "Status" = Some (Str "Active")
                                   ∨ r !! "Status" = Some (Str "Suspended")).
  { intros r Hr.
    repeat (apply elem_of_cons in Hr as [->|Hr];
            [first [by left | by right; left | by right; right]|]).
    inversion Hr. }
  split.
  - exact (proj1 (proj2 (proj2 (member_counts_add_up club _ _ _ _ C1))) S1 A).
  - exact (proj2 (proj2 (proj2 (member_counts_add_up club_without_status _ _ _ _ C2))) S2).
Defined.

(** X17.  In a directory with a Password column, a member who passes the
    status gate and whose Password cell is missing stores the text "nan":
    the member is authenticated by the password "nan" and by no other. *)
Theorem authenticate_user_missing_password username password members_df r :
  is_empty members_df = false →
  has_column members_df "Name" = true →
  has_column members_df "Password" = true →
  find_member username members_df = Some r →
  passes_status_gate members_df r = true →
  r !! "Password" = None →
  authenticate_user username password members_df
  = Ret (if String.eqb password "nan" then success username (role_of members_df r)
         else failure "Invalid credentials").
Proof.
  intros He HN HP Hf Hgate Hnone.
  rewrite (authenticate_user_found _ _ _ _ He HN Hf), Hgate.
  unfold correct_password, stored_credential. rewrite HP, Hnone. reflexivity.
Qed.

(** X18.  The "Reset Member Status" button on a directory that is not
    empty: the worksheet written has one row for each member, every row
    with Status "Active" and, in every other column of the directory, the
    text of the member's cell; so every row of it passes the status gate. *)
Theorem reset_member_status_activates members_df gs :
  online gs = true →
  is_empty members_df = false →
  (reset_member_status members_df gs).1 = true
  ∧ length (rows (members_ws (reset_member_status members_df gs).2))
    = length (rows members_df)
  ∧ (∀ r, r ∈ rows (members_ws (reset_member_status members_df gs).2) →
          r !! "Status" = Some (Str "Active")
          ∧ passes_status_gate (members_ws (reset_member_status members_df gs).2) r = true)
  ∧ (∀ j r c, rows members_df !! j = Some r → c ∈ columns members_df → c ≠ "Status" →
       ∃ r2, rows (members_ws (reset_member_status members_df gs).2) !! j = Some r2
             ∧ r2 !! c = Some (Str (str (r !! c)))).
Proof.
  intros Hon He.
  assert (He2 : is_empty (set_column members_df "Status" "Active") = false).
  { apply is_empty_false in He as [Hr Hc]. unfold is_empty, set_column. cbn [rows columns].
    apply orb_false_intro; apply bool_decide_eq_false.
    - destruct (rows members_df); [done|discriminate].
    - destruct (has_column members_df "Status"); [done|]. by destruct (columns members_df). }
  assert (HS : "Status" ∈ columns (set_column members_df "Status" "Active")).
  { unfold set_column. cbn [columns].
    destruct (has_column members_df "Status") eqn:Hc; [by apply has_column_true|].
    apply elem_of_app. right. by left. }
  unfold reset_member_status. rewrite save_online by done. cbn [fst snd members_ws].
  unfold astype_str. cbn [rows].
  split; [reflexivity|]. split; [|split].
  - unfold set_column. cbn [rows]. by rewrite !length_fmap.
  - intros r2 (r & -> & Hr)%list_elem_of_fmap.
    unfold set_column in Hr. cbn [rows] in Hr.
    apply list_elem_of_fmap in Hr as (r0 & -> & Hr0).
    assert (Hst : row_as_str (columns (set_column members_df "Status" "Active"))
                    (<["Status" := Str "Active"]> r0) !! "Status" = Some (Str "Active")).
    { rewrite row_as_str_lookup by done. by rewrite lookup_insert_eq. }
    split; [exact Hst|].
    unfold passes_status_gate, status_of.
    change (has_column {| columns := columns (set_column members_df "Status" "Active");
                          rows := _ |} "Status")
      with (bool_decide ("Status" ∈ columns (set_column members_df "Status" "Active"))).
    rewrite bool_decide_eq_true_2 by done. rewrite Hst. apply orb_true_r.
  - intros j r c Hr Hc Hne.
    exists (row_as_str (columns (set_column members_df "Status" "Active"))
              (<["Status" := Str "Active"]> r)).
    split.
    + unfold set_column. cbn [rows columns].
      rewrite !list_lookup_fmap, Hr. reflexivity.
    + rewrite row_as_str_lookup.
      * by rewrite lookup_insert_ne.
      * unfold set_column. cbn [columns].
        destruct (has_column members_df "Status"); [done|]. apply elem_of_app. by left.
Qed.

Lemma authenticate_user_missing_password_witness :
  authenticate_user "Bob" "nan" club_lost_password
  = Ret (if String.eqb "nan" "nan"
         then success "Bob" (role_of club_lost_password (delete "Password" bob))
         else failure "Invalid credentials").
Proof.
  assert (E : is_empty club_lost_password = false) by by_evaluation.
  assert (N : has_column club_lost_password "Name" = true) by by_evaluation.
  assert (P : has_column club_lost_password "Password" = true) by by_evaluation.
  assert (F : find_member "Bob" club_lost_password = Some (delete "Password" bob))
    by by_evaluation.
  assert (G : passes_status_gate club_lost_password (delete "Password" bob) = true)
    by by_evaluation.
  assert (M : delete "Password" bob !! "Password" = None) by by_evaluation.
  exact (authenticate_user_missing_password "Bob" "nan" club_lost_password
           (delete "Password" bob) E N P F G M).
Defined.

Lemma reset_member_status_activates_witness :
  (reset_member_status club backend).1 = true
  ∧ length (rows (members_ws (reset_member_status club backend).2)) = length (rows club)
  ∧ (∀ r, r ∈ rows (members_ws (reset_member_status club backend).2) →
          r !! "Status" = Some (Str "Active")
          ∧ passes_status_gate (members_ws (reset_member_status club backend).2) r = true)
  ∧ (∀ j r c, rows club !! j = Some r → c ∈ columns club → c ≠ "Status" →
       ∃ r2, rows (members_ws (reset_member_status club backend).2) !! j = Some r2
             ∧ r2 !! c = Some (Str (str (r !! c)))).
Proof.
  assert (O : online backend = true) by by_evaluation.
  assert (E : is_empty club = false) by by_evaluation.
  exact (reset_member_status_activates club backend O E).
Defined.

(** ** Task identifiers and task status *)

Section TaskProperties.

Variable num : string -> reading.

Lemma resample_exhausted (existing : gset Z) outputs :
  (∀ v, 100000 ≤ v ≤ 999999 → v ∈ existing) → resample existing outputs = None.
Proof.
  intros Hall. induction outputs as [|o outputs IH]; simpl; [reflexivity|].
  rewrite bool_decide_eq_true_2; [exact IH|]. apply Hall, randint_range. lia.
Qed.

(** X19.  When the TaskID set of a frame that is not empty covers the
    whole range 100000..999999, [generate_unique_taskid] never returns:
    whatever the random generator produces, and however much of it, the
    loop is still running; or, when a TaskID reads as an infinity, the
    call has raised before the loop. *)
Theorem generate_unique_taskid_exhausted tasks_df outputs :
  is_empty tasks_df = false →
  has_column tasks_df "TaskID" = true →
  (∀ v, 100000 ≤ v ≤ 999999 → v ∈ task_ids num tasks_df) →
  generate_unique_taskid num tasks_df outputs
  = if infinite_id num tasks_df then Raise IntCastingNaNError else Ret None.
Proof.
  intros He Hc Hall. rewrite generate_unique_taskid_cases, He, Hc. simpl.
  by rewrite resample_exhausted.
Qed.

(** [tasks_df["TaskID"] == task_id] as a mask. *)
Lemma first_index_app_last (m : mask) rs r :
  (∀ x, x ∈ rs → m x = false) → m r = true →
  first_index m (rs ++ [r])%list = Ret (length rs).
Proof.
  induction rs as [|x rs IH]; intros Habs Hr.
  - change (first_index m ([] ++ [r])%list)
      with (if m r then Ret O else j ← Raise IndexError; Ret (S j)).
    by rewrite Hr.
  - change (first_index m ((x :: rs) ++ [r])%list)
      with (if m x then Ret O else j ← first_index m (rs ++ [r])%list; Ret (S j)).
    rewrite (Habs x) by left. rewrite IH; [reflexivity| |done].
    intros y Hy. apply Habs. by right.
Qed.

Lemma update_task_status_found task_id new_status tasks_df ts i r :
  has_column tasks_df "TaskID" = true →
  first_index (fun r => value_eqb (r !! "TaskID") task_id) (rows tasks_df) = Ret i →
  rows tasks_df !! i = Some r →
  update_task_status task_id new_status tasks_df ts
  = Ret (tasks_online ts, with_field tasks_df i r "Status" new_status,
         if tasks_online ts
         then {| tasks_online := true;
                 tasks_ws := astype_str (with_field tasks_df i r "Status" new_status) |}
         else ts).
Proof.
  intros Hc Hi Hr. unfold update_task_status, col_eq. rewrite Hc. simpl.
  rewrite Hi. simpl. rewrite (at_set_with_field _ _ _ _ _ Hr).
  unfold update_tasks_sheet_optimized.
  destruct (tasks_online ts); [|reflexivity].
  assert (He : is_empty (with_field tasks_df i r "Status" new_status) = false).
  { rewrite <- (at_set_with_field _ _ _ _ _ Hr). apply is_empty_at_set.
    unfold is_empty. apply has_column_true in Hc.
    destruct (rows tasks_df); [discriminate|].
    destruct (columns tasks_df); [inversion Hc|]. reflexivity. }
  by rewrite He.
Qed.

(** A row whose TaskID equals an identifier, after the column may have
    been recast, held the identifier before. *)
Lemma same_id_fit df record r id :
  - 2 ^ 53 < id < 2 ^ 53 →
  value_eqb (fit df record r !! "TaskID") (Some (Int id)) = true →
  read_id num r = Some id.
Proof.
  intros Hid. unfold read_id. rewrite fit_lookup.
  destruct (r !! "TaskID") as [[s|z|z]|]; simpl;
    destruct (recast df record "TaskID"); simpl; try discriminate;
    intros H%Z.eqb_eq; f_equal; [|done..].
  by apply nearest_float_only.
Qed.

Lemma same_id_new_task df record id :
  - 2 ^ 53 < id < 2 ^ 53 → record !! "TaskID" = Some (Int id) →
  value_eqb (fit df record record !! "TaskID") (Some (Int id)) = true.
Proof.
  intros Hid Hr. rewrite fit_lookup, Hr. simpl.
  destruct (recast df record "TaskID"); simpl; [rewrite nearest_float_exact by done|];
    apply Z.eqb_refl.
Qed.

(** X20.  The status update of a task.  When no row has the task's
    TaskID the update raises IndexError.  After [assign_task] on a
    well-formed frame, the last row is the task just appended, as the
    frame stores it, and updating the status of the identifier drawn
    changes the Status of that row and nothing else. *)
Theorem update_task_status_of_new_task form new_status tasks_df outputs ts
    task_id tasks_df' outputs' :
  (has_column tasks_df "TaskID" = true →
   (∀ r, r ∈ rows tasks_df → value_eqb (r !! "TaskID") (Some (Int task_id)) = false) →
   update_task_status (Some (Int task_id)) new_status tasks_df ts = Raise IndexError)
  ∧ (well_formed tasks_df →
     assign_task num form tasks_df outputs = Ret (Some (task_id, tasks_df', outputs')) →
     ∃ r ts',
       rows tasks_df' !! pred (length (rows tasks_df')) = Some r
       ∧ stores r (new_task task_id form)
       ∧ update_task_status (Some (Int task_id)) new_status tasks_df' ts
         = Ret (tasks_online ts,
                with_field tasks_df' (pred (length (rows tasks_df'))) r
                  "Status" new_status, ts')).
Proof.
  split.
  - intros Hc Habs. unfold update_task_status, col_eq. rewrite Hc. simpl.
    by rewrite (first_index_absent _ _ Habs).
  - intros Hwf Ha.
    destruct (assign_task_accumulates num _ _ _ _ _ _ Ha) as ((Hrange & Hfresh) & _ & _).
    unfold assign_task in Ha.
    destruct (generate_unique_taskid num tasks_df outputs) as [[[id0 out0]|]|e];
      simpl in Ha; [|discriminate..].
    injection Ha as -> <- <-.
    pose proof (new_task_id task_id form) as Hid.
    destruct (is_empty tasks_df) eqn:He.
    + exists (new_task task_id form). eexists.
      split; [reflexivity|]. split; [intros c; by left|].
      apply update_task_status_found; [reflexivity| |reflexivity].
      change (rows (of_record task_keys (new_task task_id form)))
        with (([] ++ [new_task task_id form])%list).
      apply (first_index_app_last _ []); [intros x Hx; inversion Hx|].
      rewrite Hid. simpl. apply Z.eqb_refl.
    + set (record := new_task task_id form) in *.
      assert (Hlen : pred (length (rows (concat tasks_df task_keys record)))
                     = length (fit tasks_df record <$> rows tasks_df)).
      { rewrite rows_concat, length_app. simpl. lia. }
      rewrite Hlen.
      assert (Hlast : rows (concat tasks_df task_keys record)
                        !! length (fit tasks_df record <$> rows tasks_df)
                      = Some (fit tasks_df record record)).
      { rewrite rows_concat. by rewrite lookup_app_r, Nat.sub_diag. }
      exists (fit tasks_df record record). eexists.
      split; [exact Hlast|]. split; [apply fit_stores|].
      apply update_task_status_found; [|rewrite rows_concat|exact Hlast].
      * apply has_column_true, concat_has_key, (bool_decide_unpack _). reflexivity.
      * apply first_index_app_last; [|apply same_id_new_task; [lia|done]].
        intros x (r & -> & Hr)%list_elem_of_fmap. apply not_true_is_false. intros Heq.
        apply same_id_fit in Heq; [|lia].
        apply Hfresh. unfold task_ids.
        assert (Hcol : has_column tasks_df "TaskID" = true).
        { apply has_column_true. apply (Hwf r "TaskID" Hr).
          unfold read_id in Heq. by destruct (r !! "TaskID"). }
        rewrite Hcol.
        apply elem_of_list_to_set, list_elem_of_omap. by exists r.
Qed.

End TaskProperties.

Lemma generate_unique_taskid_exhausted_witness :
  generate_unique_taskid numeral all_ids_used [0; 1; 2; 3]
  = if infinite_id numeral all_ids_used then Raise IntCastingNaNError else Ret None.
Proof.
  assert (E : is_empty all_ids_used = false).
  { unfold is_empty, all_ids_used. cbn [rows columns].
    apply orb_false_intro; apply bool_decide_eq_false; [|discriminate].
    intros H. apply (f_equal length) in H. rewrite length_fmap, length_seqZ in H.
    discriminate. }
  assert (C : has_column all_ids_used "TaskID" = true) by reflexivity.
  assert (A : ∀ v, 100000 ≤ v ≤ 999999 → v ∈ task_ids numeral all_ids_used).
  { intros v Hv. unfold task_ids. rewrite C.
    apply elem_of_list_to_set, list_elem_of_omap. exists (task_with_id v). split.
    - unfold all_ids_used. cbn [rows]. apply list_elem_of_fmap. exists v.
      split; [reflexivity|]. apply elem_of_seqZ. lia.
    - unfold read_id, task_with_id. by rewrite lookup_singleton_eq. }
  exact (generate_unique_taskid_exhausted numeral all_ids_used [0; 1; 2; 3] E C A).
Defined.

Lemma update_task_status_of_new_task_witness :
  update_task_status (Some (Int 100002)) "Completed" two_tasks tasks_backend
  = Raise IndexError
  ∧ ∃ tasks_df' r ts',
      assign_task numeral (form_for "Flyers" "Carol") two_tasks [0; 1; 2]
      = Ret (Some (100002, tasks_df', []))
      ∧ rows tasks_df' !! 2%nat = Some r
      ∧ stores r (new_task 100002 (form_for "Flyers" "Carol"))
      ∧ update_task_status (Some (Int 100002)) "Completed" tasks_df' tasks_backend
        = Ret (true, with_field tasks_df' 2 r "Status" "Completed", ts').
Proof.
  assert (C : has_column two_tasks "TaskID" = true) by by_evaluation.
  assert (A : ∀ r, r ∈ rows two_tasks →
                   value_eqb (r !! "TaskID") (Some (Int 100002)) = false).
  { intros r Hr.
    repeat (apply elem_of_cons in Hr as [->|Hr]; [by_evaluation|]).
    inversion Hr. }
  assert (W : well_formed two_tasks).
  { intros r c Hr Hc. apply elem_of_dom in Hc.
    assert (Hsub : dom r ⊆ (list_to_set (columns two_tasks) : gset string)).
    { repeat (apply elem_of_cons in Hr as [->|Hr];
              [apply (bool_decide_unpack _); vm_compute; exact I|]).
      inversion Hr. }
    apply Hsub in Hc. by apply elem_of_list_to_set in Hc. }
  assert (G : assign_task numeral (form_for "Flyers" "Carol") two_tasks [0; 1; 2]
              = Ret (Some (100002,
                           concat two_tasks task_keys
                             (new_task 100002 (form_for "Flyers" "Carol")),
                           []))) by by_evaluation.
  pose proof (update_task_status_of_new_task numeral (form_for "Flyers" "Carol")
                "Completed" two_tasks [0; 1; 2] tasks_backend 100002
                (concat two_tasks task_keys (new_task 100002 (form_for "Flyers" "Carol")))
                []) as [H1 H2].
  split; [exact (H1 C A)|].
  destruct (H2 W G) as (r & ts' & Hrow & Hst & Hupd).
  exists (concat two_tasks task_keys (new_task 100002 (form_for "Flyers" "Carol"))), r, ts'.
  split; [exact G|]. split; [exact Hrow|]. split; [exact Hst|exact Hupd].
Defined.

(** ** What is written to the worksheets *)

Lemma row_as_str_lookup_absent (cols : list string) (r : gmap string cell) c :
  c ∉ cols → row_as_str cols r !! c = None.
Proof.
  unfold row_as_str. induction cols as [|k cols IH]; intros Hc; [apply lookup_empty|].
  rewrite fmap_cons, list_to_map_cons.
  apply not_elem_of_cons in Hc as [Hne Hc].
  rewrite lookup_insert_ne by done. by apply IH.
Qed.

Lemma row_as_str_again (cols : list string) (r : gmap string cell) :
  row_as_str cols (row_as_str cols r) = row_as_str cols r.
Proof.
  apply map_eq. intros c. destruct (decide (c ∈ cols)) as [Hin|Hout].
  - rewrite !row_as_str_lookup by done. reflexivity.
  - by rewrite !row_as_str_lookup_absent.
Qed.

Lemma astype_str_again df : astype_str (astype_str df) = astype_str df.
Proof.
  unfold astype_str. cbn [rows columns]. f_equal.
  rewrite <- list_fmap_compose. apply list_fmap_ext. intros i r _. simpl.
  apply row_as_str_again.
Qed.

Lemma is_empty_astype_str df : is_empty (astype_str df) = is_empty df.
Proof.
  unfold is_empty, astype_str. cbn [rows columns]. f_equal.
  by destruct (rows df).
Qed.

(** X21.  What the program writes is text, so writing it again changes
    nothing: after a successful write of any frame to the Members or to
    the Tasks worksheet, writing the content of the worksheet back leaves
    the worksheet exactly as it is. *)
Theorem worksheet_write_idempotent df gs ts :
  (online gs = true →
   update_members_sheet_optimized
     (members_ws (update_members_sheet_optimized df gs).2)
     (update_members_sheet_optimized df gs).2
   = (true, (update_members_sheet_optimized df gs).2))
  ∧ (tasks_online ts = true →
     update_tasks_sheet_optimized
       (tasks_ws (update_tasks_sheet_optimized df ts).2)
       (update_tasks_sheet_optimized df ts).2
     = (true, (update_tasks_sheet_optimized df ts).2)).
Proof.
  split; intros Hon.
  - unfold update_members_sheet_optimized. rewrite Hon. cbn [fst snd online members_ws].
    destruct (is_empty df) eqn:He; cbn [negb].
    + reflexivity.
    + by rewrite is_empty_astype_str, He, astype_str_again.
  - unfold update_tasks_sheet_optimized. rewrite Hon.
    cbn [fst snd tasks_online tasks_ws].
    destruct (is_empty df) eqn:He; cbn [negb].
    + reflexivity.
    + by rewrite is_empty_astype_str, He, astype_str_again.
Qed.

Lemma worksheet_write_idempotent_witness :
  update_members_sheet_optimized
    (members_ws (update_members_sheet_optimized club backend).2)
    (update_members_sheet_optimized club backend).2
  = (true, (update_members_sheet_optimized club backend).2)
  ∧ update_tasks_sheet_optimized
      (tasks_ws (update_tasks_sheet_optimized two_tasks tasks_backend).2)
      (update_tasks_sheet_optimized two_tasks tasks_backend).2
    = (true, (update_tasks_sheet_optimized two_tasks tasks_backend).2).
Proof.
  assert (O1 : online backend = true) by by_evaluation.
  assert (O2 : tasks_online tasks_backend = true) by by_evaluation.
  split.
  - exact (proj1 (worksheet_write_idempotent club backend tasks_backend) O1).
  - exact (proj2 (worksheet_write_idempotent two_tasks backend tasks_backend) O2).
Defined.

(** ** Registration into a directory that is not empty *)

Lemma rows_written_concat df keys record :
  rows (astype_str (concat df keys record))
  = ((row_as_str (columns (concat df keys record)) <$> (fit df record <$> rows df))
     ++ [row_as_str (columns (concat df keys record)) (fit df record record)])%list.
Proof. unfold astype_str. cbn [rows columns]. by rewrite rows_concat, fmap_app. Qed.

Lemma concat_keeps_column df keys record c :
  c ∈ columns df → c ∈ columns (concat df keys record).
Proof. intros Hc. unfold concat. cbn [columns]. apply elem_of_app. by left. Qed.

(** The type of the columns of a concatenation. *)
Lemma recast_text_record df record c s :
  record !! c = Some (Str s) → recast df record c = false.
Proof.
  intros H. unfold recast. rewrite H. apply bool_decide_eq_false.
  change (dtype_of [Some (Str s)]) with object.
  by destruct (dtype_of _).
Qed.

Lemma dtype_of_text series s : Some (Str s) ∈ series → dtype_of series = object.
Proof.
  intros Hin.
  assert (H : ∀ p : value → bool, p (Some (Str s)) = false → forallb p series = false).
  { intros p Hp. apply not_true_is_false. intros Hall.
    rewrite forallb_forall in Hall.
    rewrite (Hall (Some (Str s))) in Hp; [discriminate|by apply list_elem_of_In]. }
  unfold dtype_of. by rewrite !H.
Qed.

Lemma recast_text_column df record c : holds_text df c → recast df record c = false.
Proof.
  intros (r & s & Hr & Hc). unfold recast. rewrite (dtype_of_text _ s).
  - by apply bool_decide_eq_false.
  - rewrite <- Hc. apply list_elem_of_fmap. by exists r.
Qed.

Lemma recast_whole_numbers df record c :
  is_empty df = false → whole_numbers df c → record !! c = None →
  recast df record c = true.
Proof.
  intros [Hne _]%is_empty_false Hw Hnone. unfold recast. rewrite Hnone.
  unfold whole_numbers in Hw.
  change (dtype_of [None]) with float64.
  assert (Hint : dtype_of ((fun r : gmap string cell => r !! c) <$> rows df) = int64).
  { unfold dtype_of. destruct (rows df) as [|r rs]; [done|].
    assert (Hfloat : forallb is_float
                       ((fun r : gmap string cell => r !! c) <$> r :: rs) = false).
    { rewrite fmap_cons. destruct (Hw r) as (z & -> & _); [by left|]. reflexivity. }
    assert (Hall : forallb (is_int (- 2 ^ 63) (2 ^ 63))
                     ((fun r : gmap string cell => r !! c) <$> r :: rs) = true).
    { apply forallb_forall. intros v (r' & -> & Hr')%list_elem_of_In%list_elem_of_fmap.
      destruct (Hw r' Hr') as (z & -> & Hz). unfold is_int.
      apply andb_true_intro. split; [apply Z.leb_le|apply Z.ltb_lt]; lia. }
    by rewrite Hfloat, Hall. }
  rewrite Hint. by apply bool_decide_eq_true.
Qed.

Lemma fit_lookup_same df record r c s :
  record !! c = Some (Str s) → fit df record r !! c = r !! c.
Proof.
  intros H. rewrite fit_lookup, (recast_text_record _ _ _ _ H). by destruct (r !! c).
Qed.

Lemma str_fit df record r c :
  recast df record c = false ∨ (∀ z, r !! c ≠ Some (Int z)) →
  str (fit df record r !! c) = str (r !! c).
Proof.
  intros H. rewrite fit_lookup.
  destruct (recast df record c); [|by destruct (r !! c)].
  destruct H as [H|H]; [done|].
  destruct (r !! c) as [[s|z|z]|]; try reflexivity. by destruct (H z).
Qed.

Lemma float_repr_small z : - 10 ^ 16 < z < 10 ^ 16 → float_repr z = pretty z +:+ ".0".
Proof.
  intros H. unfold float_repr.
  destruct (Z.ltb_spec (Z.abs z) (10 ^ 16)) as [_|Hbig]; [|lia].
  by destruct z.
Qed.

Lemma new_user_text name role hashed_pw status approved_by now c :
  c ∈ new_user_keys →
  ∃ s, new_user name role hashed_pw status approved_by now !! c = Some (Str s).
Proof.
  intros Hc.
  repeat (apply elem_of_cons in Hc as [->|Hc]; [eexists; reflexivity|]).
  inversion Hc.
Qed.

Lemma new_user_other name role hashed_pw status approved_by now c :
  c ∉ new_user_keys → new_user name role hashed_pw status approved_by now !! c = None.
Proof. intros Hc. unfold new_user. by apply not_elem_of_list_to_map_1. Qed.

(** X22.  A registration into a directory that is not empty adds one row
    at the end and keeps every member already there.  The worksheet
    written has, at each earlier position, the text of the cell that was
    there under every account column, under every column that holds a
    text, and for every cell that is not an integer.  A column of
    integers that is not an account column gets a missing value in the
    new row: it is recast to float64, and each of its integers is written
    as a float, "2024.0" for 2024.  The columns written are those of the
    directory together with the six account columns. *)
Theorem register_user_appends name password role members_df now gs :
  online gs = true →
  is_empty members_df = false →
  has_column members_df "Name" = true →
  (∀ r, r ∈ rows members_df → r !! "Name" ≠ Some (Str name)) →
  ∃ msg gs',
    register_user name password role members_df now gs = Ret ((true, msg), gs')
    ∧ length (rows (members_ws gs')) = S (length (rows members_df))
    ∧ (∀ j r c, rows members_df !! j = Some r → c ∈ columns members_df →
         c ∈ new_user_keys ∨ holds_text members_df c ∨ (∀ z, r !! c ≠ Some (Int z)) →
         ∃ r2, rows (members_ws gs') !! j = Some r2
               ∧ r2 !! c = Some (Str (str (r !! c))))
    ∧ (∀ j r c z, rows members_df !! j = Some r → c ∈ columns members_df →
         c ∉ new_user_keys → whole_numbers members_df c → r !! c = Some (Int z) →
         ∃ r2, rows (members_ws gs') !! j = Some r2
               ∧ r2 !! c = Some (Str (pretty z +:+ ".0")))
    ∧ (∀ c, c ∈ columns (members_ws gs') ↔ c ∈ columns members_df ∨ c ∈ new_user_keys).
Proof.
  intros Hon He HN Habs. rewrite register_user_next by done.
  eexists _, _. split; [reflexivity|]. cbn [members_ws].
  set (record := new_user name role (hash_password password) "Pending" "" now).
  rewrite rows_written_concat.
  assert (Hrow : ∀ j r, rows members_df !! j = Some r →
            ((row_as_str (columns (concat members_df new_user_keys record))
              <$> (fit members_df record <$> rows members_df))
             ++ [row_as_str (columns (concat members_df new_user_keys record))
                   (fit members_df record record)])%list !! j
            = Some (row_as_str (columns (concat members_df new_user_keys record))
                      (fit members_df record r))).
  { intros j r Hr.
    rewrite lookup_app_l by (rewrite !length_fmap; by eapply lookup_lt_Some).
    by rewrite !list_lookup_fmap, Hr. }
  split; [|split; [|split]].
  - rewrite length_app, !length_fmap. simpl. lia.
  - intros j r c Hr Hc Hkept. eexists. split; [by apply Hrow|].
    rewrite row_as_str_lookup by (by apply concat_keeps_column).
    rewrite str_fit; [reflexivity|].
    destruct Hkept as [Hk|[Ht|Hn]]; [left|left|by right].
    + destruct (new_user_text name role (hash_password password) "Pending" "" now c Hk)
        as [s Hs].
      by apply (recast_text_record _ _ _ s).
    + by apply recast_text_column.
  - intros j r c z Hr Hc Hk Hw Hz. eexists. split; [by apply Hrow|].
    rewrite row_as_str_lookup by (by apply concat_keeps_column).
    rewrite fit_lookup, Hz, recast_whole_numbers;
      [|done|done|by apply new_user_other].
    destruct (Hw r) as (z' & Hz' & Hrange); [by eapply list_elem_of_lookup_2|].
    rewrite Hz in Hz'. injection Hz' as <-.
    cbn [fmap option_fmap option_map as_float].
    rewrite nearest_float_exact by done. unfold str.
    rewrite float_repr_small by lia. reflexivity.
  - intros c. unfold astype_str, concat. cbn [columns].
    rewrite elem_of_app, elem_of_filter_rows. split.
    + intros [?|[? _]]; auto.
    + intros [Hc|Hk]; [by left|].
      destruct (has_column members_df c) eqn:Hcol.
      * left. by apply has_column_true.
      * right. split; [done|]. reflexivity.
Qed.

Lemma register_user_appends_witness :
  ∃ msg gs',
    register_user "Frank" "secret" "Dev" club_by_year "2024-02-01 10:00:00" backend
    = Ret ((true, msg), gs')
    ∧ length (rows (members_ws gs')) = S (length (rows club_by_year))
    ∧ (∀ j r c, rows club_by_year !! j = Some r → c ∈ columns club_by_year →
         c ∈ new_user_keys ∨ holds_text club_by_year c ∨ (∀ z, r !! c ≠ Some (Int z)) →
         ∃ r2, rows (members_ws gs') !! j = Some r2
               ∧ r2 !! c = Some (Str (str (r !! c))))
    ∧ (∀ j r c z, rows club_by_year !! j = Some r → c ∈ columns club_by_year →
         c ∉ new_user_keys → whole_numbers club_by_year c → r !! c = Some (Int z) →
         ∃ r2, rows (members_ws gs') !! j = Some r2
               ∧ r2 !! c = Some (Str (pretty z +:+ ".0")))
    ∧ (∀ c, c ∈ columns (members_ws gs') ↔ c ∈ columns club_by_year ∨ c ∈ new_user_keys).
Proof.
  assert (O : online backend = true) by by_evaluation.
  assert (E : is_empty club_by_year = false) by by_evaluation.
  assert (N : has_column club_by_year "Name" = true) by by_evaluation.
  assert (A : ∀ r, r ∈ rows club_by_year → r !! "Name" ≠ Some (Str "Frank")).
  { intros r Hr.
    repeat (apply elem_of_cons in Hr as [->|Hr]; [by_evaluation|]).
    inversion Hr. }
  exact (register_user_appends "Frank" "secret" "Dev" club_by_year "2024-02-01 10:00:00"
           backend O E N A).
Defined.

(** In [club_by_year] the Year column holds integers only and the Badge
    column an integer beside texts: after Frank registers, Alice's year
    2021 is written "2021.0" and her badge 7 is written "7". *)
Example register_user_recasts_year :
  ∃ msg gs' r2,
    register_user "Frank" "secret" "Dev" club_by_year "2024-02-01 10:00:00" backend
    = Ret ((true, msg), gs')
    ∧ rows (members_ws gs') !! 0%nat = Some r2
    ∧ r2 !! "Year" = Some (Str "2021.0")
    ∧ r2 !! "Badge" = Some (Str "7")
    ∧ r2 !! "Name" = Some (Str "Alice").
Proof.
  eexists _, _, _. split; [reflexivity|]. split; [reflexivity|].
  split; [|split]; reflexivity.
Qed.

Lemma filter_all_false {A : Type} (p : A → bool) (l : list A) :
  (∀ x, x ∈ l → p x = false) → List.filter p l = [].
Proof.
  induction l as [|x l IH]; simpl; intros H; [reflexivity|].
  rewrite (H x) by left. apply IH. intros y Hy. apply H. by right.
Qed.

(** X23.  Registering into a directory that is not empty, under a name
    that is the text of no Name cell there, and logging in at once with
    the same password on the directory written: a member of any role but
    Dev is refused with "Account pending approval", while a Dev, although
    stored Pending, is authenticated. *)
Theorem register_then_authenticate_pending name password role members_df now gs :
  online gs = true →
  is_empty members_df = false →
  has_column members_df "Name" = true →
  (∀ r, r ∈ rows members_df → str (r !! "Name") ≠ name) →
  ∃ msg gs',
    register_user name password role members_df now gs = Ret ((true, msg), gs')
    ∧ stored_last gs' name role (hash_password password) "Pending" ""
    ∧ authenticate_user name password (members_ws gs')
      = Ret (if String.eqb role "Dev" then success name (Some (Str "Dev"))
             else failure "Account pending approval").
Proof.
  intros Hon He HN Hstr.
  assert (Habs : ∀ r, r ∈ rows members_df → r !! "Name" ≠ Some (Str name)).
  { intros r Hr Hn. apply (Hstr r Hr). by rewrite Hn. }
  rewrite register_user_next by done.
  eexists _, _. split; [reflexivity|]. split; [apply stored_last_concat|].
  cbn [members_ws].
  set (record := new_user name role (hash_password password) "Pending" "" now).
  set (written := astype_str (concat members_df new_user_keys record)).
  set (r := row_as_str (columns (concat members_df new_user_keys record))
              (fit members_df record record)).
  assert (Hkey : ∀ k, k ∈ new_user_keys →
                      k ∈ columns (concat members_df new_user_keys record)).
  { intros k Hk. by apply concat_has_key. }
  assert (Hin : ∀ k, bool_decide (k ∈ new_user_keys) = true →
                     has_column written k = true).
  { intros k Hk. apply has_column_true, Hkey. by apply bool_decide_eq_true_1 in Hk. }
  assert (Hcell : ∀ k, bool_decide (k ∈ new_user_keys) = true →
                       r !! k = Some (Str (str (record !! k)))).
  { intros k Hk%bool_decide_eq_true_1. unfold r.
    rewrite row_as_str_lookup by (by apply Hkey).
    destruct (new_user_text name role (hash_password password) "Pending" "" now k Hk)
      as [s Hs].
    by rewrite (fit_lookup_same _ _ _ _ s Hs). }
  assert (Hfind : find_member name written = Some r).
  { unfold find_member, written. rewrite rows_written_concat.
    rewrite List.filter_app, filter_all_false.
    - change (head (if is_text (r !! "Name") name then [r] else []) = Some r).
      rewrite (Hcell "Name") by reflexivity.
      change (str (record !! "Name")) with name. cbn [is_text].
      by rewrite String.eqb_refl.
    - intros x (r1 & -> & (r0 & -> & Hr0)%list_elem_of_fmap)%list_elem_of_fmap.
      rewrite row_as_str_lookup by (apply Hkey, (bool_decide_unpack _); reflexivity).
      rewrite (fit_lookup_same _ _ _ _ name) by reflexivity.
      simpl. apply String.eqb_neq. by apply Hstr. }
  rewrite (authenticate_user_found name password written r).
  - unfold passes_status_gate, status_of, role_of, correct_password, stored_credential.
    rewrite !Hin by reflexivity. rewrite !Hcell by reflexivity.
    change (str (record !! "Role")) with role.
    change (str (record !! "Status")) with "Pending".
    change (str (Some (Str (str (record !! "Password")))))
      with (hash_password password).
    cbn [is_text]. change (String.eqb "Pending" "Active") with false.
    rewrite orb_false_r.
    destruct (String.eqb role "Dev") eqn:Hrole.
    + apply String.eqb_eq in Hrole as ->.
      rewrite hash_password_looks_like_hash, String.eqb_refl. reflexivity.
    + reflexivity.
  - unfold written. rewrite is_empty_astype_str. by apply is_empty_concat.
  - apply Hin. reflexivity.
  - exact Hfind.
Qed.

Lemma register_then_authenticate_pending_witness :
  ∃ msg gs',
    register_user "Heidi" "pw" "Junior Head" club "2024-02-01 10:00:00" backend
    = Ret ((true, msg), gs')
    ∧ stored_last gs' "Heidi" "Junior Head" (hash_password "pw") "Pending" ""
    ∧ authenticate_user "Heidi" "pw" (members_ws gs')
      = Ret (if String.eqb "Junior Head" "Dev" then success "Heidi" (Some (Str "Dev"))
             else failure "Account pending approval").
Proof.
  assert (O : online backend = true) by by_evaluation.
  assert (E : is_empty club = false) by by_evaluation.
  assert (N : has_column club "Name" = true) by by_evaluation.
  assert (A : ∀ r, r ∈ rows club → str (r !! "Name") ≠ "Heidi").
  { intros r Hr.
    repeat (apply elem_of_cons in Hr as [->|Hr]; [by_evaluation|]).
    inversion Hr. }
  exact (register_then_authenticate_pending "Heidi" "pw" "Junior Head" club
           "2024-02-01 10:00:00" backend O E N A).
Defined.

Lemma written_names_concat df keys record name :
  "Name" ∈ keys → record !! "Name" = Some (Str name) →
  (fun r : gmap string cell => r !! "Name") <$> rows (astype_str (concat df keys record))
  = (((fun r : gmap string cell => Some (Str (str (r !! "Name")))) <$> rows df)
     ++ [Some (Str name)])%list.
Proof.
  intros Hk Hn. rewrite rows_written_concat, fmap_app. f_equal.
  - rewrite <- !list_fmap_compose. apply list_fmap_ext. intros i r _. simpl.
    rewrite row_as_str_lookup by (by apply (concat_has_key df keys record)).
    by rewrite (fit_lookup_same _ _ _ _ name).
  - cbn [fmap list_fmap].
    rewrite row_as_str_lookup by (by apply (concat_has_key df keys record)).
    by rewrite (fit_lookup_same _ _ _ _ name), Hn.
Qed.

(** X24.  Registration keeps names unique: when the Name cells of a
    directory that is not empty are pairwise different as text, and the
    new name is the text of none of them, the directory written after the
    registration has unique names. *)
Theorem register_user_keeps_names_unique name password role members_df now gs :
  online gs = true →
  is_empty members_df = false →
  has_column members_df "Name" = true →
  NoDup ((fun r : gmap string cell => str (r !! "Name")) <$> rows members_df) →
  (∀ r, r ∈ rows members_df → str (r !! "Name") ≠ name) →
  ∃ msg gs',
    register_user name password role members_df now gs = Ret ((true, msg), gs')
    ∧ unique_names (members_ws gs').
Proof.
  intros Hon He HN Hnd Hstr.
  assert (Habs : ∀ r, r ∈ rows members_df → r !! "Name" ≠ Some (Str name)).
  { intros r Hr Hn. apply (Hstr r Hr). by rewrite Hn. }
  rewrite register_user_next by done.
  eexists _, _. split; [reflexivity|]. unfold unique_names. cbn [members_ws].
  rewrite (written_names_concat _ _ _ name);
    [|apply (bool_decide_unpack _); reflexivity|reflexivity].
  apply NoDup_app. split; [|split].
  - change ((fun r : gmap string cell => Some (Str (str (r !! "Name")))) <$> rows members_df)
      with (((fun s => Some (Str s)) ∘ (fun r : gmap string cell => str (r !! "Name")))
            <$> rows members_df).
    rewrite (list_fmap_compose (fun r : gmap string cell => str (r !! "Name"))
               (fun s => Some (Str s))).
    apply NoDup_fmap_2; [|exact Hnd]. intros x y [=]. done.
  - intros v (r & -> & Hr)%list_elem_of_fmap [= Heq]%list_elem_of_singleton.
    by apply (Hstr r Hr).
  - apply NoDup_singleton.
Qed.

Lemma register_user_keeps_names_unique_witness :
  ∃ msg gs',
    register_user "Heidi" "pw" "Junior Head" club "2024-02-01 10:00:00" backend
    = Ret ((true, msg), gs')
    ∧ unique_names (members_ws gs').
Proof.
  assert (O : online backend = true) by by_evaluation.
  assert (E : is_empty club = false) by by_evaluation.
  assert (N : has_column club "Name" = true) by by_evaluation.
  assert (U : NoDup ((fun r : gmap string cell => str (r !! "Name")) <$> rows club))
    by (apply (bool_decide_unpack _); vm_compute; exact I).
  assert (A : ∀ r, r ∈ rows club → str (r !! "Name") ≠ "Heidi").
  { intros r Hr.
    repeat (apply elem_of_cons in Hr as [->|Hr]; [by_evaluation|]).
    inversion Hr. }
  exact (register_user_keeps_names_unique "Heidi" "pw" "Junior Head" club
           "2024-02-01 10:00:00" backend O E N U A).
Defined.
